(** * finetune_lm: a shallow embedding of the fine-tuning script

    The script fine-tunes a pretrained encoder as a node-text classifier
    on Cora and repeats the experiment over five seeds.  This file embeds
    the parts that are the script's own code:

    - [NCDataset] (lines 11-22),
    - [BertClassifier] and its [forward] (lines 24-64),
    - [collect_txt] and the mask-to-index conversion (lines 66-70, 126-131),
    - [mean_pooling] (lines 73-76),
    - the driver loop and the final statistics (lines 114-187).

    Library calls (torch, numpy, Python built-ins) are modelled by what
    they are documented to do on the values the script passes; the
    collaborators that load data, tokenize, train and predict are the
    fields of a record the driver is given.
    Float tensors are read in exact arithmetic: [Q] where the code only adds,
    multiplies, divides and compares, [R] where it needs [exp], [ln] or
    [sqrt]. *)

From Stdlib Require Import ZArith QArith Qround Qreals Reals Psatz.
From Stdlib Require Import List String Ascii DecimalString.
From stdpp Require Import base gmap strings list.

Open Scope Z_scope.

(** ** Python exceptions and fallible results *)

Inductive exn : Type :=
| TypeError
| IndexError
| ValueError
| KeyError
| AttributeError
| RuntimeError.

Inductive result (A : Type) : Type :=
| Ok (a : A)
| Raise (e : exn).

Arguments Ok {A} a.
Arguments Raise {A} e.

#[global] Instance result_ret : MRet result := fun A a => Ok a.

#[global] Instance result_bind : MBind result := fun A B k r =>
  match r with
  | Ok a => k a
  | Raise e => Raise e
  end.

Definition is_ok {A : Type} (r : result A) : bool :=
  match r with Ok _ => true | Raise _ => false end.

(** [l[i]] on a Python list (and on the first axis of a tensor): negative
    indices count from the end, anything outside [-len, len) raises
    IndexError. *)
Definition py_getitem {A : Type} (l : list A) (i : Z) : result A :=
  let n := Z.of_nat (length l) in
  let j := if i <? 0 then i + n else i in
  if (0 <=? j) && (j <? n)
  then match l !! Z.to_nat j with
       | Some x => Ok x
       | None => Raise IndexError
       end
  else Raise IndexError.

(** The entry that [val[idx]] selects, when there is one. *)
Definition selected {V : Type} (idx : Z) (val : list V) : option V :=
  match py_getitem val idx with
  | Ok x => Some x
  | Raise _ => None
  end.

(** The indices Python accepts for a sequence. *)
Definition in_range {V : Type} (idx : Z) (val : list V) : Prop :=
  - Z.of_nat (length val) <= idx < Z.of_nat (length val).

(** ** Split builder: masks to index lists, index lists to texts *)

Module Split.

(** Integer tensors of rank 0, 1 and 2, as the conversion chain
    [mask.nonzero().squeeze().tolist()] produces them.  A rank-2 tensor
    carries its shape, so that the shape (0, 1) of an empty [nonzero]
    result is not lost. *)
Inductive itensor : Type :=
| Rank0 (z : Z)
| Rank1 (l : list Z)
| Rank2 (nrows ncols : nat) (data : list (list Z)).

(** What [tolist()] hands back to Python: a bare int for a rank-0 tensor,
    a list of ints for rank 1, a list of lists for rank 2. *)
Inductive pyobj : Type :=
| PyInt (z : Z)
| PyIntList (l : list Z)
| PyIntListList (l : list (list Z)).

(** [mask.nonzero()] on a rank-1 boolean tensor: one row [[i]] per true
    position i, in increasing i; the result has shape (k, 1). *)
Fixpoint nonzero_from (i : Z) (mask : list bool) : list (list Z) :=
  match mask with
  | [] => []
  | b :: rest =>
      if b then [i] :: nonzero_from (i + 1) rest
      else nonzero_from (i + 1) rest
  end.

Definition nonzero (mask : list bool) : itensor :=
  let data := nonzero_from 0 mask in
  Rank2 (length data) 1 data.

(** [t.squeeze()] without a dimension argument drops every axis of size 1
    and keeps the elements in storage order. *)
Definition squeeze (t : itensor) : itensor :=
  match t with
  | Rank0 z => Rank0 z
  | Rank1 l =>
      match l with
      | [z] => Rank0 z
      | _ => Rank1 l
      end
  | Rank2 r c data =>
      let flat := concat data in
      if (r =? 1)%nat && (c =? 1)%nat then
        match flat with
        | [z] => Rank0 z
        | _ => Rank2 r c data
        end
      else if (r =? 1)%nat || (c =? 1)%nat then Rank1 flat
      else Rank2 r c data
  end.

Definition tolist (t : itensor) : pyobj :=
  match t with
  | Rank0 z => PyInt z
  | Rank1 l => PyIntList l
  | Rank2 _ _ data => PyIntListList data
  end.

(** Lines 126-128: [mask.nonzero().squeeze().tolist()]. *)
Definition mask_to_idx (mask : list bool) : pyobj :=
  tolist (squeeze (nonzero mask)).

(** Lines 66-70.  The loop appends [txt[i]] to [tmp] for each [i] of
    [idx]; iterating an int raises TypeError, and so does indexing a list
    with a list. *)
Fixpoint collect_loop {A : Type} (idx : list Z) (txt : list A) (tmp : list A)
  : result (list A) :=
  match idx with
  | [] => Ok tmp
  | i :: rest =>
      x ← py_getitem txt i;
      collect_loop rest txt (tmp ++ [x])
  end.

Definition collect_txt {A : Type} (idx : pyobj) (txt : list A) : result (list A) :=
  match idx with
  | PyInt _ => Raise TypeError
  | PyIntList l => collect_loop l txt []
  | PyIntListList [] => Ok []
  | PyIntListList (_ :: _) => Raise TypeError
  end.

(** Lines 137-139: [data.y[idx]], indexing a rank-1 tensor by what
    [tolist()] returned.  An int selects one element (rank 0), a list of
    ints gathers (rank 1). *)
Definition index_labels (y : list Z) (idx : pyobj) : result itensor :=
  match idx with
  | PyInt i => z ← py_getitem y i; Ok (Rank0 z)
  | PyIntList l => ys ← collect_loop l y []; Ok (Rank1 ys)
  | PyIntListList ll =>
      rows ← mapM (fun l => collect_loop l y []) ll;
      Ok (Rank2 (length ll) (length (hd [] ll)) rows)
  end.

(** Reference notions the properties below are stated with. *)

Definition count_true (mask : list bool) : nat :=
  length (List.filter (fun b : bool => b) mask).

(** The entries of [xs] at the positions where [mask] is true, in order. *)
Fixpoint select_by_mask {A : Type} (mask : list bool) (xs : list A) : list A :=
  match mask, xs with
  | b :: m, x :: r => if b then x :: select_by_mask m r else select_by_mask m r
  | _, _ => []
  end.

Fixpoint strictly_ascending (l : list Z) : bool :=
  match l with
  | [] => true
  | x :: r =>
      match r with
      | [] => true
      | y :: _ => (x <? y) && strictly_ascending r
      end
  end.

End Split.

(** ** NCDataset (lines 11-22) *)

Module NCDataset.

Section Dataset.
Context {V : Type}.

(** [encodings] maps a field name to a sequence indexed by example;
    [labels] is a sequence indexed by example.  The constructor only
    stores its two arguments. *)
Record t : Type := init {
  encodings : gmap string (list V);
  labels : list V
}.

(** The dict comprehension [{key: val[idx] for key, val in
    self.encodings.items()}]: each entry is indexed in turn, and the first
    failing [val[idx]] aborts the comprehension. *)
Definition index_all (enc : gmap string (list V)) (idx : Z)
  : result (gmap string V) :=
  map_fold (fun key val acc =>
              item ← acc;
              x ← py_getitem val idx;
              Ok (<[key := x]> item))
           (Ok ∅) enc.

(** [__getitem__]: build the item, then assign [item['labels']]. *)
Definition getitem (self : t) (idx : Z) : result (gmap string V) :=
  item ← index_all (encodings self) idx;
  lab ← py_getitem (labels self) idx;
  Ok (<["labels"%string := lab]> item).

(** [__len__]. *)
Definition len (self : t) : nat := length (labels self).

End Dataset.

Arguments t V : clear implicits.

End NCDataset.

(** ** Tensors as a shape and an element function *)

Record tensor2 (T : Type) : Type := Tensor2 {
  rows : nat;
  cols : nat;
  at2 : nat -> nat -> T
}.

Record tensor3 (T : Type) : Type := Tensor3 {
  dim0 : nat;
  dim1 : nat;
  dim2 : nat;
  at3 : nat -> nat -> nat -> T
}.

Arguments Tensor2 {T} rows cols at2.
Arguments rows {T} t.
Arguments cols {T} t.
Arguments at2 {T} t i j.
Arguments Tensor3 {T} dim0 dim1 dim2 at3.
Arguments dim0 {T} t.
Arguments dim1 {T} t.
Arguments dim2 {T} t.
Arguments at3 {T} t i j k.

(** [t.permute(1, 0, 2)]: swap the first two axes. *)
Definition permute_1_0_2 {T : Type} (t : tensor3 T) : tensor3 T :=
  Tensor3 (dim1 t) (dim0 t) (dim2 t) (fun s b h => at3 t b s h).

(** [t[0]] on a rank-3 tensor: the slice at index 0 of the first axis;
    IndexError when that axis is empty. *)
Definition first_slice {T : Type} (t : tensor3 T) : result (tensor2 T) :=
  if (dim0 t =? 0)%nat then Raise IndexError
  else Ok (Tensor2 (dim1 t) (dim2 t) (fun b h => at3 t 0%nat b h)).

(** Sum of [f 0 .. f (n-1)] over the reals. *)
Fixpoint rsum (n : nat) (f : nat -> R) : R :=
  match n with
  | O => 0%R
  | S k => (rsum k f + f k)%R
  end.

(** ** torch.nn.CrossEntropyLoss, as [BertClassifier] configures and calls it *)

Module Loss.

Inductive reduction_mode : Type := ReduceNone | ReduceMean | ReduceSum.

(** The constructor's keyword arguments that matter for a class-index
    target without class weights. *)
Record CrossEntropyLoss : Type := {
  ignore_index : Z;
  reduction : reduction_mode;
  label_smoothing : R
}.

(** [nn.CrossEntropyLoss()] with every keyword left at its default. *)
Definition defaults : CrossEntropyLoss :=
  {| ignore_index := -100; reduction := ReduceMean; label_smoothing := 0%R |}.

(** A float scalar is a real number or not-a-number (the 0/0 of a mean
    over no example). *)
Inductive fval : Type :=
| Finite (r : R)
| NaN.

Inductive loss_value : Type :=
| LossScalar (v : fval)
| LossVector (n : nat) (v : nat -> R).

Definition log_softmax (x : tensor2 R) (b c : nat) : R :=
  (at2 x b c - ln (rsum (cols x) (fun j => exp (at2 x b j))))%R.

(** A target entry is accepted when it is the ignore index or a class id. *)
Definition target_ok (ignore : Z) (ncls : nat) (t : Z) : bool :=
  (t =? ignore) || ((0 <=? t) && (t <? Z.of_nat ncls)).

(** Loss of example [b] with target [t]: the negative log-likelihood of
    the target class mixed with the uniform distribution over the classes;
    an ignored example contributes nothing. *)
Definition example_loss (cfg : CrossEntropyLoss) (x : tensor2 R)
           (b : nat) (t : Z) : R :=
  if t =? ignore_index cfg then 0%R
  else ((1 - label_smoothing cfg) * - log_softmax x b (Z.to_nat t)
        + label_smoothing cfg / INR (cols x)
          * - rsum (cols x) (fun c => log_softmax x b c))%R.

Definition kept (cfg : CrossEntropyLoss) (target : list Z) : nat :=
  length (List.filter (fun t => negb (t =? ignore_index cfg)) target).

Definition batch_loss (cfg : CrossEntropyLoss) (x : tensor2 R)
           (target : list Z) : R :=
  rsum (rows x) (fun b => example_loss cfg x b (nth b target (ignore_index cfg))).

(** [loss_func(input, target)] for [input] of shape (batch, classes).
    A missing target is a TypeError, a batch-size mismatch a ValueError, a
    target that is neither a class id nor the ignore index an IndexError. *)
Definition call (cfg : CrossEntropyLoss) (input : tensor2 R)
           (target : option (list Z)) : result loss_value :=
  match target with
  | None => Raise TypeError
  | Some t =>
      if negb (length t =? rows input)%nat then Raise ValueError
      else if negb (forallb (target_ok (ignore_index cfg) (cols input)) t)
      then Raise IndexError
      else
        Ok (match reduction cfg with
            | ReduceNone =>
                LossVector (rows input)
                  (fun b => example_loss cfg input b (nth b t (ignore_index cfg)))
            | ReduceSum => LossScalar (Finite (batch_loss cfg input t))
            | ReduceMean =>
                if (kept cfg t =? 0)%nat then LossScalar NaN
                else LossScalar
                       (Finite (batch_loss cfg input t / INR (kept cfg t))%R)
            end)
  end.

(** Label-smoothed cross-entropy as it is usually written: the
    cross-entropy between the softmax of the scores and the target
    distribution that puts [1 - eps] on the labelled class and spreads
    [eps] evenly over all classes, averaged over the batch.  [call] is
    compared with it below. *)
Definition smoothed_target (eps : R) (ncls : nat) (label : Z) (c : nat) : R :=
  ((1 - eps) * (if (Z.of_nat c =? label) then 1 else 0) + eps / INR ncls)%R.

Definition cross_entropy_with (q : nat -> R) (x : tensor2 R) (b : nat) : R :=
  (- rsum (cols x) (fun c => q c * log_softmax x b c))%R.

Definition label_smoothed_cross_entropy (eps : R) (x : tensor2 R)
           (labels : list Z) : R :=
  let row_loss b :=
    cross_entropy_with (smoothed_target eps (cols x) (nth b labels 0)) x b in
  (rsum (rows x) row_loss / INR (rows x))%R.

End Loss.

(** ** BertClassifier (lines 24-64) *)

Module Head.

(** [nn.Linear]: [weight] has shape (out_features, in_features). *)
Record Linear : Type := {
  in_features : nat;
  out_features : nat;
  weight : nat -> nat -> R;
  bias : option (nat -> R)
}.

Definition linear_map (l : Linear) (x : tensor2 R) : tensor2 R :=
  Tensor2 (rows x) (out_features l)
    (fun b j =>
       (rsum (in_features l) (fun i => at2 x b i * weight l j i)
        + match bias l with Some bv => bv j | None => 0 end)%R).

(** Calling the layer checks the last axis against [in_features]. *)
Definition linear_call (l : Linear) (x : tensor2 R) : result (tensor2 R) :=
  if (cols x =? in_features l)%nat then Ok (linear_map l x)
  else Raise RuntimeError.

(** The pretrained encoder: its configured hidden size and its call
    with [input_ids], [attention_mask] and [return_dict] (and
    [output_hidden_states=True]), which gives the tuple
    [outputs['hidden_states']], one tensor of shape batch x sequence x
    hidden per layer, or raises. *)
Record Encoder : Type := {
  hidden_size : nat;
  encode : tensor2 Z -> tensor2 Z -> option bool -> result (list (tensor3 R))
}.

Record BertClassifier : Type := {
  bert_encoder : Encoder;
  dropout : Q;
  training : bool;
  feat_shrink : string;
  feat_shrink_layer : option Linear;
  classifier : Linear;
  loss_func : Loss.CrossEntropyLoss
}.

(** Freshly drawn parameters of the two linear layers. *)
Record init_params : Type := {
  shrink_weight : nat -> nat -> R;
  shrink_bias : nat -> R;
  classifier_weight : nat -> nat -> R;
  classifier_bias : nat -> R
}.

Definition nn_Linear (n_in : nat) (n_out : Z) (use_bias : bool)
           (w : nat -> nat -> R) (b : nat -> R) : result Linear :=
  if n_out <? 0 then Raise RuntimeError
  else Ok {| in_features := n_in; out_features := Z.to_nat n_out;
             weight := w; bias := if use_bias then Some b else None |}.

(** Python truthiness of a string. *)
Definition truthy (s : string) : bool :=
  match s with EmptyString => false | String _ _ => true end.

Section Init.
(** Python's [int()] on a string. *)
Variable py_int : string -> result Z.

(** [__init__(model, n_labels, dropout=0.0, seed=0, cla_bias=True,
    feat_shrink='')].  [nn.Dropout] refuses a probability outside [0, 1].
    [seed] is not used: the call that would seed the generator is
    commented out. *)
Definition BertClassifier_init (p : init_params) (model : Encoder)
           (n_labels : Z) (dropout_p : Q) (seed : Z) (cla_bias : bool)
           (shrink : string) : result BertClassifier :=
  if negb (Qle_bool 0 dropout_p && Qle_bool dropout_p 1) then Raise ValueError
  else
  let hidden_dim := hidden_size model in
  let loss :=
    {| Loss.ignore_index := Loss.ignore_index Loss.defaults;
       Loss.reduction := Loss.ReduceMean;
       Loss.label_smoothing := 0.3%R |} in
  '(shrink_layer, hidden_dim) ←
     (if truthy shrink then
        n ← py_int shrink;
        l ← nn_Linear (hidden_size model) n cla_bias
              (shrink_weight p) (shrink_bias p);
        n' ← py_int shrink;
        Ok (Some l, Z.to_nat n')
      else Ok (None, hidden_dim));
  cl ← nn_Linear hidden_dim n_labels cla_bias
         (classifier_weight p) (classifier_bias p);
  Ok {| bert_encoder := model; dropout := dropout_p; training := true;
        feat_shrink := shrink; feat_shrink_layer := shrink_layer;
        classifier := cl; loss_func := loss |}.

End Init.

(** The layer shapes [__init__] sets up: the projection, when configured,
    reads the encoder's hidden size, and the classifier reads what the
    projection (or else the encoder) produces. *)
Definition shapes_agree (self : BertClassifier) : Prop :=
  if truthy (feat_shrink self) then
    exists l, feat_shrink_layer self = Some l /\
              in_features l = hidden_size (bert_encoder self) /\
              in_features (classifier self) = out_features l
  else in_features (classifier self) = hidden_size (bert_encoder self).

(** The embedding at sequence position 0 of every batch item. *)
Definition position0 (emb : tensor3 R) : tensor2 R :=
  Tensor2 (dim0 emb) (dim2 emb) (fun b h => at3 emb b 0%nat h).

(** The projection of line 57, when configured. *)
Definition project (self : BertClassifier) (x : tensor2 R) : tensor2 R :=
  if truthy (feat_shrink self) then
    match feat_shrink_layer self with
    | Some l => linear_map l x
    | None => x
    end
  else x.

(** [nn.Dropout(p)] on a rank-3 tensor.  In evaluation mode it is the
    identity; in training mode the entries not kept are zeroed and the
    kept ones scaled by 1/(1-p).  [keep] is the Bernoulli draw. *)
Definition dropout_apply (p : Q) (train : bool) (keep : nat -> nat -> nat -> bool)
           (x : tensor3 R) : tensor3 R :=
  if train then
    Tensor3 (dim0 x) (dim1 x) (dim2 x)
      (fun b s h => if keep b s h then (at3 x b s h / (1 - Q2R p))%R else 0%R)
  else x.

(** The output object; both fields are optional in the library's class. *)
Record TokenClassifierOutput : Type := {
  loss : option Loss.loss_value;
  logits : option (tensor2 R)
}.

(** Lines 48-58 of [forward]: encoder, last hidden layer, dropout, the
    position-0 embedding, the optional projection, the classifier. *)
Definition forward_logits (self : BertClassifier)
           (input_ids attention_mask : tensor2 Z) (return_dict : option bool)
           (keep : nat -> nat -> nat -> bool) : result (tensor2 R) :=
  hidden_states ←
    encode (bert_encoder self) input_ids attention_mask return_dict;
  last ← py_getitem hidden_states (-1);
  let emb := dropout_apply (dropout self) (training self) keep last in
  cls_token_emb ← first_slice (permute_1_0_2 emb);
  cls_token_emb ←
    (if truthy (feat_shrink self) then
       match feat_shrink_layer self with
       | Some l => linear_call l cls_token_emb
       | None => Raise AttributeError
       end
     else Ok cls_token_emb);
  linear_call (classifier self) cls_token_emb.

(** [forward]: lines 48-64.  The loss function is called on whatever
    [labels] is, and its result is put in the output.  The argument
    [preds] is never read and is left out; [keep] is the dropout draw. *)
Definition forward (self : BertClassifier)
           (input_ids attention_mask : tensor2 Z)
           (labels : option (list Z)) (return_dict : option bool)
           (keep : nat -> nat -> nat -> bool) : result TokenClassifierOutput :=
  logits ← forward_logits self input_ids attention_mask return_dict keep;
  loss ← Loss.call (loss_func self) logits labels;
  Ok {| loss := Some loss; logits := Some logits |}.

End Head.

(** ** mean_pooling (lines 73-76) *)

Module Pooling.

(** [t.unsqueeze(-1)]: a trailing axis of size 1. *)
Definition unsqueeze_last {T : Type} (t : tensor2 T) : tensor3 T :=
  Tensor3 (rows t) (cols t) 1 (fun i j _ => at2 t i j).

(** [t.expand(d0, d1, d2)]: every axis must already have the wanted size
    or have size 1, in which case its single entry is repeated. *)
Definition expandable (have want : nat) : bool :=
  (have =? want)%nat || (have =? 1)%nat.

(** The source index read for index [i] of an expanded axis. *)
Definition source_index (have i : nat) : nat :=
  if (have =? 1)%nat then 0%nat else i.

Definition expand {T : Type} (t : tensor3 T) (d0 d1 d2 : nat)
  : result (tensor3 T) :=
  if expandable (dim0 t) d0 && expandable (dim1 t) d1 && expandable (dim2 t) d2
  then Ok (Tensor3 d0 d1 d2
             (fun i j k =>
                at3 t (source_index (dim0 t) i) (source_index (dim1 t) j)
                      (source_index (dim2 t) k)))
  else Raise RuntimeError.

(** [t.float()] on an integer tensor. *)
Definition to_float (t : tensor3 Z) : tensor3 Q :=
  Tensor3 (dim0 t) (dim1 t) (dim2 t) (fun i j k => inject_Z (at3 t i j k)).

(** Elementwise product of two tensors of the same shape. *)
Definition mul3 (a b : tensor3 Q) : tensor3 Q :=
  Tensor3 (dim0 a) (dim1 a) (dim2 a) (fun i j k => (at3 a i j k * at3 b i j k)%Q).

Fixpoint qsum (n : nat) (f : nat -> Q) : Q :=
  match n with
  | O => 0%Q
  | S k => (qsum k f + f k)%Q
  end.

(** [torch.sum(t, 1)] and [t.sum(1)]: sum over the sequence axis. *)
Definition sum_dim1 (t : tensor3 Q) : tensor2 Q :=
  Tensor2 (dim0 t) (dim2 t) (fun b h => qsum (dim1 t) (fun s => at3 t b s h)).

(** [torch.clamp(t, min=m)]. *)
Definition clamp_min (t : tensor2 Q) (m : Q) : tensor2 Q :=
  Tensor2 (rows t) (cols t)
    (fun i j => if Qle_bool m (at2 t i j) then at2 t i j else m).

(** Elementwise float division: a zero divisor gives no finite value
    ([inf] or [nan]), written [None]. *)
Definition fdiv (x y : Q) : option Q :=
  if Qeq_bool y 0 then None else Some (x / y)%Q.

Definition div2 (a b : tensor2 Q) : tensor2 (option Q) :=
  Tensor2 (rows a) (cols a) (fun i j => fdiv (at2 a i j) (at2 b i j)).

Definition floor_clamp : Q := 1 # 1000000000.

(** The denominator of line 76. *)
Definition denominator (input_mask_expanded : tensor3 Q) : tensor2 Q :=
  clamp_min (sum_dim1 input_mask_expanded) floor_clamp.

Definition mean_pooling (model_output : tensor3 Q) (attention_mask : tensor2 Z)
  : result (tensor2 (option Q)) :=
  let token_embeddings := model_output in
  m ← expand (unsqueeze_last attention_mask)
         (dim0 token_embeddings) (dim1 token_embeddings) (dim2 token_embeddings);
  let input_mask_expanded := to_float m in
  Ok (div2 (sum_dim1 (mul3 token_embeddings input_mask_expanded))
           (denominator input_mask_expanded)).

(** Reference notions for a 0/1 mask: the number of positions among the
    first [n] of example [b] that the mask attends to, and the sum of the
    token embeddings at those positions. *)
Fixpoint attended_count (mask : tensor2 Z) (b n : nat) : nat :=
  match n with
  | O => O
  | S k =>
      if at2 mask b k =? 1 then S (attended_count mask b k)
      else attended_count mask b k
  end.

Fixpoint attended_sum (e : tensor3 Q) (mask : tensor2 Z) (b h n : nat) : Q :=
  match n with
  | O => 0%Q
  | S k => (attended_sum e mask b h k
            + (if at2 mask b k =? 1 then at3 e b k h else 0))%Q
  end.

End Pooling.

(** ** Final statistics and the report line (lines 186-187) *)

Module Stats.

Definition total (a : list Q) : Q := fold_right Qplus 0%Q a.

Definition count (a : list Q) : Q := inject_Z (Z.of_nat (length a)).

(** [np.mean(a)]; the mean of no value is nan, written [None]. *)
Definition np_mean (a : list Q) : option Q :=
  match a with
  | [] => None
  | _ => Some (total a / count a)%Q
  end.

(** [np.var(a, ddof)]: the squared deviations from the mean, summed and
    divided by [len(a) - ddof]. *)
Definition np_var (ddof : nat) (a : list Q) : option Q :=
  m ← np_mean a;
  if (length a <=? ddof)%nat then None
  else Some (total (map (fun x => (x - m) * (x - m))%Q a)
             / inject_Z (Z.of_nat (length a - ddof)))%Q.

(** [np.std(a, ddof)] is the square root of the variance. *)
Definition np_std (ddof : nat) (a : list Q) : option R :=
  v ← np_var ddof a; Some (sqrt (Q2R v)).

(** Line 186: [np.mean(acc_list), np.std(acc_list)]; [ddof] is left at
    its default 0. *)
Definition final_stats (acc_list : list Q) : option (Q * R) :=
  final_acc ← np_mean acc_list;
  final_acc_std ← np_std 0 acc_list;
  Some (final_acc, final_acc_std).

(** Nearest integer, ties to even. *)
Definition round_half_even (q : Q) : Z :=
  let f := Qfloor q in
  match (q - inject_Z f ?= 1 # 2)%Q with
  | Lt => f
  | Gt => f + 1
  | Eq => if Z.even f then f else f + 1
  end.

(** Nearest integer to the square root of a non-negative rational, ties
    to even: with [n] the integer square root, compare [q] with
    [(n + 1/2)^2]. *)
Definition round_sqrt (q : Q) : Z :=
  let n := Z.sqrt (Qfloor q) in
  let mid := ((inject_Z n + (1 # 2)) * (inject_Z n + (1 # 2)))%Q in
  match (q ?= mid)%Q with
  | Lt => n
  | Gt => n + 1
  | Eq => if Z.even n then n else n + 1
  end.

Definition decimal (n : Z) : string :=
  NilZero.string_of_uint (N.to_uint (Z.to_N n)).

(** The text of [k] hundredths with two digits after the point. *)
Definition render_2f (k : Z) : string :=
  let sign := if k <? 0 then "-"%string else ""%string in
  let units := decimal (Z.abs k / 100) in
  let tenths := decimal (Z.abs k mod 100 / 10) in
  let hundredths := decimal (Z.abs k mod 10) in
  (sign ++ units ++ "." ++ tenths ++ hundredths)%string.

(** [f"{x*100:.2f}"] for a rational [x]. *)
Definition percent_2f (x : Q) : string :=
  render_2f (round_half_even (x * 100 * 100)).

(** [f"{x*100:.2f}"] for [x] the square root of the rational [v]:
    the hundredths of [100 * sqrt v] are the rounding of
    [sqrt (v * 10^8)]. *)
Definition percent_2f_sqrt (v : Q) : string :=
  render_2f (round_sqrt (v * 100000000)).

(** Line 187. *)
Definition final_line (acc_list : list Q) : string :=
  match np_mean acc_list, np_var 0 acc_list with
  | Some final_acc, Some v =>
      ("# final_acc: " ++ percent_2f final_acc ++ "±" ++ percent_2f_sqrt v)%string
  | _, _ => "# final_acc: nan±nan"%string
  end.

End Stats.

(** ** The experiment driver (lines 79-187) *)

Module Driver.

(** The dataset object: three boolean masks over the nodes and the
    integer label of every node. *)
Record Data : Type := {
  train_mask : list bool;
  val_mask : list bool;
  test_mask : list bool;
  y : list Z
}.

(** One entry of a dataset item: a row of an encoded field, or a label. *)
Inductive tval : Type :=
| TRow (r : list Z)
| TLabel (z : Z).

(** What [trainer.predict] returns: a score per class for every test
    example, and the labels it was given. *)
Record PredictionOutput : Type := {
  predictions : list (list Q);
  label_ids : list Z
}.

(** The command-line configuration. *)
Record Arguments : Type := {
  epochs : nat;
  lm_type : string;
  lr : Q;
  batch_size : nat
}.

(** The keyword arguments of [TrainingArguments(...)], lines 142-161. *)
Record TrainingArguments : Type := {
  output_dir : string;
  overwrite_output_dir : bool;
  bf16 : bool;
  fp16 : bool;
  dataloader_pin_memory : bool;
  logging_dir : string;
  logging_strategy : string;
  logging_steps : nat;
  save_strategy : string;
  optim : string;
  max_steps : Z;
  learning_rate : Q;
  num_train_epochs : nat;
  gradient_accumulation_steps : nat;
  per_device_train_batch_size : nat;
  gradient_checkpointing : bool;
  local_rank : Z
}.

(** An accuracy is a ratio of two integers, or nan (0/0), written [None]. *)
Definition accuracy : Type := option Q.

(** What a run does, in order; kept beside the state to state properties
    of whole runs. *)
Inductive event : Type :=
| EvLoad (seed : nat)
| EvConstruct (model : Head.BertClassifier)
| EvTrain (model : Head.BertClassifier)
| EvPredict (model : Head.BertClassifier)
| EvPrint (seed : nat) (acc : accuracy)
| EvAppend (acc : accuracy).

Section WithWorld.

(** Everything outside the script: files, the model hub, the device, the
    random generator. *)
Variable W : Type.

Definition ext (A : Type) : Type := W -> result A * W.

(** The collaborators the script calls. *)
Record Externals : Type := {
  Tokenizer : Type;
  config : Arguments;
  local_rank_env : Z;
  py_int : string -> result Z;
  get_raw_text_cora : bool -> nat -> ext (Data * list string);
  AutoTokenizer_from_pretrained : string -> ext Tokenizer;
  tokenizer_call : Tokenizer -> list string -> nat -> ext (gmap string (list tval));
  AutoModel_from_pretrained : string -> ext Head.Encoder;
  draw_params : ext Head.init_params;
  Trainer_train : Head.BertClassifier -> TrainingArguments ->
                  NCDataset.t tval -> NCDataset.t tval -> ext Head.BertClassifier;
  Trainer_predict : Head.BertClassifier -> NCDataset.t tval -> ext PredictionOutput
}.

Variable E : Externals.

Record state : Type := {
  world : W;
  trace : list event
}.

(** Computations of the driver: they may raise, and they change the state
    also when they raise. *)
Definition M (A : Type) : Type := state -> result A * state.

#[global] Instance M_ret : MRet M := fun A a st => (Ok a, st).

#[global] Instance M_bind : MBind M := fun A B k m st =>
  match m st with
  | (Ok a, st') => k a st'
  | (Raise e, st') => (Raise e, st')
  end.

Definition lift {A : Type} (r : result A) : M A := fun st => (r, st).

Definition call {A : Type} (f : ext A) : M A :=
  fun st =>
    let '(r, w) := f (world st) in
    (r, {| world := w; trace := trace st |}).

Definition emit (e : event) : M unit :=
  fun st => (Ok tt, {| world := world st; trace := trace st ++ [e] |}).

(** Lines 82-86. *)
Definition mode_id : gmap string string :=
  <["sentencebert" := "sentence-transformers/bert-base-nli-mean-tokens"]>
  (<["deberta" := "microsoft/deberta-base"]>
  (<["bert" := "bert-base-uncased"]> ∅))%string.

Definition dict_getitem (d : gmap string string) (k : string) : result string :=
  match d !! k with
  | Some v => Ok v
  | None => Raise KeyError
  end.

(** [np.argmax(row)]: the position of the first largest entry. *)
Fixpoint argmax_from (best_i : nat) (best : Q) (i : nat) (row : list Q) : nat :=
  match row with
  | [] => best_i
  | x :: rest =>
      if Qle_bool x best then argmax_from best_i best (S i) rest
      else argmax_from i x (S i) rest
  end.

Definition argmax (row : list Q) : result Z :=
  match row with
  | [] => Raise ValueError
  | x :: rest => Ok (Z.of_nat (argmax_from 0 x 1 rest))
  end.

(** [(preds == label_ids).sum()]: elementwise comparison of two arrays
    of one length, a one-element array being compared with every entry of
    the other. *)
Fixpoint count_equal (a b : list Z) : Z :=
  match a, b with
  | x :: a', z :: b' => (if x =? z then 1 else 0) + count_equal a' b'
  | _, _ => 0
  end.

Definition matches (preds labels : list Z) : result Z :=
  match preds, labels with
  | [p], _ => Ok (count_equal (repeat p (length labels)) labels)
  | _, [l] => Ok (count_equal preds (repeat l (length preds)))
  | _, _ =>
      if (length preds =? length labels)%nat then Ok (count_equal preds labels)
      else Raise ValueError
  end.

(** Lines 180-181. *)
Definition accuracy_of (p : PredictionOutput) : result accuracy :=
  preds ← mapM argmax (predictions p);
  hits ← matches preds (label_ids p);
  Ok (match label_ids p with
      | [] => None
      | _ => Some (inject_Z hits / inject_Z (Z.of_nat (length (label_ids p))))%Q
      end).

(** Lines 137-139: [NCDataset(encodings, data.y[idx])].  The labels are a
    rank-1 tensor whenever [idx] is a list of ints, which it is whenever
    [collect_txt] has returned.  A rank-0 tensor has no length: the Python
    constructor stores it and the first [len()] raises TypeError; the
    error is raised here, at the construction. *)
Definition make_dataset (encodings : gmap string (list tval)) (labels : Split.itensor)
  : result (NCDataset.t tval) :=
  match labels with
  | Split.Rank0 _ => Raise TypeError
  | Split.Rank1 l => Ok (NCDataset.init encodings (map TLabel l))
  | Split.Rank2 _ _ data => Ok (NCDataset.init encodings (map TRow data))
  end.

Definition training_args : TrainingArguments :=
  let enable_profiler := false in
  {| output_dir := "tmp";
     overwrite_output_dir := true;
     bf16 := false;
     fp16 := true;
     dataloader_pin_memory := false;
     logging_dir := "tmp/logs";
     logging_strategy := "steps";
     logging_steps := 10;
     save_strategy := "no";
     optim := "adamw_torch_fused";
     max_steps := if enable_profiler then 8 else -1;
     learning_rate := lr (config E);
     num_train_epochs := epochs (config E);
     gradient_accumulation_steps := 2;
     per_device_train_batch_size := batch_size (config E);
     gradient_checkpointing := false;
     local_rank := local_rank_env E |}.

(** The body of the loop, lines 116-182, for seed [i]. *)
Definition trial (i : nat) : M accuracy :=
  _ ← emit (EvLoad i);
  '(data, text) ← call (get_raw_text_cora E true i);
  let num_classes := 7 in
  name ← lift (dict_getitem mode_id (lm_type (config E)));
  tokenizer ← call (AutoTokenizer_from_pretrained E name);
  name ← lift (dict_getitem mode_id (lm_type (config E)));
  bert_model ← call (AutoModel_from_pretrained E name);
  p ← call (draw_params E);
  model ← lift (Head.BertClassifier_init (py_int E) p bert_model num_classes
                                         0%Q 0 true "");
  _ ← emit (EvConstruct model);
  let train_idx := Split.mask_to_idx (train_mask data) in
  let val_idx := Split.mask_to_idx (val_mask data) in
  let test_idx := Split.mask_to_idx (test_mask data) in
  train_txt ← lift (Split.collect_txt train_idx text);
  val_txt ← lift (Split.collect_txt val_idx text);
  test_txt ← lift (Split.collect_txt test_idx text);
  train_encodings ← call (tokenizer_call E tokenizer train_txt 256);
  val_encodings ← call (tokenizer_call E tokenizer val_txt 256);
  test_encodings ← call (tokenizer_call E tokenizer test_txt 256);
  train_labels ← lift (Split.index_labels (y data) train_idx);
  train_dataset ← lift (make_dataset train_encodings train_labels);
  val_labels ← lift (Split.index_labels (y data) val_idx);
  val_dataset ← lift (make_dataset val_encodings val_labels);
  test_labels ← lift (Split.index_labels (y data) test_idx);
  test_dataset ← lift (make_dataset test_encodings test_labels);
  _ ← emit (EvTrain model);
  trained ← call (Trainer_train E model training_args train_dataset val_dataset);
  _ ← emit (EvPredict trained);
  predictions ← call (Trainer_predict E trained test_dataset);
  acc ← lift (accuracy_of predictions);
  _ ← emit (EvPrint i acc);
  mret acc.

(** The loop of line 115 over the seeds still to run, with the list
    accumulated so far. *)
Fixpoint run_trials (seeds : list nat) (acc_list : list accuracy)
  : M (list accuracy) :=
  match seeds with
  | [] => mret acc_list
  | i :: rest =>
      acc ← trial i;
      _ ← emit (EvAppend acc);
      run_trials rest (acc_list ++ [acc])
  end.

(** Lines 186-187 on the accumulated list; a nan among the accuracies
    makes both statistics nan. *)
Definition aggregate (acc_list : list accuracy) : string :=
  match mapM (fun a : accuracy => a) acc_list with
  | Some l => Stats.final_line l
  | None => "# final_acc: nan±nan"%string
  end.

(** Lines 114-187: the accumulator at the time of aggregation, and the
    line printed. *)
Definition main : M (list accuracy * string) :=
  acc_list ← run_trials (seq 0 5) [];
  mret (acc_list, aggregate acc_list).

(** One completed pass through the loop body, as the trace shows it. *)
Record trial_record : Type := {
  seed_of : nat;
  built : Head.BertClassifier;
  trained : Head.BertClassifier;
  acc_of : accuracy
}.

Definition trial_events (r : trial_record) : list event :=
  [EvLoad (seed_of r); EvConstruct (built r); EvTrain (built r);
   EvPredict (trained r); EvPrint (seed_of r) (acc_of r)].

Definition events_of (r : trial_record) : list event :=
  trial_events r ++ [EvAppend (acc_of r)].

(** The model of a pass was built in that pass, by
    [BertClassifier(bert_model, 7)] from an encoder the hub had just
    returned and parameters just drawn, and it is the model handed to
    [trainer.train()]. *)
Definition built_in_pass (r : trial_record) : Prop :=
  exists name enc p w1 w2 w3,
    AutoModel_from_pretrained E name w1 = (Ok enc, w2) /\
    draw_params E w2 = (Ok p, w3) /\
    Head.BertClassifier_init (py_int E) p enc 7 0%Q 0 true "" = Ok (built r) /\
    exists train_dataset val_dataset w4 w5,
      Trainer_train E (built r) training_args train_dataset val_dataset w4
      = (Ok (trained r), w5).

(** The model an event names has seven output classes. *)
Definition seven_classes (e : event) : Prop :=
  match e with
  | EvConstruct m | EvTrain m =>
      Head.out_features (Head.classifier m) = 7%nat
  | _ => True
  end.

(** An event inside a pass: neither the start of a pass nor the printing
    or appending of an accuracy. *)
Definition mid_pass (e : event) : Prop :=
  match e with
  | EvConstruct _ | EvTrain _ | EvPredict _ => True
  | _ => False
  end.

End WithWorld.

Arguments world {W} s.
Arguments trace {W} s.

End Driver.

(** ** Small concrete instances, used to exercise the statements below *)

Module Demo.

(** An encoder with two hidden units and one layer, whose hidden state
    at every position is the token id. *)
Definition encoder : Head.Encoder :=
  {| Head.hidden_size := 2;
     Head.encode := fun ids _ _ =>
       Ok [Tensor3 (rows ids) (cols ids) 2 (fun b s _ => IZR (at2 ids b s))] |}.

Definition params : Head.init_params :=
  {| Head.shrink_weight := fun _ _ => 1%R;
     Head.shrink_bias := fun _ => 0%R;
     Head.classifier_weight := fun j _ => INR j;
     Head.classifier_bias := fun _ => 0%R |}.

Definition no_int (s : string) : result Z := Raise ValueError.

(** What [BertClassifier(encoder, 3)] builds from [params]. *)
Definition classifier3 : Head.BertClassifier :=
  {| Head.bert_encoder := encoder;
     Head.dropout := 0%Q;
     Head.training := true;
     Head.feat_shrink := "";
     Head.feat_shrink_layer := None;
     Head.classifier :=
       {| Head.in_features := 2; Head.out_features := 3;
          Head.weight := fun j _ => INR j; Head.bias := Some (fun _ => 0%R) |};
     Head.loss_func :=
       {| Loss.ignore_index := -100; Loss.reduction := Loss.ReduceMean;
          Loss.label_smoothing := 0.3%R |} |}.

(** A batch of two sequences of three tokens. *)
Definition input_ids : tensor2 Z :=
  Tensor2 2 3 (fun b s => Z.of_nat (101 + b + s)).

Definition attention_mask : tensor2 Z := Tensor2 2 3 (fun _ _ => 1).

Definition keep_all (b s h : nat) : bool := true.

Definition scores : tensor2 R := Tensor2 2 3 (fun b c => INR (b + c)).

Definition labels : list Z := [0; 2].

(** The accuracies of the five seeds in the worked example. *)
Definition accuracies : list Q := [0.70; 0.72; 0.75; 0.71; 0.73]%Q.

(** Embeddings of two sequences of two tokens with one feature, and a
    mask whose first row is all zero. *)
Definition embeddings : tensor3 Q :=
  Tensor3 2 2 1 (fun b s _ => inject_Z (Z.of_nat (1 + b + s))).

Definition half_mask : tensor2 Z :=
  Tensor2 2 2 (fun b _ => if (b =? 0)%nat then 0 else 1).

(** What [BertClassifier(encoder, 7)] builds from [params], and scores
    of two examples over seven classes. *)
Definition classifier7 : Head.BertClassifier :=
  {| Head.bert_encoder := encoder;
     Head.dropout := 0%Q;
     Head.training := true;
     Head.feat_shrink := "";
     Head.feat_shrink_layer := None;
     Head.classifier :=
       {| Head.in_features := 2; Head.out_features := 7;
          Head.weight := fun j _ => INR j; Head.bias := Some (fun _ => 0%R) |};
     Head.loss_func :=
       {| Loss.ignore_index := -100; Loss.reduction := Loss.ReduceMean;
          Loss.label_smoothing := 0.3%R |} |}.

Definition scores7 : tensor2 R := Tensor2 2 7 (fun b c => INR (b + c)).

(** Labels of two examples, the second being the ignore index. *)
Definition labels_with_ignored : list Z := [3; -100].

(** A world with nothing in it, six nodes split two by two, a tokenizer
    that encodes every text as the same two tokens, a trainer that returns
    the model unchanged and a predictor that always scores class 1
    highest. *)
Definition data : Driver.Data :=
  {| Driver.train_mask := [true; true; false; false; false; false];
     Driver.val_mask := [false; false; true; true; false; false];
     Driver.test_mask := [false; false; false; false; true; true];
     Driver.y := [0; 1; 2; 3; 1; 5] |}.

Definition text : list string := ["a"; "b"; "c"; "d"; "e"; "f"]%string.

Definition tokenize (txt : list string) : gmap string (list Driver.tval) :=
  <["input_ids"%string := map (fun _ => Driver.TRow [101; 102]) txt]>
  (<["attention_mask"%string := map (fun _ => Driver.TRow [1; 1]) txt]> ∅).

Definition label_of (v : Driver.tval) : Z :=
  match v with
  | Driver.TLabel z => z
  | Driver.TRow _ => 0
  end.

Definition predict (ds : NCDataset.t Driver.tval) : Driver.PredictionOutput :=
  {| Driver.predictions :=
       map (fun _ => [0; 1; 0; 0; 0; 0; 0]%Q) (NCDataset.labels ds);
     Driver.label_ids := map label_of (NCDataset.labels ds) |}.

Definition externals : Driver.Externals unit :=
  {| Driver.Tokenizer := unit;
     Driver.config := {| Driver.epochs := 4; Driver.lm_type := "bert";
                         Driver.lr := 0.00005%Q; Driver.batch_size := 8 |};
     Driver.local_rank_env := -1;
     Driver.py_int := no_int;
     Driver.get_raw_text_cora := fun _ _ w => (Ok (data, text), w);
     Driver.AutoTokenizer_from_pretrained := fun _ w => (Ok tt, w);
     Driver.tokenizer_call := fun _ txt _ w => (Ok (tokenize txt), w);
     Driver.AutoModel_from_pretrained := fun _ w => (Ok encoder, w);
     Driver.draw_params := fun w => (Ok params, w);
     Driver.Trainer_train := fun m _ _ _ w => (Ok m, w);
     Driver.Trainer_predict := fun _ ds w => (Ok (predict ds), w) |}.

Definition start : Driver.state unit :=
  {| Driver.world := tt; Driver.trace := [] |}.

(** Embeddings that differ from [embeddings] only in the example whose
    mask row is all zero. *)
Definition embeddings_padded : tensor3 Q :=
  Tensor3 2 2 1 (fun b s _ => if (b =? 0)%nat then 100%Q
                              else inject_Z (Z.of_nat (1 + b + s))).

(** A second batch, of two sequences of five tokens, that starts with the
    tokens [input_ids] starts with. *)
Definition other_ids : tensor2 Z :=
  Tensor2 2 5 (fun b s => if (s =? 0)%nat then Z.of_nat (101 + b) else 7).

Definition other_mask : tensor2 Z := Tensor2 2 5 (fun _ _ => 1).

(** The logits of [classifier3] on [input_ids]. *)
Definition logits3 : tensor2 R :=
  Head.linear_map (Head.classifier classifier3)
    (Head.position0
       (Head.dropout_apply 0%Q true keep_all
          (Tensor3 2 3 2 (fun b s _ => IZR (at2 input_ids b s))))).

(** An [int()] that reads "4", and what
    [BertClassifier(encoder, 3, feat_shrink="4")] builds from [params]. *)
Definition int_4 (s : string) : result Z :=
  if String.eqb s "4" then Ok 4 else Raise ValueError.

Definition classifier_shrunk : Head.BertClassifier :=
  {| Head.bert_encoder := encoder;
     Head.dropout := 0%Q;
     Head.training := true;
     Head.feat_shrink := "4";
     Head.feat_shrink_layer :=
       Some {| Head.in_features := 2; Head.out_features := 4;
               Head.weight := fun _ _ => 1%R;
               Head.bias := Some (fun _ => 0%R) |};
     Head.classifier :=
       {| Head.in_features := 4; Head.out_features := 3;
          Head.weight := fun j _ => INR j; Head.bias := Some (fun _ => 0%R) |};
     Head.loss_func :=
       {| Loss.ignore_index := -100; Loss.reduction := Loss.ReduceMean;
          Loss.label_smoothing := 0.3%R |} |}.

(** Scores of three test examples over three classes, with a tie in the
    second row, and their labels; and the output of a prediction over no
    example. *)
Definition test_output : Driver.PredictionOutput :=
  {| Driver.predictions :=
       [[0.1; 0.7; 0.2]; [0.4; 0.4; 0.2]; [0.3; 0.3; 0.4]]%Q;
     Driver.label_ids := [1; 1; 2] |}.

Definition empty_output : Driver.PredictionOutput :=
  {| Driver.predictions := []; Driver.label_ids := [] |}.

(** The small world with a language-model name the script has no entry
    for. *)
Definition externals_roberta : Driver.Externals unit :=
  {| Driver.Tokenizer := unit;
     Driver.config := {| Driver.epochs := 4; Driver.lm_type := "roberta";
                         Driver.lr := 0.00005%Q; Driver.batch_size := 8 |};
     Driver.local_rank_env := -1;
     Driver.py_int := no_int;
     Driver.get_raw_text_cora := fun _ _ w => (Ok (data, text), w);
     Driver.AutoTokenizer_from_pretrained := fun _ w => (Ok tt, w);
     Driver.tokenizer_call := fun _ txt _ w => (Ok (tokenize txt), w);
     Driver.AutoModel_from_pretrained := fun _ w => (Ok encoder, w);
     Driver.draw_params := fun w => (Ok params, w);
     Driver.Trainer_train := fun m _ _ _ w => (Ok m, w);
     Driver.Trainer_predict := fun _ ds w => (Ok (predict ds), w) |}.

(** The small world whose state is the seed last loaded, with a trainer
    that fails in the pass of seed 2. *)
Definition externals_failing : Driver.Externals nat :=
  {| Driver.Tokenizer := unit;
     Driver.config := {| Driver.epochs := 4; Driver.lm_type := "bert";
                         Driver.lr := 0.00005%Q; Driver.batch_size := 8 |};
     Driver.local_rank_env := -1;
     Driver.py_int := no_int;
     Driver.get_raw_text_cora := fun _ seed _ => (Ok (data, text), seed);
     Driver.AutoTokenizer_from_pretrained := fun _ w => (Ok tt, w);
     Driver.tokenizer_call := fun _ txt _ w => (Ok (tokenize txt), w);
     Driver.AutoModel_from_pretrained := fun _ w => (Ok encoder, w);
     Driver.draw_params := fun w => (Ok params, w);
     Driver.Trainer_train := fun m _ _ _ w =>
       (if (w =? 2)%nat then Raise RuntimeError else Ok m, w);
     Driver.Trainer_predict := fun _ ds w => (Ok (predict ds), w) |}.

Definition start_failing : Driver.state nat :=
  {| Driver.world := 0%nat; Driver.trace := [] |}.

(** A batch of no example: its scores over seven classes and its token
    ids. *)
Definition empty_scores : tensor2 R := Tensor2 0 7 (fun _ _ => 0%R).

Definition empty_ids : tensor2 Z := Tensor2 0 3 (fun _ _ => 101).

End Demo.

(** * Properties *)

(** ** Split builder *)

Section SplitFacts.
Import Split.

Lemma py_getitem_nat {A : Type} (l : list A) (n : nat) (x : A) :
  l !! n = Some x -> py_getitem l (Z.of_nat n) = Ok x.
Proof.
  intros H. unfold py_getitem.
  pose proof (lookup_lt_Some _ _ _ H) as Hlt.
  destruct (Z.ltb_spec (Z.of_nat n) 0) as [?|_]; [lia|].
  destruct (Z.leb_spec 0 (Z.of_nat n)) as [_|?]; [|lia].
  destruct (Z.ltb_spec (Z.of_nat n) (Z.of_nat (length l))) as [_|?]; [|lia].
  simpl. rewrite Nat2Z.id, H. reflexivity.
Qed.

Lemma nonzero_from_length (i : Z) (mask : list bool) :
  length (nonzero_from i mask) = count_true mask.
Proof.
  revert i. induction mask as [|b m IH]; intros i; [reflexivity|].
  unfold count_true in *. destruct b; simpl; rewrite ?IH; reflexivity.
Qed.

Lemma nonzero_from_flat_length (i : Z) (mask : list bool) :
  length (concat (nonzero_from i mask)) = count_true mask.
Proof.
  revert i. induction mask as [|b m IH]; intros i; [reflexivity|].
  unfold count_true in *. destruct b; simpl; rewrite ?IH; reflexivity.
Qed.

Lemma nonzero_from_lower (i : Z) (mask : list bool) :
  Forall (fun z => i <= z) (concat (nonzero_from i mask)).
Proof.
  revert i. induction mask as [|b m IH]; intros i; [constructor|].
  assert (Forall (fun z => i <= z) (concat (nonzero_from (i + 1) m))) as Hm.
  { eapply Forall_impl; [apply IH|]. simpl. intros; lia. }
  destruct b; simpl; [constructor; [lia|]|]; exact Hm.
Qed.

Lemma nonzero_from_ascending (i : Z) (mask : list bool) :
  strictly_ascending (concat (nonzero_from i mask)) = true.
Proof.
  revert i. induction mask as [|b m IH]; intros i; [reflexivity|].
  destruct b; simpl; [|apply IH].
  pose proof (nonzero_from_lower (i + 1) m) as Hlow.
  specialize (IH (i + 1)).
  destruct (concat (nonzero_from (i + 1) m)) as [|y r]; [reflexivity|].
  apply Forall_cons in Hlow as [Hy _].
  apply andb_true_intro. split; [apply Z.ltb_lt; lia|exact IH].
Qed.

Lemma nonzero_from_elem (i : Z) (mask : list bool) (z : Z) :
  In z (concat (nonzero_from i mask)) <->
  exists n : nat, z = i + Z.of_nat n /\ mask !! n = Some true.
Proof.
  revert i. induction mask as [|b m IH]; intros i.
  - simpl. split; [tauto|]. intros (n & _ & H). discriminate.
  - assert (In z (concat (nonzero_from (i + 1) m)) <->
            exists n : nat, z = i + Z.of_nat (S n) /\ m !! n = Some true) as IH'.
    { rewrite IH. split; intros (n & -> & H); exists n; split; auto; lia. }
    destruct b; simpl; rewrite IH'.
    + split.
      * intros [<-|(n & -> & H)]; [exists 0%nat|exists (S n)]; split; auto; lia.
      * intros ([|n] & -> & H); [left; lia|right; exists n; auto].
    + split.
      * intros (n & -> & H). exists (S n). auto.
      * intros ([|n] & -> & H); [discriminate|exists n; auto].
Qed.

Lemma collect_loop_nonzero {A : Type} (mask : list bool) (i : nat)
      (txt tmp : list A) :
  (i + length mask <= length txt)%nat ->
  collect_loop (concat (nonzero_from (Z.of_nat i) mask)) txt tmp
  = Ok (tmp ++ select_by_mask mask (drop i txt)).
Proof.
  revert i tmp. induction mask as [|b m IH]; intros i tmp Hlen.
  - simpl. rewrite app_nil_r. reflexivity.
  - simpl in Hlen.
    destruct (drop i txt) as [|x r] eqn:Hd.
    { apply (f_equal length) in Hd. rewrite length_drop in Hd. simpl in Hd. lia. }
    assert (txt !! i = Some x) as Hx.
    { rewrite <- (Nat.add_0_r i), <- lookup_drop, Hd. reflexivity. }
    assert (drop (S i) txt = r) as Hr.
    { change (S i) with (1 + i)%nat. rewrite Nat.add_comm, <- drop_drop, Hd.
      reflexivity. }
    replace (Z.of_nat i + 1) with (Z.of_nat (S i)) by lia.
    destruct b; simpl.
    + rewrite (py_getitem_nat _ _ _ Hx). simpl.
      replace (Z.of_nat i + 1) with (Z.of_nat (S i)) by lia.
      rewrite IH by lia. rewrite Hr, <- app_assoc. reflexivity.
    + replace (Z.of_nat i + 1) with (Z.of_nat (S i)) by lia.
      rewrite IH by lia. rewrite Hr. reflexivity.
Qed.

Lemma count_true_zero_nonzero (mask : list bool) :
  count_true mask = 0%nat -> nonzero_from 0 mask = [].
Proof.
  intros H. rewrite <- nonzero_from_length with (i := 0) in H.
  destruct (nonzero_from 0 mask); [reflexivity|discriminate].
Qed.

(** With any number of true entries other than one, the conversion is the
    ascending list of the true positions, and gathering by it selects the
    entries at those positions. *)
Lemma mask_to_idx_list (mask : list bool) :
  count_true mask <> 1%nat ->
  mask_to_idx mask = PyIntList (concat (nonzero_from 0 mask)).
Proof.
  intros H. unfold mask_to_idx, nonzero, squeeze.
  rewrite nonzero_from_length.
  destruct (Nat.eqb_spec (count_true mask) 1) as [E|_]; [contradiction|].
  reflexivity.
Qed.

Lemma mask_to_idx_gather {A : Type} (mask : list bool) (xs : list A) :
  count_true mask <> 1%nat ->
  (length mask <= length xs)%nat ->
  collect_txt (mask_to_idx mask) xs = Ok (select_by_mask mask xs).
Proof.
  intros H Hlen. rewrite mask_to_idx_list by exact H. simpl.
  apply (collect_loop_nonzero mask 0 xs []). simpl. exact Hlen.
Qed.

(** With exactly one true entry, [squeeze] also drops the leading axis and
    [tolist] returns a bare int, which [collect_txt] cannot iterate. *)
Lemma mask_to_idx_single {A : Type} (mask : list bool) (xs : list A) :
  count_true mask = 1%nat ->
  exists z : Z, mask_to_idx mask = PyInt z /\
                concat (nonzero_from 0 mask) = [z] /\
                collect_txt (mask_to_idx mask) xs = Raise TypeError.
Proof.
  intros H. unfold mask_to_idx, nonzero, squeeze.
  rewrite nonzero_from_length, H. simpl.
  pose proof (nonzero_from_flat_length 0 mask) as Hl. rewrite H in Hl.
  destruct (concat (nonzero_from 0 mask)) as [|z [|? ?]]; try discriminate.
  exists z. repeat split.
Qed.

End SplitFacts.

(** C1 (the code departs from it): the claim asks, for every mask, for an
    index list as long as the number of true entries.  On the mask
    [False, True, False] the conversion [nonzero().squeeze().tolist()]
    returns the int 1, not the list [1]; [collect_txt] then raises
    TypeError when it iterates it, and [data.y[train_idx]] is a rank-0
    tensor.  The same happens on every mask with exactly one true entry. *)
Theorem split_single_true_mask_is_int :
  Split.mask_to_idx [false; true; false] = Split.PyInt 1 /\
  Split.collect_txt (Split.mask_to_idx [false; true; false])
                    ["t0"; "t1"; "t2"]%string = Raise TypeError /\
  Split.index_labels [4; 5; 6] (Split.mask_to_idx [false; true; false])
  = Ok (Split.Rank0 5) /\
  forall (mask : list bool) (txt : list string),
    Split.count_true mask = 1%nat ->
    exists z : Z,
      Split.mask_to_idx mask = Split.PyInt z /\
      Split.collect_txt (Split.mask_to_idx mask) txt = Raise TypeError.
Proof.
  split; [reflexivity|]. split; [reflexivity|]. split; [reflexivity|].
  intros mask txt H.
  destruct (mask_to_idx_single mask txt H) as (z & Hz & _ & Hraise).
  exists z. split; assumption.
Qed.

(** C6: a mask with no true entry gives the empty index list, and
    gathering texts by it gives the empty text list. *)
Theorem split_empty_mask (mask : list bool) (txt : list string) :
  Split.count_true mask = 0%nat ->
  Split.mask_to_idx mask = Split.PyIntList [] /\
  Split.collect_txt (Split.mask_to_idx mask) txt = Ok [].
Proof.
  intros H.
  assert (Split.mask_to_idx mask = Split.PyIntList []) as E.
  { rewrite mask_to_idx_list by lia.
    rewrite (count_true_zero_nonzero mask H). reflexivity. }
  split; [exact E|]. rewrite E. reflexivity.
Qed.

Lemma split_empty_mask_witness :
  Split.count_true [false; false; false] = 0%nat /\
  (Split.mask_to_idx [false; false; false] = Split.PyIntList [] /\
   Split.collect_txt (Split.mask_to_idx [false; false; false])
                     ["t0"; "t1"; "t2"]%string = Ok []).
Proof.
  split; [reflexivity|].
  apply (split_empty_mask [false; false; false] ["t0"; "t1"; "t2"]%string).
  reflexivity.
Defined.

(** The split builder on every mask whose number of true entries is not
    one: the conversion is a list as long as that number, strictly
    ascending, holding exactly the true positions; gathering texts and
    labels by it gives the entries at the true positions, in order. *)
Theorem mask_to_idx_correct (mask : list bool) (txt : list string) (y : list Z) :
  Split.count_true mask <> 1%nat ->
  (length mask <= length txt)%nat ->
  (length mask <= length y)%nat ->
  exists idx,
    Split.mask_to_idx mask = Split.PyIntList idx /\
    length idx = Split.count_true mask /\
    Split.strictly_ascending idx = true /\
    (forall z, In z idx <-> exists n : nat, z = Z.of_nat n /\ mask !! n = Some true) /\
    Split.collect_txt (Split.mask_to_idx mask) txt
    = Ok (Split.select_by_mask mask txt) /\
    Split.index_labels y (Split.mask_to_idx mask)
    = Ok (Split.Rank1 (Split.select_by_mask mask y)).
Proof.
  intros Hcount Htxt Hy.
  exists (concat (Split.nonzero_from 0 mask)).
  split; [apply mask_to_idx_list, Hcount|].
  split; [apply nonzero_from_flat_length|].
  split; [apply nonzero_from_ascending|].
  split; [intros z; rewrite nonzero_from_elem; reflexivity|].
  split; [apply mask_to_idx_gather; assumption|].
  rewrite mask_to_idx_list by exact Hcount.
  pose proof (collect_loop_nonzero mask 0 y [] Hy) as Hgather.
  change (Z.of_nat 0) with 0 in Hgather.
  unfold Split.index_labels. rewrite Hgather. reflexivity.
Qed.

Lemma mask_to_idx_correct_witness :
  exists idx,
    Split.mask_to_idx [true; false; true; true] = Split.PyIntList idx /\
    length idx = Split.count_true [true; false; true; true] /\
    Split.strictly_ascending idx = true /\
    (forall z, In z idx <->
               exists n : nat, z = Z.of_nat n /\
                               [true; false; true; true] !! n = Some true) /\
    Split.collect_txt (Split.mask_to_idx [true; false; true; true])
                      ["t0"; "t1"; "t2"; "t3"]%string
    = Ok (Split.select_by_mask [true; false; true; true]
                               ["t0"; "t1"; "t2"; "t3"]%string) /\
    Split.index_labels [4; 5; 6; 0] (Split.mask_to_idx [true; false; true; true])
    = Ok (Split.Rank1 (Split.select_by_mask [true; false; true; true] [4; 5; 6; 0])).
Proof.
  apply (mask_to_idx_correct [true; false; true; true]
           ["t0"; "t1"; "t2"; "t3"]%string [4; 5; 6; 0]).
  - compute. lia.
  - simpl. lia.
  - simpl. lia.
Defined.

(** ** NCDataset *)

Section NCDatasetFacts.
Context {V : Type}.
Implicit Types (enc : gmap string (list V)) (idx : Z).

Lemma py_getitem_in_range idx (val : list V) :
  in_range idx val -> exists x, py_getitem val idx = Ok x.
Proof.
  unfold in_range, py_getitem. intros Hr.
  set (n := Z.of_nat (length val)) in *.
  set (j := if idx <? 0 then idx + n else idx).
  assert (0 <= j < n) as Hj.
  { subst j. destruct (Z.ltb_spec idx 0); lia. }
  destruct (Z.leb_spec 0 j); [|lia].
  destruct (Z.ltb_spec j n); [|lia]. simpl.
  destruct (val !! Z.to_nat j) as [x|] eqn:E; [eauto|].
  apply lookup_ge_None in E. lia.
Qed.

Lemma py_getitem_raises idx (val : list V) (e : exn) :
  py_getitem val idx = Raise e -> e = IndexError.
Proof.
  unfold py_getitem.
  destruct (_ && _); [destruct (val !! _)|]; congruence.
Qed.

Lemma index_all_spec enc idx :
  match NCDataset.index_all enc idx with
  | Ok item =>
      (forall k, item !! k = enc !! k ≫= selected idx) /\
      (forall k val, enc !! k = Some val -> is_Some (selected idx val))
  | Raise e =>
      e = IndexError /\
      exists k val, enc !! k = Some val /\ selected idx val = None
  end.
Proof.
  unfold NCDataset.index_all.
  apply (map_fold_weak_ind
           (fun r m =>
              match r with
              | Ok item =>
                  (forall k, item !! k = m !! k ≫= selected idx) /\
                  (forall k val, m !! k = Some val -> is_Some (selected idx val))
              | Raise e =>
                  e = IndexError /\
                  exists k val, m !! k = Some val /\ selected idx val = None
              end)).
  - split; [intros k; rewrite !lookup_empty; reflexivity|].
    intros k val H. rewrite lookup_empty in H. discriminate.
  - intros i x m r Hi IH. destruct r as [item|e]; simpl.
    + destruct IH as [IH1 IH2].
      destruct (py_getitem x idx) as [v|e] eqn:Ex; simpl.
      * split.
        -- intros k. destruct (decide (i = k)) as [->|Hne].
           ++ rewrite !lookup_insert_eq. simpl. unfold selected. rewrite Ex.
              reflexivity.
           ++ rewrite !lookup_insert_ne by exact Hne. apply IH1.
        -- intros k val. destruct (decide (i = k)) as [->|Hne].
           ++ rewrite lookup_insert_eq. intros [= <-]. unfold selected.
              rewrite Ex. eauto.
           ++ rewrite lookup_insert_ne by exact Hne. apply IH2.
      * split; [exact (py_getitem_raises _ _ _ Ex)|].
        exists i, x. rewrite lookup_insert_eq. unfold selected. rewrite Ex. auto.
    + destruct IH as [-> (k & val & Hk & Hs)]. split; [reflexivity|].
      exists k, val. split; [|exact Hs].
      rewrite lookup_insert_ne; [exact Hk|]. intros ->. congruence.
Qed.

End NCDatasetFacts.

(** C10: the length of an [NCDataset] is the number of labels, whatever
    the encodings hold; when [idx] is a valid position of every encoding
    field and of the labels, [__getitem__] returns a mapping whose
    ['labels'] entry is [labels[idx]], also when the encodings have a
    ['labels'] field of their own, and whose other entries are the
    encoding fields indexed at [idx]. *)
Theorem ncdataset_len_getitem {V : Type}
        (enc : gmap string (list V)) (labels : list V) :
  NCDataset.len (NCDataset.init enc labels) = length labels /\
  forall idx : Z,
    (forall k val, enc !! k = Some val -> in_range idx val) ->
    in_range idx labels ->
    exists item lab,
      NCDataset.getitem (NCDataset.init enc labels) idx = Ok item /\
      py_getitem labels idx = Ok lab /\
      item !! "labels"%string = Some lab /\
      (forall k, k <> "labels"%string -> item !! k = enc !! k ≫= selected idx) /\
      (forall k, is_Some (item !! k) <-> k = "labels"%string \/ is_Some (enc !! k)).
Proof.
  split; [reflexivity|]. intros idx Henc Hlab.
  destruct (py_getitem_in_range idx labels Hlab) as [lab Elab].
  pose proof (index_all_spec enc idx) as Hspec.
  unfold NCDataset.getitem. simpl.
  destruct (NCDataset.index_all enc idx) as [item|e].
  - destruct Hspec as [H1 H2]. exists (<["labels"%string := lab]> item), lab.
    rewrite Elab. simpl. split; [reflexivity|]. split; [reflexivity|].
    split; [apply lookup_insert_eq|]. split.
    + intros k Hk. rewrite lookup_insert_ne by congruence. apply H1.
    + intros k. destruct (decide (k = "labels"%string)) as [->|Hk].
      * rewrite lookup_insert_eq. split; eauto.
      * rewrite lookup_insert_ne by congruence. rewrite H1. split.
        -- intros [x Hx]. right. destruct (enc !! k); [eauto|discriminate].
        -- intros [?|[val Hval]]; [contradiction|]. rewrite Hval. simpl.
           eapply H2, Hval.
  - exfalso. destruct Hspec as [_ (k & val & Hk & Hs)].
    destruct (py_getitem_in_range idx val (Henc k val Hk)) as [x Ex].
    unfold selected in Hs. rewrite Ex in Hs. discriminate.
Qed.

Lemma ncdataset_len_getitem_witness :
  let enc : gmap string (list Z) :=
    <["labels"%string := [100; 101]]> (<["input_ids"%string := [10; 11]]> ∅) in
  (forall k val, enc !! k = Some val -> in_range 1 val) /\
  in_range 1 [7; 8] /\
  NCDataset.len (NCDataset.init enc [7; 8]) = 2%nat /\
  exists item lab,
    NCDataset.getitem (NCDataset.init enc [7; 8]) 1 = Ok item /\
    py_getitem [7; 8] 1 = Ok lab /\
    item !! "labels"%string = Some lab /\
    (forall k, k <> "labels"%string -> item !! k = enc !! k ≫= selected 1) /\
    (forall k, is_Some (item !! k) <-> k = "labels"%string \/ is_Some (enc !! k)).
Proof.
  intros enc.
  assert (forall k val, enc !! k = Some val -> in_range 1 val) as Henc.
  { intros k val. subst enc. rewrite lookup_insert.
    destruct (decide ("labels"%string = k)).
    - intros [= <-]. unfold in_range. simpl. lia.
    - rewrite lookup_insert. destruct (decide ("input_ids"%string = k)).
      + intros [= <-]. unfold in_range. simpl. lia.
      + rewrite lookup_empty. discriminate. }
  assert (in_range 1 [7; 8]) as Hlab by (unfold in_range; simpl; lia).
  split; [exact Henc|]. split; [exact Hlab|].
  split; [exact (proj1 (ncdataset_len_getitem enc [7; 8]))|].
  exact (proj2 (ncdataset_len_getitem enc [7; 8]) 1 Henc Hlab).
Defined.

(** The item of that dataset at position 1: the label 8 stands under
    ['labels'], where the encodings had 101. *)
Example ncdataset_item_at_1 :
  match NCDataset.getitem
          (NCDataset.init
             (<["labels"%string := [100; 101]]>
                (<["input_ids"%string := [10; 11]]> ∅)) [7; 8]) 1 with
  | Ok item =>
      item !! "labels"%string = Some 8 /\ item !! "input_ids"%string = Some 11
  | Raise _ => False
  end.
Proof. vm_compute. split; reflexivity. Qed.

(** ** mean_pooling *)

Section PoolingFacts.
Import Pooling.

Lemma qsum_zero (n : nat) (f : nat -> Q) :
  (forall s, (s < n)%nat -> f s == 0)%Q -> (qsum n f == 0)%Q.
Proof.
  induction n as [|n IH]; intros H; simpl; [reflexivity|].
  rewrite IH by (intros s Hs; apply H; lia).
  rewrite (H n) by lia. reflexivity.
Qed.

Lemma clamp_min_ge (t : tensor2 Q) (m : Q) (i j : nat) :
  (m <= at2 (clamp_min t m) i j)%Q.
Proof.
  simpl. destruct (Qle_bool m (at2 t i j)) eqn:E.
  - apply Qle_bool_iff. exact E.
  - apply Qle_refl.
Qed.

Lemma floor_clamp_pos : (0 < floor_clamp)%Q.
Proof. reflexivity. Qed.

Lemma clamp_min_floor (t : tensor2 Q) (m : Q) (i j : nat) :
  (at2 t i j == 0)%Q -> (0 < m)%Q -> (at2 (clamp_min t m) i j == m)%Q.
Proof.
  intros Hx Hm. simpl. destruct (Qle_bool m (at2 t i j)) eqn:E; [|reflexivity].
  apply Qle_bool_iff in E. rewrite Hx in E.
  exfalso. exact (Qlt_not_le _ _ Hm E).
Qed.

Lemma fdiv_pos (x y : Q) : (0 < y)%Q -> fdiv x y = Some (x / y)%Q.
Proof.
  intros Hy. unfold fdiv. destruct (Qeq_bool y 0) eqn:E; [|reflexivity].
  apply Qeq_bool_iff in E. rewrite E in Hy. discriminate.
Qed.

Lemma expand_mask (mask : tensor2 Z) (d0 d1 d2 : nat) :
  expandable (rows mask) d0 = true ->
  expandable (cols mask) d1 = true ->
  expand (unsqueeze_last mask) d0 d1 d2
  = Ok (Tensor3 d0 d1 d2
          (fun i j _ => at2 mask (source_index (rows mask) i)
                                 (source_index (cols mask) j))).
Proof.
  intros H0 H1. unfold expand. simpl. rewrite H0, H1.
  unfold expandable. rewrite Nat.eqb_refl, orb_true_r. reflexivity.
Qed.

Lemma expand_mask_raises (mask : tensor2 Z) (d0 d1 d2 : nat) :
  expandable (rows mask) d0 && expandable (cols mask) d1 = false ->
  expand (unsqueeze_last mask) d0 d1 d2 = Raise RuntimeError.
Proof. intros H. unfold expand. simpl. rewrite H. reflexivity. Qed.

End PoolingFacts.

(** C7: whenever the attention mask can be expanded to the shape of the
    token embeddings, [mean_pooling] returns; every denominator is at
    least 1e-9, so no division is by zero and every entry of the result is
    a finite number; and for an example whose mask is all zero the
    result is 0. *)
Theorem mean_pooling_clamped (model_output : tensor3 Q) (attention_mask : tensor2 Z) :
  Pooling.expandable (rows attention_mask) (dim0 model_output) = true ->
  Pooling.expandable (cols attention_mask) (dim1 model_output) = true ->
  exists m out,
    Pooling.expand (Pooling.unsqueeze_last attention_mask)
      (dim0 model_output) (dim1 model_output) (dim2 model_output) = Ok m /\
    Pooling.mean_pooling model_output attention_mask = Ok out /\
    rows out = dim0 model_output /\ cols out = dim2 model_output /\
    (forall b h,
        (1 # 1000000000 <= at2 (Pooling.denominator (Pooling.to_float m)) b h)%Q /\
        ~ (at2 (Pooling.denominator (Pooling.to_float m)) b h == 0)%Q /\
        exists q, at2 out b h = Some q) /\
    (forall b,
        (forall s, (s < dim1 model_output)%nat ->
                   at2 attention_mask
                       (Pooling.source_index (rows attention_mask) b)
                       (Pooling.source_index (cols attention_mask) s) = 0) ->
        forall h,
          (at2 (Pooling.denominator (Pooling.to_float m)) b h
           == 1 # 1000000000)%Q /\
          exists q, at2 out b h = Some q /\ (q == 0)%Q).
Proof.
  intros H0 H1. unfold Pooling.mean_pooling.
  rewrite (expand_mask _ _ _ (dim2 model_output) H0 H1). simpl.
  eexists. eexists. split; [reflexivity|]. split; [reflexivity|].
  split; [reflexivity|]. split; [reflexivity|].
  set (m := Tensor3 (dim0 model_output) (dim1 model_output) (dim2 model_output)
              (fun i j _ => at2 attention_mask
                              (Pooling.source_index (rows attention_mask) i)
                              (Pooling.source_index (cols attention_mask) j))).
  assert (forall b h, (Pooling.floor_clamp
                       <= at2 (Pooling.denominator (Pooling.to_float m)) b h)%Q)
    as Hden by (intros b h; apply clamp_min_ge).
  assert (forall b h, (0 < at2 (Pooling.denominator (Pooling.to_float m)) b h)%Q)
    as Hpos.
  { intros b h. eapply Qlt_le_trans; [apply floor_clamp_pos|apply Hden]. }
  split.
  - intros b h. split; [apply Hden|]. split.
    + intros E. specialize (Hpos b h). rewrite E in Hpos. discriminate.
    + eexists. apply fdiv_pos, Hpos.
  - intros b Hb h. split.
    { assert (at2 (Pooling.sum_dim1 (Pooling.to_float m)) b h == 0)%Q as Hsum.
      { simpl. apply qsum_zero. intros s Hs. rewrite (Hb s Hs). reflexivity. }
      exact (clamp_min_floor (Pooling.sum_dim1 (Pooling.to_float m))
               Pooling.floor_clamp b h Hsum floor_clamp_pos). }
    eexists. split; [apply fdiv_pos, Hpos|].
    assert (at2 (Pooling.sum_dim1
                   (Pooling.mul3 model_output (Pooling.to_float m))) b h == 0)%Q
      as Hnum.
    { simpl. apply qsum_zero. intros s Hs. rewrite (Hb s Hs). apply Qmult_0_r. }
    unfold Qdiv. rewrite Hnum. apply Qmult_0_l.
Qed.

Lemma mean_pooling_clamped_witness :
  exists m out,
    Pooling.expand (Pooling.unsqueeze_last Demo.half_mask) 2 2 1 = Ok m /\
    Pooling.mean_pooling Demo.embeddings Demo.half_mask = Ok out /\
    rows out = 2%nat /\ cols out = 1%nat /\
    (forall b h,
        (1 # 1000000000 <= at2 (Pooling.denominator (Pooling.to_float m)) b h)%Q /\
        ~ (at2 (Pooling.denominator (Pooling.to_float m)) b h == 0)%Q /\
        exists q, at2 out b h = Some q) /\
    (forall b,
        (forall s, (s < 2)%nat ->
                   at2 Demo.half_mask (Pooling.source_index 2 b)
                       (Pooling.source_index 2 s) = 0) ->
        forall h,
          (at2 (Pooling.denominator (Pooling.to_float m)) b h
           == 1 # 1000000000)%Q /\
          exists q, at2 out b h = Some q /\ (q == 0)%Q).
Proof.
  apply (mean_pooling_clamped Demo.embeddings Demo.half_mask); reflexivity.
Defined.

(** ** The loss function *)

Section LossFacts.
Import Loss.
Local Open Scope R_scope.

Lemma rsum_ext (n : nat) (f g : nat -> R) :
  (forall i, (i < n)%nat -> f i = g i) -> rsum n f = rsum n g.
Proof.
  induction n as [|n IH]; intros H; simpl; [reflexivity|].
  rewrite IH by (intros i Hi; apply H; lia). rewrite (H n) by lia. reflexivity.
Qed.

Lemma rsum_nonneg (n : nat) (f : nat -> R) :
  (forall i, (i < n)%nat -> 0 <= f i) -> 0 <= rsum n f.
Proof.
  induction n as [|n IH]; intros H; simpl; [lra|].
  assert (0 <= rsum n f) by (apply IH; intros i Hi; apply H; lia).
  assert (0 <= f n) by (apply H; lia). lra.
Qed.

Lemma rsum_nonpos (n : nat) (f : nat -> R) :
  (forall i, (i < n)%nat -> f i <= 0) -> rsum n f <= 0.
Proof.
  induction n as [|n IH]; intros H; simpl; [lra|].
  assert (rsum n f <= 0) by (apply IH; intros i Hi; apply H; lia).
  assert (f n <= 0) by (apply H; lia). lra.
Qed.

Lemma rsum_term_le (n : nat) (f : nat -> R) (i : nat) :
  (forall j, (j < n)%nat -> 0 <= f j) -> (i < n)%nat -> f i <= rsum n f.
Proof.
  induction n as [|n IH]; intros H Hi; [lia|]. simpl.
  assert (0 <= f n) by (apply H; lia).
  assert (0 <= rsum n f) by (apply rsum_nonneg; intros j Hj; apply H; lia).
  destruct (Nat.eq_dec i n) as [->|Hne]; [lra|].
  assert (f i <= rsum n f) by (apply IH; [intros j Hj; apply H|]; lia). lra.
Qed.

Lemma rsum_scal (n : nat) (f : nat -> R) (a : R) :
  rsum n (fun i => a * f i) = a * rsum n f.
Proof. induction n as [|n IH]; simpl; [lra|]. rewrite IH. lra. Qed.

Lemma rsum_plus (n : nat) (f g : nat -> R) :
  rsum n (fun i => f i + g i) = rsum n f + rsum n g.
Proof. induction n as [|n IH]; simpl; [lra|]. rewrite IH. lra. Qed.

Lemma rsum_zero (n : nat) (f : nat -> R) :
  (forall i, (i < n)%nat -> f i = 0) -> rsum n f = 0.
Proof.
  induction n as [|n IH]; intros H; simpl; [reflexivity|].
  rewrite IH by (intros i Hi; apply H; lia). rewrite (H n) by lia. lra.
Qed.

Lemma rsum_pick (n y : nat) (f : nat -> R) :
  (y < n)%nat ->
  rsum n (fun c => (if (c =? y)%nat then 1 else 0) * f c) = f y.
Proof.
  induction n as [|n IH]; intros Hy; [lia|]. simpl.
  destruct (Nat.eqb_spec n y) as [->|Hne].
  - rewrite rsum_zero; [lra|].
    intros i Hi. destruct (Nat.eqb_spec i y); [lia|lra].
  - rewrite IH by lia. lra.
Qed.

Lemma sum_exp_pos (x : tensor2 R) (b : nat) :
  (0 < cols x)%nat -> 0 < rsum (cols x) (fun j => exp (at2 x b j)).
Proof.
  intros H.
  assert (exp (at2 x b 0%nat) <= rsum (cols x) (fun j => exp (at2 x b j))).
  { apply (rsum_term_le _ (fun j => exp (at2 x b j))); [|exact H].
    intros j _. left. apply exp_pos. }
  pose proof (exp_pos (at2 x b 0%nat)). lra.
Qed.

Lemma log_softmax_nonpos (x : tensor2 R) (b c : nat) :
  (c < cols x)%nat -> log_softmax x b c <= 0.
Proof.
  intros Hc. unfold log_softmax.
  assert (exp (at2 x b c) <= rsum (cols x) (fun j => exp (at2 x b j))) as Hle.
  { apply (rsum_term_le _ (fun j => exp (at2 x b j))); [|exact Hc].
    intros j _. left. apply exp_pos. }
  assert (ln (exp (at2 x b c)) <= ln (rsum (cols x) (fun j => exp (at2 x b j))))
    as Hln.
  { destruct Hle as [Hlt|Heq].
    - left. apply ln_increasing; [apply exp_pos|exact Hlt].
    - rewrite Heq. lra. }
  rewrite ln_exp in Hln. lra.
Qed.

Lemma sum_log_softmax_nonpos (x : tensor2 R) (b : nat) :
  rsum (cols x) (fun c => log_softmax x b c) <= 0.
Proof.
  apply rsum_nonpos. intros c Hc. apply log_softmax_nonpos, Hc.
Qed.

Lemma example_loss_smoothed (cfg : CrossEntropyLoss) (x : tensor2 R)
      (b : nat) (t : Z) :
  t <> ignore_index cfg ->
  (0 <= t < Z.of_nat (cols x))%Z ->
  example_loss cfg x b t
  = cross_entropy_with (smoothed_target (label_smoothing cfg) (cols x) t) x b.
Proof.
  intros Hne Ht. unfold example_loss, cross_entropy_with, smoothed_target.
  destruct (Z.eqb_spec t (ignore_index cfg)) as [E|_]; [contradiction|].
  set (eps := label_smoothing cfg). set (n := cols x) in *.
  set (f := log_softmax x b).
  assert (rsum n (fun c => ((1 - eps) * (if (Z.of_nat c =? t)%Z then 1 else 0)
                            + eps / INR n) * f c)
          = (1 - eps) * f (Z.to_nat t) + eps / INR n * rsum n f) as ->.
  { rewrite (rsum_ext n _
               (fun c => (1 - eps) * ((if (c =? Z.to_nat t)%nat then 1 else 0) * f c)
                         + eps / INR n * f c)).
    - rewrite rsum_plus, !rsum_scal, rsum_pick by lia. reflexivity.
    - intros c Hc.
      destruct (Z.eqb_spec (Z.of_nat c) t) as [E|E];
        destruct (Nat.eqb_spec c (Z.to_nat t)) as [E'|E']; try lia; lra. }
  change (rsum n (fun c => log_softmax x b c)) with (rsum n f).
  lra.
Qed.

Lemma example_loss_nonneg (cfg : CrossEntropyLoss) (x : tensor2 R)
      (b : nat) (t : Z) :
  0 <= label_smoothing cfg <= 1 ->
  target_ok (ignore_index cfg) (cols x) t = true ->
  0 <= example_loss cfg x b t.
Proof.
  intros Heps Hok. unfold example_loss.
  destruct (Z.eqb_spec t (ignore_index cfg)) as [E|E]; [lra|].
  unfold target_ok in Hok.
  destruct (Z.eqb_spec t (ignore_index cfg)) as [E'|_]; [contradiction|].
  simpl in Hok. apply andb_prop in Hok as [H0 H1].
  apply Z.leb_le in H0. apply Z.ltb_lt in H1.
  assert (Z.to_nat t < cols x)%nat as Hc by lia.
  pose proof (log_softmax_nonpos x b _ Hc) as Hl.
  pose proof (sum_log_softmax_nonpos x b) as Hs.
  assert (0 < INR (cols x)) as Hn by (apply lt_0_INR; lia).
  assert (0 <= label_smoothing cfg / INR (cols x)) as Hq.
  { apply Rmult_le_pos; [lra|]. left. apply Rinv_0_lt_compat, Hn. }
  apply Rplus_le_le_0_compat; apply Rmult_le_pos; lra.
Qed.

Lemma forallb_target_ok (ignore : Z) (ncls : nat) (labels : list Z) :
  Forall (fun t => 0 <= t < Z.of_nat ncls)%Z labels ->
  forallb (target_ok ignore ncls) labels = true.
Proof.
  intros H. apply forallb_forall. intros t Ht.
  rewrite Forall_forall in H. specialize (H t).
  assert (0 <= t < Z.of_nat ncls)%Z as [H0 H1].
  { apply H. apply list_elem_of_In. exact Ht. }
  unfold target_ok. apply orb_true_iff. right.
  apply andb_true_intro. split; [apply Z.leb_le|apply Z.ltb_lt]; assumption.
Qed.

Lemma kept_all (cfg : CrossEntropyLoss) (labels : list Z) :
  Forall (fun t => t <> ignore_index cfg) labels ->
  kept cfg labels = length labels.
Proof.
  unfold kept. induction 1 as [|t l Ht _ IH]; [reflexivity|]. simpl.
  destruct (Z.eqb_spec t (ignore_index cfg)); [contradiction|].
  simpl. rewrite IH. reflexivity.
Qed.

(** On class-id targets, the mean-reduced call is the label-smoothed
    cross-entropy. *)
Lemma call_mean_valid (cfg : CrossEntropyLoss) (x : tensor2 R) (labels : list Z) :
  reduction cfg = ReduceMean ->
  (ignore_index cfg < 0)%Z ->
  (0 < rows x)%nat ->
  length labels = rows x ->
  Forall (fun t => 0 <= t < Z.of_nat (cols x))%Z labels ->
  call cfg x (Some labels)
  = Ok (LossScalar
          (Finite (label_smoothed_cross_entropy (label_smoothing cfg) x labels))).
Proof.
  intros Hred Hign Hrows Hlen Hlab. unfold call.
  rewrite Hlen, Nat.eqb_refl. simpl.
  rewrite forallb_target_ok by exact Hlab. simpl. rewrite Hred.
  rewrite kept_all.
  2:{ eapply Forall_impl; [exact Hlab|]. simpl. intros t Ht. lia. }
  rewrite Hlen. destruct (Nat.eqb_spec (rows x) 0) as [E|_]; [lia|].
  do 3 f_equal. unfold label_smoothed_cross_entropy, batch_loss.
  f_equal. apply rsum_ext. intros b Hb.
  assert (exists t, labels !! b = Some t) as [t Ht].
  { apply lookup_lt_is_Some. lia. }
  rewrite (nth_lookup_Some _ _ _ _ Ht), (nth_lookup_Some _ _ _ _ Ht).
  rewrite Forall_lookup in Hlab. specialize (Hlab _ _ Ht).
  apply example_loss_smoothed; lia.
Qed.

Lemma label_smoothed_cross_entropy_nonneg (eps : R) (x : tensor2 R)
      (labels : list Z) :
  0 <= eps <= 1 ->
  length labels = rows x ->
  Forall (fun t => 0 <= t < Z.of_nat (cols x))%Z labels ->
  0 <= label_smoothed_cross_entropy eps x labels.
Proof.
  intros Heps Hlen Hlab. unfold label_smoothed_cross_entropy.
  set (cfg := {| ignore_index := -1; reduction := ReduceMean;
                 label_smoothing := eps |}).
  apply Rmult_le_pos.
  - apply rsum_nonneg. intros b Hb.
    assert (exists t, labels !! b = Some t) as [t Ht].
    { apply lookup_lt_is_Some. lia. }
    rewrite (nth_lookup_Some _ _ _ _ Ht).
    rewrite Forall_lookup in Hlab. specialize (Hlab _ _ Ht).
    rewrite <- (example_loss_smoothed cfg) by (simpl; lia).
    apply example_loss_nonneg; [exact Heps|].
    apply (proj1 (forallb_forall _ [t])
                 (forallb_target_ok _ _ [t] (Forall_cons_2 _ _ _ Hlab (Forall_nil_2 _)))).
    left. reflexivity.
  - destruct (rows x) as [|n]; [simpl; rewrite Rinv_0; lra|].
    left. apply Rinv_0_lt_compat, lt_0_INR. lia.
Qed.

End LossFacts.

(** ** The classifier head *)

Section HeadFacts.
Import Head.

Lemma nn_Linear_ok (n_in : nat) (n_out : Z) (use_bias : bool)
      (w : nat -> nat -> R) (b : nat -> R) (l : Linear) :
  nn_Linear n_in n_out use_bias w b = Ok l ->
  in_features l = n_in /\ out_features l = Z.to_nat n_out /\ 0 <= n_out.
Proof.
  unfold nn_Linear. destruct (Z.ltb_spec n_out 0); [discriminate|].
  intros [= <-]. simpl. auto.
Qed.

Lemma BertClassifier_init_spec (py_int : string -> result Z) (p : init_params)
      (model : Encoder) (n_labels : Z) (dropout_p : Q) (seed : Z)
      (cla_bias : bool) (shrink : string) (self : BertClassifier) :
  BertClassifier_init py_int p model n_labels dropout_p seed cla_bias shrink
  = Ok self ->
  bert_encoder self = model /\
  dropout self = dropout_p /\
  (0 <= dropout_p <= 1)%Q /\
  feat_shrink self = shrink /\
  loss_func self = {| Loss.ignore_index := -100;
                      Loss.reduction := Loss.ReduceMean;
                      Loss.label_smoothing := 0.3%R |} /\
  0 <= n_labels /\
  out_features (classifier self) = Z.to_nat n_labels /\
  shapes_agree self.
Proof.
  unfold BertClassifier_init, shapes_agree.
  destruct (Qle_bool 0 dropout_p && Qle_bool dropout_p 1) eqn:Hp; simpl;
    [|discriminate].
  apply andb_prop in Hp as [Hp0 Hp1].
  apply Qle_bool_iff in Hp0. apply Qle_bool_iff in Hp1.
  destruct (truthy shrink) eqn:Hs; simpl.
  - destruct (py_int shrink) as [z|e]; simpl; [|discriminate].
    destruct (nn_Linear (hidden_size model) z cla_bias
                        (shrink_weight p) (shrink_bias p)) as [l|e] eqn:El;
      simpl; [|discriminate].
    destruct (nn_Linear (Z.to_nat z) n_labels cla_bias
                        (classifier_weight p) (classifier_bias p)) as [cl|e] eqn:Ec;
      simpl; [|discriminate].
    intros [= <-]. simpl. rewrite Hs.
    apply nn_Linear_ok in El as (Hi & Ho & _).
    apply nn_Linear_ok in Ec as (Hci & Hco & Hn).
    repeat split; try reflexivity; try assumption.
    exists l. repeat split; congruence.
  - destruct (nn_Linear (hidden_size model) n_labels cla_bias
                        (classifier_weight p) (classifier_bias p)) as [cl|e] eqn:Ec;
      simpl; [|discriminate].
    intros [= <-]. simpl. rewrite Hs.
    apply nn_Linear_ok in Ec as (Hci & Hco & Hn).
    repeat split; try reflexivity; assumption.
Qed.

Lemma dropout_apply_shape (p : Q) (train : bool)
      (keep : nat -> nat -> nat -> bool) (x : tensor3 R) :
  dim0 (dropout_apply p train keep x) = dim0 x /\
  dim1 (dropout_apply p train keep x) = dim1 x /\
  dim2 (dropout_apply p train keep x) = dim2 x.
Proof. unfold dropout_apply. destruct train; simpl; auto. Qed.

(** The logits of lines 48-58 when the encoder answers with hidden
    states of the batch's shape. *)
Lemma forward_logits_value (self : BertClassifier)
      (input_ids attention_mask : tensor2 Z)
      (return_dict : option bool)
      (keep : nat -> nat -> nat -> bool)
      (hidden_states : list (tensor3 R)) (last : tensor3 R) :
  shapes_agree self ->
  encode (bert_encoder self) input_ids attention_mask return_dict
  = Ok hidden_states ->
  py_getitem hidden_states (-1) = Ok last ->
  dim1 last <> 0%nat ->
  dim2 last = hidden_size (bert_encoder self) ->
  forward_logits self input_ids attention_mask return_dict keep
  = Ok (linear_map (classifier self)
          (project self
             (position0 (dropout_apply (dropout self) (training self) keep last)))).
Proof.
  intros Hshape Henc Hlast Hseq Hhid. unfold forward_logits.
  rewrite Henc. simpl. rewrite Hlast. simpl.
  destruct (dropout_apply_shape (dropout self) (training self) keep last)
    as (D0 & D1 & D2).
  set (emb := dropout_apply (dropout self) (training self) keep last) in *.
  unfold first_slice. simpl. rewrite D1.
  destruct (Nat.eqb_spec (dim1 last) 0) as [E|_]; [contradiction|]. simpl.
  unfold shapes_agree in Hshape. unfold project.
  change (Tensor2 (dim0 emb) (dim2 emb) (fun b h => at3 emb b 0%nat h))
    with (position0 emb).
  destruct (truthy (feat_shrink self)).
  - destruct Hshape as (l & -> & Hin & Hcl). unfold linear_call.
    simpl. rewrite D2, Hhid, Hin, Nat.eqb_refl. simpl.
    rewrite Hcl, Nat.eqb_refl. reflexivity.
  - simpl. unfold linear_call. simpl. rewrite D2, Hhid, Hshape, Nat.eqb_refl.
    reflexivity.
Qed.

Lemma project_rows (self : BertClassifier) (x : tensor2 R) :
  rows (project self x) = rows x.
Proof.
  unfold project. destruct (truthy _); [destruct (feat_shrink_layer _)|];
    reflexivity.
Qed.

End HeadFacts.


Lemma forward_logits_cols (self : Head.BertClassifier)
      (input_ids attention_mask : tensor2 Z)
      (return_dict : option bool)
      (keep : nat -> nat -> nat -> bool) (lg : tensor2 R) :
  Head.forward_logits self input_ids attention_mask return_dict keep = Ok lg ->
  cols lg = Head.out_features (Head.classifier self).
Proof.
  unfold Head.forward_logits.
  destruct (Head.encode _ _ _) as [hs|]; simpl; [|discriminate].
  destruct (py_getitem hs (-1)) as [last|]; simpl; [|discriminate].
  destruct (first_slice _) as [cls|]; simpl; [|discriminate].
  assert (forall x, Head.linear_call (Head.classifier self) x = Ok lg ->
                    cols lg = Head.out_features (Head.classifier self)) as Hcall.
  { intros x. unfold Head.linear_call.
    destruct (_ =? _)%nat; [|discriminate]. intros [= <-]. reflexivity. }
  destruct (Head.truthy _); [|apply Hcall].
  destruct (Head.feat_shrink_layer self) as [l|]; simpl; [|discriminate].
  destruct (Head.linear_call l cls) as [x|]; simpl; [apply Hcall|discriminate].
Qed.

Lemma loss_call_rejects (cfg : Loss.CrossEntropyLoss) (x : tensor2 R)
      (labels : list Z) (t : Z) :
  In t labels ->
  Loss.target_ok (Loss.ignore_index cfg) (cols x) t = false ->
  exists e, Loss.call cfg x (Some labels) = Raise e.
Proof.
  intros Hin Hbad. unfold Loss.call.
  destruct (negb (length labels =? rows x)%nat); [eauto|].
  destruct (forallb _ labels) eqn:Hall; simpl; [|eauto].
  rewrite forallb_forall in Hall. rewrite (Hall t Hin) in Hbad. discriminate.
Qed.

Lemma target_ok_outside (ncls : nat) (t : Z) :
  ~ (0 <= t < Z.of_nat ncls) -> t <> -100 ->
  Loss.target_ok (-100) ncls t = false.
Proof.
  intros Hout Hne. unfold Loss.target_ok.
  destruct (Z.eqb_spec t (-100)); [contradiction|]. simpl.
  destruct (Z.leb_spec 0 t); destruct (Z.ltb_spec t (Z.of_nat ncls));
    simpl; try reflexivity. lia.
Qed.

(** C2: [forward] calls the loss function on whatever [labels] is.  With
    no labels it never returns an output: once the logits are computed
    the loss call raises TypeError.  Every output that is returned carries
    the loss the loss function computed from the [labels] argument, so
    there is no path that returns logits alone. *)
Theorem forward_loss_unconditional (self : Head.BertClassifier)
        (input_ids attention_mask : tensor2 Z)
        (return_dict : option bool)
      (keep : nat -> nat -> nat -> bool) :
  is_ok (Head.forward self input_ids attention_mask None return_dict keep) = false /\
  match Head.forward_logits self input_ids attention_mask return_dict keep with
  | Ok _ =>
      Head.forward self input_ids attention_mask None return_dict keep
      = Raise TypeError
  | Raise e =>
      Head.forward self input_ids attention_mask None return_dict keep = Raise e
  end /\
  forall labels,
    match Head.forward self input_ids attention_mask labels return_dict keep with
    | Ok out =>
        exists lg l,
          Head.forward_logits self input_ids attention_mask return_dict keep = Ok lg /\
          Loss.call (Head.loss_func self) lg labels = Ok l /\
          out = {| Head.loss := Some l; Head.logits := Some lg |}
    | Raise e =>
        Head.forward_logits self input_ids attention_mask return_dict keep = Raise e \/
        exists lg,
          Head.forward_logits self input_ids attention_mask return_dict keep = Ok lg /\
          Loss.call (Head.loss_func self) lg labels = Raise e
    end.
Proof.
  unfold Head.forward.
  destruct (Head.forward_logits self input_ids attention_mask return_dict keep)
    as [lg|e]; simpl.
  - repeat split. intros labels.
    destruct (Loss.call (Head.loss_func self) lg labels) as [l|e] eqn:El; simpl.
    + exists lg, l. auto.
    + right. exists lg. auto.
  - repeat split. intros labels. left. reflexivity.
Qed.



(** C4 as the code has it: a batch of no example meets every condition
    of the claim (scores over seven classes, as many labels as rows, every
    label in [0, 7)), and its loss is not-a-number, by the head's loss
    function and by [forward]: the mean is taken over no example. *)
Lemma loss_empty_batch_is_nan :
  Head.BertClassifier_init Demo.no_int Demo.params Demo.encoder 7 0%Q 0 true ""
  = Ok Demo.classifier7 /\
  rows Demo.empty_scores = 0%nat /\ cols Demo.empty_scores = 7%nat /\
  length (@nil Z) = rows Demo.empty_scores /\
  Forall (fun t => 0 <= t < Z.of_nat (cols Demo.empty_scores)) [] /\
  Loss.call (Head.loss_func Demo.classifier7) Demo.empty_scores (Some [])
  = Ok (Loss.LossScalar Loss.NaN) /\
  match Head.forward Demo.classifier7 Demo.empty_ids Demo.empty_ids (Some [])
                     None Demo.keep_all with
  | Ok out => Head.loss out = Some (Loss.LossScalar Loss.NaN)
  | Raise _ => False
  end.
Proof.
  split; [reflexivity|]. split; [reflexivity|]. split; [reflexivity|].
  split; [reflexivity|]. split; [constructor|]. split; reflexivity.
Qed.

(** C4, amended: the loss function [__init__] installs has smoothing
    factor 0.3 and mean reduction; on scores and class-id labels of one
    batch of at least one example, with every label in [0, num-classes),
    its value, which [forward] returns as the loss, is the label-smoothed
    cross-entropy averaged over the batch, which read as a real number is
    not negative. *)
Theorem loss_label_smoothed_nonneg (py_int : string -> result Z)
        (p : Head.init_params) (model : Head.Encoder) (n_labels : Z)
        (dropout_p : Q) (seed : Z) (cla_bias : bool) (shrink : string)
        (self : Head.BertClassifier) (scores : tensor2 R) (labels : list Z) :
  Head.BertClassifier_init py_int p model n_labels dropout_p seed cla_bias shrink
  = Ok self ->
  (0 < rows scores)%nat ->
  length labels = rows scores ->
  Forall (fun t => 0 <= t < Z.of_nat (cols scores)) labels ->
  Loss.label_smoothing (Head.loss_func self) = 0.3%R /\
  Loss.reduction (Head.loss_func self) = Loss.ReduceMean /\
  Loss.call (Head.loss_func self) scores (Some labels)
  = Ok (Loss.LossScalar
          (Loss.Finite (Loss.label_smoothed_cross_entropy 0.3 scores labels))) /\
  (0 <= Loss.label_smoothed_cross_entropy 0.3 scores labels)%R /\
  forall input_ids attention_mask return_dict keep,
    Head.forward_logits self input_ids attention_mask return_dict keep = Ok scores ->
    Head.forward self input_ids attention_mask (Some labels) return_dict keep
    = Ok {| Head.loss :=
              Some (Loss.LossScalar
                      (Loss.Finite
                         (Loss.label_smoothed_cross_entropy 0.3 scores labels)));
            Head.logits := Some scores |}.
Proof.
  intros Hinit Hrows Hlen Hlab.
  apply BertClassifier_init_spec in Hinit as (_ & _ & _ & _ & Hloss & _).
  assert (Loss.call (Head.loss_func self) scores (Some labels)
          = Ok (Loss.LossScalar
                  (Loss.Finite
                     (Loss.label_smoothed_cross_entropy 0.3 scores labels))))
    as Hcall.
  { rewrite Hloss.
    apply (call_mean_valid
             {| Loss.ignore_index := -100; Loss.reduction := Loss.ReduceMean;
                Loss.label_smoothing := 0.3%R |});
      simpl; auto; lia. }
  rewrite Hloss at 1 2. simpl.
  split; [reflexivity|]. split; [reflexivity|]. split; [exact Hcall|].
  split.
  - apply label_smoothed_cross_entropy_nonneg; [lra|exact Hlen|exact Hlab].
  - intros input_ids attention_mask return_dict keep Hlg. unfold Head.forward.
    rewrite Hlg. unfold mbind, result_bind. rewrite Hcall. reflexivity.
Qed.

Lemma loss_label_smoothed_nonneg_witness :
  Loss.label_smoothing (Head.loss_func Demo.classifier3) = 0.3%R /\
  Loss.reduction (Head.loss_func Demo.classifier3) = Loss.ReduceMean /\
  Loss.call (Head.loss_func Demo.classifier3) Demo.scores (Some Demo.labels)
  = Ok (Loss.LossScalar
          (Loss.Finite (Loss.label_smoothed_cross_entropy 0.3 Demo.scores Demo.labels))) /\
  (0 <= Loss.label_smoothed_cross_entropy 0.3 Demo.scores Demo.labels)%R /\
  forall input_ids attention_mask return_dict keep,
    Head.forward_logits Demo.classifier3 input_ids attention_mask return_dict keep
    = Ok Demo.scores ->
    Head.forward Demo.classifier3 input_ids attention_mask (Some Demo.labels)
                 return_dict keep
    = Ok {| Head.loss :=
              Some (Loss.LossScalar
                      (Loss.Finite
                         (Loss.label_smoothed_cross_entropy 0.3 Demo.scores Demo.labels)));
            Head.logits := Some Demo.scores |}.
Proof.
  apply (loss_label_smoothed_nonneg Demo.no_int Demo.params Demo.encoder 3
           0%Q 0 true "" Demo.classifier3 Demo.scores Demo.labels).
  - reflexivity.
  - simpl. lia.
  - reflexivity.
  - unfold Demo.labels. repeat (constructor; [simpl; lia|]). constructor.
Defined.

(** ** Final statistics *)

Section StatsFacts.
Import Stats.

Lemma Q2R_inject_Z (z : Z) : Q2R (inject_Z z) = IZR z.
Proof. unfold Q2R. simpl. rewrite Rinv_1. apply Rmult_1_r. Qed.

Lemma Q2R_half : Q2R (1 # 2) = (/ 2)%R.
Proof. unfold Q2R. simpl. lra. Qed.

Lemma round_half_even_near (q : Q) :
  (inject_Z (round_half_even q) - (1 # 2) <= q
   /\ q <= inject_Z (round_half_even q) + (1 # 2))%Q.
Proof.
  unfold round_half_even.
  pose proof (Qfloor_le q) as Hlo. pose proof (Qlt_floor q) as Hhi.
  rewrite inject_Z_plus in Hhi.
  change (inject_Z 1) with 1%Q in Hhi.
  destruct (Qcompare_spec (q - inject_Z (Qfloor q)) (1 # 2)) as [E|E|E].
  - destruct (Z.even (Qfloor q)); rewrite ?inject_Z_plus;
      change (inject_Z 1) with 1%Q; lra.
  - lra.
  - rewrite inject_Z_plus. change (inject_Z 1) with 1%Q. lra.
Qed.

Lemma round_sqrt_near (q : Q) :
  (0 <= q)%Q ->
  (IZR (round_sqrt q) - / 2 <= sqrt (Q2R q)
   /\ sqrt (Q2R q) <= IZR (round_sqrt q) + / 2)%R.
Proof.
  intros Hq. unfold round_sqrt.
  set (f := Qfloor q). set (n := Z.sqrt f).
  assert (0 <= f) as Hf.
  { subst f. change 0 with (Qfloor 0). apply Qfloor_resp_le, Hq. }
  destruct (Z.sqrt_spec f Hf) as [Hn1 Hn2]. fold n in Hn1, Hn2.
  pose proof (Z.sqrt_nonneg f) as Hn0. fold n in Hn0.
  set (r := Q2R q).
  assert (IZR f <= r)%R as Hr1.
  { rewrite <- Q2R_inject_Z. apply Qle_Rle, Qfloor_le. }
  assert (r < IZR f + 1)%R as Hr2.
  { replace (IZR f + 1)%R with (Q2R (inject_Z (f + 1))).
    - apply Qlt_Rlt, Qlt_floor.
    - rewrite Q2R_inject_Z, plus_IZR. reflexivity. }
  assert (0 <= IZR n)%R as Hn0R by (apply IZR_le; lia).
  assert (IZR n * IZR n <= r)%R as Hlo.
  { rewrite <- mult_IZR. eapply Rle_trans; [apply IZR_le, Hn1|exact Hr1]. }
  assert (r < (IZR n + 1) * (IZR n + 1))%R as Hhi.
  { eapply Rlt_le_trans; [exact Hr2|].
    replace ((IZR n + 1) * (IZR n + 1))%R with (IZR (Z.succ n * Z.succ n)).
    - replace (IZR f + 1)%R with (IZR (f + 1)) by (rewrite plus_IZR; reflexivity).
      apply IZR_le. lia.
    - rewrite mult_IZR, succ_IZR. reflexivity. }
  assert (0 <= r)%R as Hr0 by nra.
  assert (IZR n <= sqrt r)%R as Hs1.
  { rewrite <- (sqrt_square (IZR n)) at 1 by exact Hn0R.
    apply sqrt_le_1; [nra|exact Hr0|exact Hlo]. }
  assert (sqrt r < IZR n + 1)%R as Hs2.
  { rewrite <- (sqrt_square (IZR n + 1)) by lra.
    apply sqrt_lt_1; [exact Hr0|nra|exact Hhi]. }
  set (mid := ((inject_Z n + (1 # 2)) * (inject_Z n + (1 # 2)))%Q).
  assert (Q2R mid = (IZR n + / 2) * (IZR n + / 2))%R as Hmid.
  { subst mid. rewrite Q2R_mult, Q2R_plus, Q2R_inject_Z, Q2R_half. reflexivity. }
  assert (sqrt (Q2R mid) = IZR n + / 2)%R as Hsm.
  { rewrite Hmid. apply sqrt_square. lra. }
  destruct (Qcompare_spec q mid) as [E|E|E].
  - apply Qeq_eqR in E. fold r in E. rewrite E, Hsm.
    destruct (Z.even n); rewrite ?plus_IZR; lra.
  - apply Qlt_Rlt in E. fold r in E.
    assert (sqrt r < IZR n + / 2)%R.
    { rewrite <- Hsm. apply sqrt_lt_1; [exact Hr0|rewrite Hmid; nra|exact E]. }
    lra.
  - apply Qlt_Rlt in E. fold r in E.
    assert (IZR n + / 2 < sqrt r)%R.
    { rewrite <- Hsm. apply sqrt_lt_1; [rewrite Hmid; nra|exact Hr0|exact E]. }
    rewrite plus_IZR. lra.
Qed.

Lemma count_pos (a : list Q) : a <> [] -> (0 < count a)%Q.
Proof.
  intros H. unfold count. destruct a as [|x a]; [contradiction|].
  change 0%Q with (inject_Z 0). rewrite <- Zlt_Qlt. simpl. lia.
Qed.

Lemma Qsquare_nonneg (x : Q) : (0 <= x * x)%Q.
Proof. unfold Qle. simpl. nia. Qed.

Lemma total_squares_nonneg (m : Q) (a : list Q) :
  (0 <= total (map (fun x => (x - m) * (x - m)) a))%Q.
Proof.
  induction a as [|x a IH]; [apply Qle_refl|].
  change (0 <= (x - m) * (x - m)
               + total (map (fun x => (x - m) * (x - m)) a))%Q.
  pose proof (Qsquare_nonneg (x - m)). lra.
Qed.

Lemma Q2R_100 : Q2R 100 = 100%R.
Proof. unfold Q2R. simpl. lra. Qed.

Lemma Q2R_1e8 : Q2R 100000000 = (10000 * 10000)%R.
Proof. unfold Q2R. simpl. lra. Qed.

(** The statistics of a non-empty list: the mean times the count is the
    sum; the variance times the count is the sum of squared deviations;
    the standard deviation is the non-negative root of the variance; the
    two numbers printed are within half a hundredth of 100 times the mean
    and 100 times the standard deviation. *)
Lemma final_stats_nonempty (a : list Q) :
  a <> [] ->
  exists m v s,
    np_mean a = Some m /\ np_var 0 a = Some v /\ np_std 0 a = Some s /\
    final_stats a = Some (m, s) /\
    (m * count a == total a)%Q /\
    (v * count a == total (map (fun x => (x - m) * (x - m)) a))%Q /\
    (0 <= s)%R /\ (s * s = Q2R v)%R /\
    final_line a
    = ("# final_acc: " ++ render_2f (round_half_even (m * 100 * 100))
       ++ "±" ++ render_2f (round_sqrt (v * 100000000)))%string /\
    (Rabs (IZR (round_half_even (m * 100 * 100)) - 100 * (100 * Q2R m)) <= / 2)%R /\
    (Rabs (IZR (round_sqrt (v * 100000000)) - 100 * (100 * s)) <= / 2)%R.
Proof.
  intros Hne. pose proof (count_pos a Hne) as Hc.
  set (m := (total a / count a)%Q).
  set (v := (total (map (fun x => (x - m) * (x - m)) a) / count a)%Q).
  assert (np_mean a = Some m) as Hm by (destruct a; [contradiction|reflexivity]).
  assert (np_var 0 a = Some v) as Hv.
  { unfold np_var. rewrite Hm. simpl.
    destruct a as [|x a]; [contradiction|]. reflexivity. }
  assert (0 <= v)%Q as Hv0.
  { subst v. apply Qle_shift_div_l; [exact Hc|].
    rewrite Qmult_0_l. apply total_squares_nonneg. }
  assert (0 <= Q2R v)%R as Hv0R.
  { replace 0%R with (Q2R 0) by (unfold Q2R; simpl; lra). apply Qle_Rle, Hv0. }
  exists m, v, (sqrt (Q2R v)).
  split; [exact Hm|]. split; [exact Hv|].
  split; [unfold np_std; rewrite Hv; reflexivity|].
  split; [unfold final_stats, np_std; rewrite Hm, Hv; reflexivity|].
  split; [subst m; field; intros E; rewrite E in Hc; discriminate|].
  split; [subst v; field; intros E; rewrite E in Hc; discriminate|].
  split; [apply sqrt_pos|]. split; [apply sqrt_sqrt, Hv0R|].
  split; [unfold final_line; rewrite Hm, Hv; reflexivity|].
  split.
  - destruct (round_half_even_near (m * 100 * 100)) as [H1 H2].
    apply Qle_Rle in H1, H2.
    rewrite Q2R_minus, Q2R_inject_Z, Q2R_half in H1.
    rewrite Q2R_plus, Q2R_inject_Z, Q2R_half in H2.
    rewrite !Q2R_mult, Q2R_100 in H1, H2.
    apply Rabs_le. lra.
  - destruct (round_sqrt_near (v * 100000000)) as [H1 H2].
    { apply Qmult_le_0_compat; [exact Hv0|discriminate]. }
    rewrite Q2R_mult, Q2R_1e8, sqrt_mult, sqrt_square in H1, H2 by lra.
    apply Rabs_le. lra.
Qed.

(** The worked example: accuracies 0.70, 0.72, 0.75, 0.71, 0.73. *)
Lemma final_stats_example :
  exists m v s,
    np_mean Demo.accuracies = Some m /\ (m == 0.722)%Q /\
    np_var 0 Demo.accuracies = Some v /\ (v == 0.000296)%Q /\
    np_std 0 Demo.accuracies = Some s /\ (0.0172 <= s < 0.01721)%R /\
    final_line Demo.accuracies = "# final_acc: 72.20±1.72"%string.
Proof.
  destruct (final_stats_nonempty Demo.accuracies)
    as (m & v & s & Hm & Hv & Hs & _ & _ & _ & Hs0 & Hss & _); [discriminate|].
  exists m, v, s.
  assert (m == 0.722)%Q as Em.
  { vm_compute in Hm. injection Hm as <-. reflexivity. }
  assert (v == 0.000296)%Q as Ev.
  { vm_compute in Hv. injection Hv as <-. reflexivity. }
  split; [exact Hm|]. split; [exact Em|]. split; [exact Hv|].
  split; [exact Ev|]. split; [exact Hs|]. split; [|vm_compute; reflexivity].
  rewrite (Qeq_eqR _ _ Ev) in Hss.
  replace (Q2R 0.000296) with (0.000296)%R in Hss by (unfold Q2R; simpl; lra).
  split; nra.
Qed.

Lemma mapM_Some_id (a : list Q) :
  mapM (fun x : option Q => x) (map Some a) = Some a.
Proof.
  apply mapM_Some. induction a as [|x a IH]; constructor; auto.
Qed.

End StatsFacts.

(** C5: on the accumulated accuracies the driver reports the arithmetic
    mean and the standard deviation with divisor N (numpy's default
    [ddof = 0]), each times 100 and rounded to two decimals.  For
    0.70, 0.72, 0.75, 0.71, 0.73 the mean is 0.722, the variance is
    0.00148 / 5 = 0.000296 (dividing by 4 would give 0.00037), the
    standard deviation lies in [0.0172, 0.01721), and the line printed is
    "# final_acc: 72.20±1.72". *)
Theorem final_report_mean_population_std :
  (forall a : list Q,
      Driver.aggregate (map Some a) = Stats.final_line a /\
      Stats.final_stats a
      = match Stats.np_mean a, Stats.np_std 0 a with
        | Some m, Some s => Some (m, s)
        | _, _ => None
        end) /\
  (forall a : list Q,
      a <> [] ->
      exists m v s,
        Stats.np_mean a = Some m /\ Stats.np_var 0 a = Some v /\
        Stats.np_std 0 a = Some s /\
        Stats.final_stats a = Some (m, s) /\
        (m * Stats.count a == Stats.total a)%Q /\
        (v * Stats.count a
         == Stats.total (map (fun x => (x - m) * (x - m)) a))%Q /\
        (0 <= s)%R /\ (s * s = Q2R v)%R /\
        Stats.final_line a
        = ("# final_acc: "
           ++ Stats.render_2f (Stats.round_half_even (m * 100 * 100))
           ++ "±" ++ Stats.render_2f (Stats.round_sqrt (v * 100000000)))%string /\
        (Rabs (IZR (Stats.round_half_even (m * 100 * 100))
               - 100 * (100 * Q2R m)) <= / 2)%R /\
        (Rabs (IZR (Stats.round_sqrt (v * 100000000)) - 100 * (100 * s)) <= / 2)%R) /\
  (exists m v s,
      Stats.np_mean Demo.accuracies = Some m /\ (m == 0.722)%Q /\
      Stats.np_var 0 Demo.accuracies = Some v /\ (v == 0.000296)%Q /\
      Stats.np_std 0 Demo.accuracies = Some s /\ (0.0172 <= s < 0.01721)%R /\
      Stats.final_line Demo.accuracies = "# final_acc: 72.20±1.72"%string) /\
  (exists v1, Stats.np_var 1 Demo.accuracies = Some v1 /\ (v1 == 0.00037)%Q).
Proof.
  split; [|split; [exact final_stats_nonempty|split; [exact final_stats_example|]]].
  - intros a. split.
    + unfold Driver.aggregate. rewrite mapM_Some_id. reflexivity.
    + unfold Stats.final_stats.
      destruct (Stats.np_mean a); [|reflexivity]. simpl.
      destruct (Stats.np_std 0 a); reflexivity.
  - eexists. split; [vm_compute; reflexivity|]. reflexivity.
Qed.

(** ** The driver *)

(** Case analysis on the next call of a driver computation. *)
Ltac driver_step :=
  match goal with
  | |- context [let '(_, _) := ?x in _] =>
      lazymatch x with
      | context [match _ with _ => _ end] => fail
      | _ => first [is_var x; destruct x
                   |destruct x as [[?|?] ?] eqn:?]; simpl
      end
  | |- context [match ?r with Ok _ => _ | Raise _ => _ end] =>
      lazymatch r with
      | context [match _ with _ => _ end] => fail
      | _ => destruct r eqn:?; simpl
      end
  end.

(** A pass that raised: the events so far, each with seven classes. *)
Ltac driver_raised :=
  first
    [ exists []; split; [symmetry; apply app_nil_r|constructor]
    | eexists; split;
      [rewrite <- ?app_assoc; simpl; reflexivity
      |repeat (constructor; simpl; auto)] ].

Section DriverFacts.
Import Driver.
Context (W : Type) (E : Externals W).

Lemma trial_spec (i : nat) (st : state W) :
  match trial W E i st with
  | (Ok a, st') =>
      exists r, seed_of r = i /\ acc_of r = a /\
                trace st' = trace st ++ trial_events r /\
                built_in_pass W E r
  | (Raise e, st') =>
      exists evs, trace st' = trace st ++ evs /\ Forall seven_classes evs
  end.
Proof.
  unfold trial, mbind, M_bind, mret, M_ret, lift, call, emit. simpl.
  repeat driver_step; try driver_raised.
  eexists (Build_trial_record i _ _ _).
  split; [reflexivity|]. split; [reflexivity|].
  split; [rewrite <- !app_assoc; reflexivity|].
  unfold built_in_pass. simpl. do 6 eexists.
  split; [eassumption|]. split; [eassumption|]. split; [reflexivity|].
  do 4 eexists. eassumption.
Qed.

Lemma built_in_pass_seven (r : trial_record) :
  built_in_pass W E r -> Forall seven_classes (events_of r).
Proof.
  intros (name & enc & p & w1 & w2 & w3 & _ & _ & Hinit & _).
  apply BertClassifier_init_spec in Hinit as (_ & _ & _ & _ & _ & _ & Hout & _).
  unfold events_of, trial_events. repeat (constructor; simpl; auto).
Qed.

Lemma run_trials_spec (seeds : list nat) (acc_list : list accuracy)
      (st : state W) :
  match run_trials W E seeds acc_list st with
  | (Ok accs, st') =>
      exists rs, map seed_of rs = seeds /\
                 accs = acc_list ++ map acc_of rs /\
                 trace st' = trace st ++ concat (map events_of rs) /\
                 Forall (built_in_pass W E) rs
  | (Raise e, st') =>
      exists rs evs i rest,
        seeds = map seed_of rs ++ i :: rest /\
        trace st' = trace st ++ concat (map events_of rs) ++ evs /\
        Forall (built_in_pass W E) rs /\
        Forall seven_classes evs
  end.
Proof.
  revert acc_list st. induction seeds as [|i seeds IH]; intros acc_list st.
  - simpl. exists []. simpl. rewrite !app_nil_r. auto.
  - simpl. unfold mbind at 1. unfold M_bind at 1.
    pose proof (trial_spec i st) as Ht.
    destruct (trial W E i st) as [[a|e] st1].
    + destruct Ht as (r & Hseed & <- & Htr & Hb).
      unfold mbind at 1. unfold M_bind at 1. unfold emit at 1.
      set (st2 := {| world := world st1;
                     trace := trace st1 ++ [EvAppend (acc_of r)] |}).
      specialize (IH (acc_list ++ [acc_of r]) st2).
      destruct (run_trials W E seeds (acc_list ++ [acc_of r]) st2)
        as [[accs|e] st3].
      * destruct IH as (rs & Hs & Ha & Ht' & Hf). exists (r :: rs).
        split; [simpl; congruence|].
        split; [simpl; rewrite Ha, <- app_assoc; reflexivity|].
        split; [|constructor; assumption].
        rewrite Ht'. subst st2. simpl. rewrite Htr. unfold events_of.
        rewrite <- !app_assoc. reflexivity.
      * destruct IH as (rs & evs & j & rest & Hs & Ht' & Hf & Hev).
        exists (r :: rs), evs, j, rest.
        split; [simpl; congruence|].
        split; [|split; [constructor; assumption|exact Hev]].
        rewrite Ht'. subst st2. simpl. rewrite Htr. unfold events_of.
        rewrite <- !app_assoc. reflexivity.
    + destruct Ht as (evs & Htr & Hev). exists [], evs, i, seeds.
      simpl. auto.
Qed.

End DriverFacts.

(** C8: when the driver reaches the aggregation, the loop has run for
    the seeds 0, 1, 2, 3, 4 in this order; each pass built its own
    classifier head from an encoder and parameters obtained in that pass
    and handed that head to the trainer; each pass appended one accuracy;
    and the accumulator has five entries. *)
Theorem driver_five_trials (W : Type) (E : Driver.Externals W)
        (st st' : Driver.state W) (accs : list Driver.accuracy) (line : string) :
  Driver.main W E st = (Ok (accs, line), st') ->
  length accs = 5%nat /\
  line = Driver.aggregate accs /\
  exists rs,
    map Driver.seed_of rs = [0; 1; 2; 3; 4]%nat /\
    accs = map Driver.acc_of rs /\
    Driver.trace st' = Driver.trace st ++ concat (map Driver.events_of rs) /\
    Forall (Driver.built_in_pass W E) rs.
Proof.
  unfold Driver.main. unfold mbind at 1. unfold Driver.M_bind at 1.
  pose proof (run_trials_spec W E (seq 0 5) [] st) as Hrun.
  destruct (Driver.run_trials W E (seq 0 5) [] st) as [[a|e] st1];
    [|discriminate].
  destruct Hrun as (rs & Hseeds & Haccs & Htrace & Hbuilt).
  intros [= <- <- <-]. simpl in Haccs.
  assert (length a = 5%nat) as Hlen.
  { rewrite Haccs, length_map, <- (length_map Driver.seed_of), Hseeds.
    reflexivity. }
  split; [exact Hlen|]. split; [reflexivity|].
  exists rs. auto.
Qed.

Lemma driver_five_trials_witness :
  exists accs line st',
    Driver.main unit Demo.externals Demo.start = (Ok (accs, line), st') /\
    length accs = 5%nat /\
    line = Driver.aggregate accs /\
    exists rs,
      map Driver.seed_of rs = [0; 1; 2; 3; 4]%nat /\
      accs = map Driver.acc_of rs /\
      Driver.trace st'
      = Driver.trace Demo.start ++ concat (map Driver.events_of rs) /\
      Forall (Driver.built_in_pass unit Demo.externals) rs.
Proof.
  destruct (Driver.main unit Demo.externals Demo.start) as [[[accs line]|e] st']
    eqn:Hmain.
  - exists accs, line, st'. split; [reflexivity|].
    exact (driver_five_trials unit Demo.externals Demo.start st' accs line Hmain).
  - exfalso. vm_compute in Hmain. discriminate.
Defined.

(** The run on the small world: every pass scores one of its two test
    nodes right. *)
Example demo_run :
  fst (Driver.main unit Demo.externals Demo.start)
  = Ok ([Some (1 # 2); Some (1 # 2); Some (1 # 2); Some (1 # 2); Some (1 # 2)]%Q,
        "# final_acc: 50.00±0.00"%string).
Proof. vm_compute. reflexivity. Qed.

(** C9 as the code has it: [-100], the loss function's ignore index, is
    outside [0, 7), and the loss of a batch holding it is computed all the
    same, by the head and by [forward]. *)
Lemma loss_accepts_ignore_index :
  In (-100) Demo.labels_with_ignored /\
  ~ (0 <= -100 < 7) /\
  Head.out_features (Head.classifier Demo.classifier7) = 7%nat /\
  Head.BertClassifier_init Demo.no_int Demo.params Demo.encoder 7 0%Q 0 true ""
  = Ok Demo.classifier7 /\
  (exists r, Loss.call (Head.loss_func Demo.classifier7) Demo.scores7
                       (Some Demo.labels_with_ignored)
             = Ok (Loss.LossScalar (Loss.Finite r))) /\
  is_ok (Head.forward Demo.classifier7 Demo.input_ids Demo.attention_mask
                      (Some Demo.labels_with_ignored) None Demo.keep_all) = true.
Proof.
  split; [right; left; reflexivity|]. split; [lia|].
  split; [reflexivity|]. split; [reflexivity|].
  split; [eexists; reflexivity|reflexivity].
Qed.

(** C9, amended: every head the driver builds, in every run and whatever
    the loaded dataset holds, has seven output classes; the logits of such
    a head have seven columns; and a label outside [0, 7) other than the
    ignore index -100 makes the loss call, and with it [forward], raise. *)
Theorem seven_classes_hardcoded :
  (forall (W : Type) (E : Driver.Externals W) (st : Driver.state W),
      exists evs,
        Driver.trace (snd (Driver.main W E st)) = Driver.trace st ++ evs /\
        Forall Driver.seven_classes evs) /\
  (forall py_int p model dropout_p seed cla_bias shrink self,
      Head.BertClassifier_init py_int p model 7 dropout_p seed cla_bias shrink
      = Ok self ->
      Head.out_features (Head.classifier self) = 7%nat /\
      forall input_ids attention_mask return_dict keep lg,
        Head.forward_logits self input_ids attention_mask return_dict keep = Ok lg ->
        cols lg = 7%nat /\
        forall labels t,
          In t labels -> ~ (0 <= t < 7) -> t <> -100 ->
          (exists e, Loss.call (Head.loss_func self) lg (Some labels) = Raise e) /\
          (exists e, Head.forward self input_ids attention_mask (Some labels)
                                  return_dict keep = Raise e)).
Proof.
  split.
  - intros W E st. unfold Driver.main. unfold mbind at 1.
    unfold Driver.M_bind at 1.
    pose proof (run_trials_spec W E (seq 0 5) [] st) as Hrun.
    destruct (Driver.run_trials W E (seq 0 5) [] st) as [[a|e] st1]; simpl.
    + destruct Hrun as (rs & _ & _ & Htrace & Hbuilt).
      exists (concat (map Driver.events_of rs)). split; [exact Htrace|].
      apply Forall_concat, Forall_map.
      eapply Forall_impl; [exact Hbuilt|]. apply built_in_pass_seven.
    + destruct Hrun as (rs & evs & i & rest & _ & Htrace & Hbuilt & Hevs).
      exists (concat (map Driver.events_of rs) ++ evs). split; [exact Htrace|].
      apply Forall_app. split; [|exact Hevs].
      apply Forall_concat, Forall_map.
      eapply Forall_impl; [exact Hbuilt|]. apply built_in_pass_seven.
  - intros py_int p model dropout_p seed cla_bias shrink self Hinit.
    apply BertClassifier_init_spec in Hinit
      as (_ & _ & _ & _ & Hloss & _ & Hout & _).
    change (Z.to_nat 7) with 7%nat in Hout.
    split; [exact Hout|].
    intros input_ids attention_mask return_dict keep lg Hlg.
    pose proof (forward_logits_cols _ _ _ _ _ _ Hlg) as Hcols.
    rewrite Hout in Hcols. split; [exact Hcols|].
    intros labels t Hin Hrange Hne.
    destruct (loss_call_rejects (Head.loss_func self) lg labels t Hin) as [e He].
    { rewrite Hloss, Hcols. simpl. apply target_ok_outside; assumption. }
    split; [eauto|]. exists e. unfold Head.forward. rewrite Hlg.
    unfold mbind, result_bind. rewrite He. reflexivity.
Qed.

Lemma seven_classes_hardcoded_witness :
  Head.out_features (Head.classifier Demo.classifier7) = 7%nat /\
  forall input_ids attention_mask return_dict keep lg,
    Head.forward_logits Demo.classifier7 input_ids attention_mask return_dict
                        keep = Ok lg ->
    cols lg = 7%nat /\
    forall labels t,
      In t labels -> ~ (0 <= t < 7) -> t <> -100 ->
      (exists e, Loss.call (Head.loss_func Demo.classifier7) lg (Some labels)
                 = Raise e) /\
      (exists e, Head.forward Demo.classifier7 input_ids attention_mask
                              (Some labels) return_dict keep = Raise e).
Proof.
  apply (proj2 seven_classes_hardcoded Demo.no_int Demo.params Demo.encoder
               0%Q 0 true "" Demo.classifier7).
  reflexivity.
Defined.

(** * Further properties *)

(** ** Indexing *)

Section IndexFacts.
Context {A : Type}.
Implicit Types (val : list A) (idx : Z).

Lemma py_getitem_ok_in_range idx val (x : A) :
  py_getitem val idx = Ok x -> in_range idx val.
Proof.
  unfold py_getitem, in_range. cbv zeta.
  set (n := Z.of_nat (length val)).
  destruct (Z.ltb_spec idx 0) as [Hneg|Hpos].
  - destruct (Z.leb_spec 0 (idx + n)); [|discriminate].
    destruct (Z.ltb_spec (idx + n) n); [|discriminate]. intros _. lia.
  - destruct (Z.leb_spec 0 idx); [|discriminate].
    destruct (Z.ltb_spec idx n); [|discriminate]. intros _. lia.
Qed.

Lemma py_getitem_outside idx val :
  ~ in_range idx val -> py_getitem val idx = Raise IndexError.
Proof.
  intros Hout. destruct (py_getitem val idx) as [x|e] eqn:E.
  - exfalso. apply Hout. eapply py_getitem_ok_in_range, E.
  - f_equal. eapply py_getitem_raises, E.
Qed.

Lemma selected_None_outside idx val :
  selected idx val = None -> ~ in_range idx val.
Proof.
  unfold selected. intros Hs Hr.
  destruct (py_getitem_in_range idx val Hr) as [x Ex]. rewrite Ex in Hs.
  discriminate.
Qed.

Lemma selected_Some_in_range idx val :
  is_Some (selected idx val) -> in_range idx val.
Proof.
  unfold selected. intros [x Hx].
  destruct (py_getitem val idx) as [y|e] eqn:E; [|discriminate].
  eapply py_getitem_ok_in_range, E.
Qed.

(** A negative index counts from the end. *)
Lemma py_getitem_wrap val (i : Z) :
  0 <= i < Z.of_nat (length val) ->
  py_getitem val (i - Z.of_nat (length val)) = py_getitem val i.
Proof.
  intros Hi. unfold py_getitem.
  destruct (Z.ltb_spec (i - Z.of_nat (length val)) 0); [|lia].
  destruct (Z.ltb_spec i 0); [lia|].
  replace (i - Z.of_nat (length val) + Z.of_nat (length val)) with i by lia.
  reflexivity.
Qed.

End IndexFacts.

(** ** NCDataset, continued *)

(** [__getitem__] returns an item exactly when [idx] is a valid position
    of the labels and of every encoding field; otherwise it raises
    IndexError, and nothing else. *)
Theorem ncdataset_getitem_index_error {V : Type}
        (enc : gmap string (list V)) (labels : list V) (idx : Z) :
  match NCDataset.getitem (NCDataset.init enc labels) idx with
  | Ok item =>
      in_range idx labels /\
      forall k val, enc !! k = Some val -> in_range idx val
  | Raise e =>
      e = IndexError /\
      (~ in_range idx labels \/
       exists k val, enc !! k = Some val /\ ~ in_range idx val)
  end.
Proof.
  pose proof (index_all_spec enc idx) as Hspec.
  unfold NCDataset.getitem. simpl.
  destruct (NCDataset.index_all enc idx) as [item|e]; simpl.
  - destruct Hspec as [_ H2].
    destruct (py_getitem labels idx) as [lab|e] eqn:El; simpl.
    + split; [eapply py_getitem_ok_in_range, El|].
      intros k val Hk. eapply selected_Some_in_range, H2, Hk.
    + split; [eapply py_getitem_raises, El|]. left. intros Hr.
      destruct (py_getitem_in_range idx labels Hr) as [x Ex]. congruence.
  - destruct Hspec as [-> (k & val & Hk & Hs)]. split; [reflexivity|].
    right. exists k, val. split; [exact Hk|].
    apply selected_None_outside, Hs.
Qed.

(** When every encoding field is as long as the labels, the negative
    index [i - len] selects the item at position [i]. *)
Theorem ncdataset_negative_index {V : Type}
        (enc : gmap string (list V)) (labels : list V) (i : Z) :
  (forall k val, enc !! k = Some val -> length val = length labels) ->
  0 <= i < Z.of_nat (NCDataset.len (NCDataset.init enc labels)) ->
  exists item,
    NCDataset.getitem (NCDataset.init enc labels) i = Ok item /\
    NCDataset.getitem (NCDataset.init enc labels)
      (i - Z.of_nat (NCDataset.len (NCDataset.init enc labels))) = Ok item.
Proof.
  unfold NCDataset.len. simpl. intros Hlen Hi.
  set (n := Z.of_nat (length labels)) in *.
  assert (forall k val, enc !! k = Some val ->
                        selected (i - n) val = selected i val) as Hsel.
  { intros k val Hk. unfold selected. subst n. rewrite <- (Hlen k val Hk).
    rewrite py_getitem_wrap; [reflexivity|]. rewrite (Hlen k val Hk). exact Hi. }
  assert (forall j, (j = i \/ j = i - n) ->
                    forall k val, enc !! k = Some val -> in_range j val) as Hr.
  { intros j Hj k val Hk. unfold in_range. rewrite (Hlen k val Hk).
    fold n. lia. }
  pose proof (index_all_spec enc i) as H1.
  pose proof (index_all_spec enc (i - n)) as H2.
  unfold NCDataset.getitem. simpl.
  destruct (NCDataset.index_all enc i) as [item1|e1].
  2:{ exfalso. destruct H1 as [_ (k & val & Hk & Hs)].
      eapply selected_None_outside; [exact Hs|]. eapply Hr; eauto. }
  destruct (NCDataset.index_all enc (i - n)) as [item2|e2].
  2:{ exfalso. destruct H2 as [_ (k & val & Hk & Hs)].
      eapply selected_None_outside; [exact Hs|]. eapply Hr; eauto. }
  assert (item2 = item1) as ->.
  { apply map_eq. intros k. rewrite (proj1 H1 k), (proj1 H2 k).
    destruct (enc !! k) as [val|] eqn:Hk; [simpl|reflexivity].
    eapply Hsel, Hk. }
  simpl. subst n. rewrite py_getitem_wrap by exact Hi.
  destruct (py_getitem_in_range i labels) as [lab El].
  { unfold in_range. lia. }
  rewrite El. simpl. eauto.
Qed.

Lemma ncdataset_negative_index_witness :
  exists item,
    NCDataset.getitem
      (NCDataset.init (<["input_ids"%string := [10; 11; 12]]> ∅) [7; 8; 9]) 2
    = Ok item /\
    NCDataset.getitem
      (NCDataset.init (<["input_ids"%string := [10; 11; 12]]> ∅) [7; 8; 9])
      (2 - Z.of_nat
             (NCDataset.len
                (NCDataset.init (<["input_ids"%string := [10; 11; 12]]> ∅)
                                [7; 8; 9])))
    = Ok item.
Proof.
  apply (ncdataset_negative_index
           (<["input_ids"%string := [10; 11; 12]]> ∅) [7; 8; 9] 2).
  - intros k val. rewrite lookup_insert.
    destruct (decide ("input_ids"%string = k)).
    + intros [= <-]. reflexivity.
    + rewrite lookup_empty. discriminate.
  - unfold NCDataset.len. simpl. lia.
Defined.

(** ** collect_txt, continued *)

Section CollectFacts.
Import Split.
Context {A : Type}.
Implicit Types (idx : list Z) (txt tmp : list A).

Lemma collect_loop_acc idx txt tmp :
  collect_loop idx txt tmp
  = (out ← collect_loop idx txt []; Ok (tmp ++ out)).
Proof.
  revert tmp. induction idx as [|i idx IH]; intros tmp; simpl.
  - rewrite app_nil_r. reflexivity.
  - destruct (py_getitem txt i) as [x|e]; simpl; [|reflexivity].
    rewrite (IH (tmp ++ [x])), (IH [x]).
    destruct (collect_loop idx txt []) as [out|e]; simpl; [|reflexivity].
    rewrite <- app_assoc. reflexivity.
Qed.

Lemma collect_loop_spec idx txt :
  match collect_loop idx txt [] with
  | Ok out => Forall2 (fun i x => py_getitem txt i = Ok x) idx out
  | Raise e => e = IndexError /\ exists i, In i idx /\ ~ in_range i txt
  end.
Proof.
  induction idx as [|i idx IH]; simpl; [constructor|].
  destruct (py_getitem txt i) as [x|e] eqn:Ex; simpl.
  - rewrite collect_loop_acc.
    destruct (collect_loop idx txt []) as [out|e]; simpl.
    + constructor; assumption.
    + destruct IH as [-> (j & Hj & Hout)]. split; [reflexivity|].
      exists j. auto.
  - split; [eapply py_getitem_raises, Ex|]. exists i. split; [left; reflexivity|].
    intros Hr. destruct (py_getitem_in_range i txt Hr) as [x Hx]. congruence.
Qed.

Lemma collect_loop_app (a b : list Z) txt :
  collect_loop (a ++ b) txt []
  = (x ← collect_loop a txt []; y ← collect_loop b txt []; Ok (x ++ y)).
Proof.
  induction a as [|i a IH]; simpl.
  - destruct (collect_loop b txt []); reflexivity.
  - destruct (py_getitem txt i) as [x|e]; simpl; [|reflexivity].
    rewrite (collect_loop_acc (a ++ b)), (collect_loop_acc a), IH.
    destruct (collect_loop a txt []) as [xa|e]; simpl; [|reflexivity].
    destruct (collect_loop b txt []) as [xb|e]; simpl; reflexivity.
Qed.

End CollectFacts.

(** [collect_txt] on a list of indices: the result has one entry per
    index, in the order of the indices, the k-th being [txt[idx[k]]]
    (a negative index counting from the end, a repeated index giving a
    repeated entry); it raises exactly when some index is outside
    [-len(txt), len(txt)), and then IndexError. *)
Theorem collect_txt_spec {A : Type} (idx : list Z) (txt : list A) :
  match Split.collect_txt (Split.PyIntList idx) txt with
  | Ok out =>
      length out = length idx /\
      Forall2 (fun i x => py_getitem txt i = Ok x) idx out /\
      Forall (fun i => in_range i txt) idx
  | Raise e =>
      e = IndexError /\ exists i, In i idx /\ ~ in_range i txt
  end.
Proof.
  simpl. pose proof (collect_loop_spec idx txt) as H.
  destruct (Split.collect_loop idx txt []) as [out|e]; [|exact H].
  split; [symmetry; eapply Forall2_length, H|]. split; [exact H|].
  clear -H. induction H as [|i x idx out Hx _ IH]; constructor; [|exact IH].
  eapply py_getitem_ok_in_range, Hx.
Qed.

(** Gathering by a concatenated index list gathers by each part and
    concatenates; a failure in the first part is reported before one in
    the second. *)
Theorem collect_txt_app {A : Type} (a b : list Z) (txt : list A) :
  Split.collect_txt (Split.PyIntList (a ++ b)) txt
  = (x ← Split.collect_txt (Split.PyIntList a) txt;
     y ← Split.collect_txt (Split.PyIntList b) txt;
     Ok (x ++ y)).
Proof. apply collect_loop_app. Qed.

(** ** mean_pooling, continued *)

Section PoolingMore.
Import Pooling.

Lemma qsum_ext (n : nat) (f g : nat -> Q) :
  (forall s, (s < n)%nat -> f s == g s)%Q -> (qsum n f == qsum n g)%Q.
Proof.
  induction n as [|n IH]; intros H; simpl; [reflexivity|].
  rewrite IH by (intros s Hs; apply H; lia).
  rewrite (H n) by lia. reflexivity.
Qed.

Lemma source_index_id (have i : nat) :
  (i < have)%nat -> source_index have i = i.
Proof.
  unfold source_index. intros H.
  destruct (Nat.eqb_spec have 1); [lia|reflexivity].
Qed.

Lemma expandable_same (n : nat) : expandable n n = true.
Proof. unfold expandable. rewrite Nat.eqb_refl. reflexivity. Qed.

Lemma expandable_cases (have want : nat) :
  expandable have want = true <-> have = want \/ have = 1%nat.
Proof.
  unfold expandable. rewrite orb_true_iff, !Nat.eqb_eq. reflexivity.
Qed.

(** The entries of the result for a mask of the embeddings' shape. *)
Lemma mean_pooling_entries (e : tensor3 Q) (mask : tensor2 Z) :
  rows mask = dim0 e -> cols mask = dim1 e ->
  exists out,
    mean_pooling e mask = Ok out /\
    rows out = dim0 e /\ cols out = dim2 e /\
    forall b h, (b < dim0 e)%nat ->
      exists num den,
        at2 out b h = fdiv num den /\
        (num == qsum (dim1 e) (fun s => at3 e b s h * inject_Z (at2 mask b s)))%Q /\
        (den == let total := qsum (dim1 e) (fun s => inject_Z (at2 mask b s)) in
                if Qle_bool floor_clamp total then total else floor_clamp)%Q.
Proof.
  intros Hr Hc. unfold mean_pooling.
  rewrite (expand_mask mask _ _ (dim2 e)) by
    (rewrite ?Hr, ?Hc; apply expandable_same).
  simpl. eexists. split; [reflexivity|]. split; [reflexivity|].
  split; [reflexivity|]. intros b h Hb. simpl.
  rewrite Hr, (source_index_id _ _ Hb).
  assert (qsum (dim1 e)
            (fun s => inject_Z (at2 mask b (source_index (cols mask) s)))
          == qsum (dim1 e) (fun s => inject_Z (at2 mask b s)))%Q as Hden.
  { apply qsum_ext. intros s Hs. rewrite Hc, (source_index_id _ _ Hs).
    reflexivity. }
  eexists. eexists. split; [reflexivity|]. split.
  - apply qsum_ext. intros s Hs. rewrite Hc, (source_index_id _ _ Hs).
    reflexivity.
  - cbv zeta.
    destruct (Qle_bool floor_clamp
                (qsum (dim1 e)
                   (fun s => inject_Z (at2 mask b (source_index (cols mask) s)))))
      eqn:E1;
      destruct (Qle_bool floor_clamp
                  (qsum (dim1 e) (fun s => inject_Z (at2 mask b s)))) eqn:E2;
      try exact Hden; try reflexivity; exfalso.
    + apply Qle_bool_iff in E1. rewrite Hden in E1. apply Qle_bool_iff in E1.
      congruence.
    + apply Qle_bool_iff in E2. rewrite <- Hden in E2. apply Qle_bool_iff in E2.
      congruence.
Qed.

Lemma count_as_qsum (mask : tensor2 Z) (b n : nat) :
  (forall s, (s < n)%nat -> at2 mask b s = 0 \/ at2 mask b s = 1) ->
  (qsum n (fun s => inject_Z (at2 mask b s))
   == inject_Z (Z.of_nat (Pooling.attended_count mask b n)))%Q.
Proof.
  induction n as [|n IH]; intros H; [reflexivity|].
  simpl. rewrite IH by (intros s Hs; apply H; lia).
  destruct (H n) as [-> | ->]; [lia| |]; simpl Z.eqb; cbv iota.
  - change (inject_Z 0) with 0%Q. lra.
  - rewrite Nat2Z.inj_succ. unfold Z.succ. rewrite inject_Z_plus. reflexivity.
Qed.

Lemma sum_as_qsum (e : tensor3 Q) (mask : tensor2 Z) (b h n : nat) :
  (forall s, (s < n)%nat -> at2 mask b s = 0 \/ at2 mask b s = 1) ->
  (qsum n (fun s => at3 e b s h * inject_Z (at2 mask b s))
   == Pooling.attended_sum e mask b h n)%Q.
Proof.
  induction n as [|n IH]; intros H; [reflexivity|].
  simpl. rewrite IH by (intros s Hs; apply H; lia).
  destruct (H n) as [-> | ->]; [lia| |]; simpl.
  - rewrite Qmult_0_r. reflexivity.
  - rewrite Qmult_1_r. reflexivity.
Qed.

Lemma attended_count_pos (mask : tensor2 Z) (b n s : nat) :
  (s < n)%nat -> at2 mask b s = 1 -> (0 < Pooling.attended_count mask b n)%nat.
Proof.
  induction n as [|n IH]; intros Hs H1; [lia|]. simpl.
  destruct (Nat.eq_dec s n) as [->|Hne].
  - rewrite H1. simpl. lia.
  - assert (0 < Pooling.attended_count mask b n)%nat by (apply IH; [lia|exact H1]).
    destruct (at2 mask b n =? 1); lia.
Qed.

Lemma clamp_inactive (total : Q) :
  (1 <= total)%Q ->
  ((if Qle_bool floor_clamp total then total else floor_clamp) == total)%Q.
Proof.
  intros H. destruct (Qle_bool floor_clamp total) eqn:E; [reflexivity|].
  assert (floor_clamp <= total)%Q as Hle.
  { eapply Qle_trans; [|exact H]. discriminate. }
  apply Qle_bool_iff in Hle. congruence.
Qed.

End PoolingMore.

(** For a 0/1 mask of the embeddings' shape and an example with at least
    one attended position, the pooled embedding is the average of the
    token embeddings at the attended positions: the clamp leaves the
    count as it is. *)
Theorem mean_pooling_masked_mean (model_output : tensor3 Q)
        (attention_mask : tensor2 Z) (b h : nat) :
  rows attention_mask = dim0 model_output ->
  cols attention_mask = dim1 model_output ->
  (b < dim0 model_output)%nat ->
  (forall s, (s < dim1 model_output)%nat ->
             at2 attention_mask b s = 0 \/ at2 attention_mask b s = 1) ->
  (exists s, (s < dim1 model_output)%nat /\ at2 attention_mask b s = 1) ->
  exists out q,
    Pooling.mean_pooling model_output attention_mask = Ok out /\
    at2 out b h = Some q /\
    (0 < Pooling.attended_count attention_mask b (dim1 model_output))%nat /\
    (q == Pooling.attended_sum model_output attention_mask b h (dim1 model_output)
          / inject_Z (Z.of_nat
                        (Pooling.attended_count attention_mask b (dim1 model_output))))%Q.
Proof.
  intros Hr Hc Hb H01 (s & Hs & H1).
  destruct (mean_pooling_entries model_output attention_mask Hr Hc)
    as (out & Hout & _ & _ & Hent).
  destruct (Hent b h Hb) as (num & den & Hq & Hnum & Hden).
  pose proof (attended_count_pos attention_mask b _ s Hs H1) as Hcnt.
  pose proof (count_as_qsum attention_mask b _ H01) as Hsum.
  pose proof (sum_as_qsum model_output attention_mask b h _ H01) as Hatt.
  cbv zeta in Hden. rewrite clamp_inactive in Hden.
  2:{ rewrite Hsum. change 1%Q with (inject_Z 1). rewrite <- Zle_Qle. lia. }
  assert (0 < den)%Q as Hpos.
  { rewrite Hden, Hsum. change 0%Q with (inject_Z 0). rewrite <- Zlt_Qlt. lia. }
  exists out. rewrite Hq, (fdiv_pos num den Hpos). eexists.
  split; [exact Hout|]. split; [reflexivity|]. split; [exact Hcnt|].
  rewrite Hnum, Hden, Hatt, Hsum. reflexivity.
Qed.

Lemma mean_pooling_masked_mean_witness :
  exists out q,
    Pooling.mean_pooling Demo.embeddings Demo.half_mask = Ok out /\
    at2 out 1%nat 0%nat = Some q /\
    (0 < Pooling.attended_count Demo.half_mask 1 (dim1 Demo.embeddings))%nat /\
    (q == Pooling.attended_sum Demo.embeddings Demo.half_mask 1 0 (dim1 Demo.embeddings)
          / inject_Z (Z.of_nat
                        (Pooling.attended_count Demo.half_mask 1 (dim1 Demo.embeddings))))%Q.
Proof.
  apply (mean_pooling_masked_mean Demo.embeddings Demo.half_mask 1 0).
  - reflexivity.
  - reflexivity.
  - simpl. lia.
  - intros s _. right. reflexivity.
  - exists 0%nat. split; [simpl; lia|reflexivity].
Defined.

(** Token embeddings at positions the mask sets to zero have no effect:
    two embedding tensors that agree wherever the mask is not zero are
    pooled to the same values. *)
Theorem mean_pooling_ignores_masked (e1 e2 : tensor3 Q) (mask : tensor2 Z) :
  dim0 e2 = dim0 e1 -> dim1 e2 = dim1 e1 -> dim2 e2 = dim2 e1 ->
  rows mask = dim0 e1 -> cols mask = dim1 e1 ->
  (forall b s h, (b < dim0 e1)%nat -> (s < dim1 e1)%nat ->
                 at2 mask b s <> 0 -> (at3 e1 b s h == at3 e2 b s h)%Q) ->
  exists out1 out2,
    Pooling.mean_pooling e1 mask = Ok out1 /\
    Pooling.mean_pooling e2 mask = Ok out2 /\
    rows out2 = rows out1 /\ cols out2 = cols out1 /\
    forall b h, (b < dim0 e1)%nat ->
      exists q1 q2, at2 out1 b h = Some q1 /\ at2 out2 b h = Some q2 /\
                    (q1 == q2)%Q.
Proof.
  intros D0 D1 D2 Hr Hc Hagree.
  destruct (mean_pooling_entries e1 mask Hr Hc)
    as (out1 & Hout1 & R1 & C1 & Hent1).
  destruct (mean_pooling_entries e2 mask)
    as (out2 & Hout2 & R2 & C2 & Hent2); [congruence|congruence|].
  exists out1, out2. split; [exact Hout1|]. split; [exact Hout2|].
  split; [congruence|]. split; [congruence|].
  intros b h Hb.
  destruct (Hent1 b h Hb) as (n1 & d1 & Hq1 & Hn1 & Hd1).
  destruct (Hent2 b h) as (n2 & d2 & Hq2 & Hn2 & Hd2); [congruence|].
  rewrite D1 in Hn2, Hd2. cbv zeta in Hd1, Hd2.
  assert (n1 == n2)%Q as Hn.
  { rewrite Hn1, Hn2. apply qsum_ext. intros s Hs.
    destruct (Z.eq_dec (at2 mask b s) 0) as [E|E].
    - rewrite E. change (inject_Z 0) with 0%Q. rewrite !Qmult_0_r. reflexivity.
    - rewrite (Hagree b s h Hb Hs E). reflexivity. }
  assert (d1 == d2)%Q as Hd by (rewrite Hd1, Hd2; reflexivity).
  assert (0 < d1)%Q as Hpos.
  { rewrite Hd1.
    destruct (Qle_bool Pooling.floor_clamp
                (Pooling.qsum (dim1 e1) (fun s => inject_Z (at2 mask b s)))) eqn:E.
    - apply Qle_bool_iff in E. eapply Qlt_le_trans; [|exact E]. reflexivity.
    - reflexivity. }
  assert (0 < d2)%Q as Hpos2 by (rewrite <- Hd; exact Hpos).
  rewrite Hq1, Hq2, (fdiv_pos n1 d1 Hpos), (fdiv_pos n2 d2 Hpos2).
  eexists. eexists. split; [reflexivity|]. split; [reflexivity|].
  rewrite Hn, Hd. reflexivity.
Qed.

Lemma mean_pooling_ignores_masked_witness :
  exists out1 out2,
    Pooling.mean_pooling Demo.embeddings Demo.half_mask = Ok out1 /\
    Pooling.mean_pooling Demo.embeddings_padded Demo.half_mask = Ok out2 /\
    rows out2 = rows out1 /\ cols out2 = cols out1 /\
    forall b h, (b < dim0 Demo.embeddings)%nat ->
      exists q1 q2, at2 out1 b h = Some q1 /\ at2 out2 b h = Some q2 /\
                    (q1 == q2)%Q.
Proof.
  apply (mean_pooling_ignores_masked Demo.embeddings Demo.embeddings_padded
           Demo.half_mask); try reflexivity.
  intros b s h Hb Hs. simpl in *.
  destruct b as [|b]; simpl; [intros H; contradiction H; reflexivity|].
  intros _. reflexivity.
Defined.

(** [mean_pooling] returns exactly when each of the mask's two axes has
    the size of the embeddings' axis or size 1 (a single row or column is
    then repeated); otherwise the [expand] call raises RuntimeError. *)
Theorem mean_pooling_shape_error (model_output : tensor3 Q)
        (attention_mask : tensor2 Z) :
  match Pooling.mean_pooling model_output attention_mask with
  | Ok out =>
      rows out = dim0 model_output /\ cols out = dim2 model_output /\
      (rows attention_mask = dim0 model_output \/ rows attention_mask = 1%nat) /\
      (cols attention_mask = dim1 model_output \/ cols attention_mask = 1%nat)
  | Raise e =>
      e = RuntimeError /\
      ((rows attention_mask <> dim0 model_output /\ rows attention_mask <> 1%nat) \/
       (cols attention_mask <> dim1 model_output /\ cols attention_mask <> 1%nat))
  end.
Proof.
  unfold Pooling.mean_pooling, Pooling.expand. simpl.
  destruct (Pooling.expandable (rows attention_mask) (dim0 model_output)) eqn:E0;
    destruct (Pooling.expandable (cols attention_mask) (dim1 model_output)) eqn:E1;
    simpl.
  - unfold Pooling.expandable at 1. rewrite Nat.eqb_refl, orb_true_r. simpl.
    apply expandable_cases in E0, E1. auto.
  - split; [reflexivity|]. right.
    unfold Pooling.expandable in E1. apply orb_false_elim in E1 as [A B].
    apply Nat.eqb_neq in A, B. auto.
  - split; [reflexivity|]. left.
    unfold Pooling.expandable in E0. apply orb_false_elim in E0 as [A B].
    apply Nat.eqb_neq in A, B. auto.
  - split; [reflexivity|]. left.
    unfold Pooling.expandable in E0. apply orb_false_elim in E0 as [A B].
    apply Nat.eqb_neq in A, B. auto.
Qed.

(** ** The loss function, continued *)

Section LossMore.
Import Loss.
Local Open Scope R_scope.

Lemma rsum_le (n : nat) (f g : nat -> R) :
  (forall i, (i < n)%nat -> f i <= g i) -> rsum n f <= rsum n g.
Proof.
  induction n as [|n IH]; intros H; simpl; [lra|].
  assert (rsum n f <= rsum n g) by (apply IH; intros i Hi; apply H; lia).
  assert (f n <= g n) by (apply H; lia). lra.
Qed.

Lemma rsum_const (n : nat) (c : R) : rsum n (fun _ => c) = INR n * c.
Proof.
  induction n as [|n IH]; [simpl; lra|].
  rewrite S_INR. simpl. rewrite IH. lra.
Qed.

(** The softmax of a row sums to one. *)
Lemma softmax_sums_to_one (x : tensor2 R) (b : nat) :
  (0 < cols x)%nat ->
  rsum (cols x) (fun c => exp (log_softmax x b c)) = 1.
Proof.
  intros Hk. pose proof (sum_exp_pos x b Hk) as Hs. unfold log_softmax.
  set (s := rsum (cols x) (fun j => exp (at2 x b j))) in *.
  rewrite (rsum_ext _ _ (fun c => / s * exp (at2 x b c))).
  - rewrite rsum_scal. fold s. field. lra.
  - intros c _. unfold Rminus. rewrite exp_plus, exp_Ropp, exp_ln by exact Hs.
    lra.
Qed.

(** The log-probabilities of a row sum to at most [- K ln K]. *)
Lemma sum_log_softmax_le (x : tensor2 R) (b : nat) :
  (0 < cols x)%nat ->
  rsum (cols x) (fun c => log_softmax x b c)
  <= - (INR (cols x) * ln (INR (cols x))).
Proof.
  intros Hk. set (k := cols x) in *.
  assert (0 < INR k) as Hpos by (apply lt_0_INR; lia).
  set (f := fun c => log_softmax x b c).
  assert (rsum k (fun c => 1 + (f c + ln (INR k)))
          <= rsum k (fun c => exp (f c + ln (INR k)))) as Hle.
  { apply rsum_le. intros c _. apply exp_ineq1_le. }
  assert (rsum k (fun c => exp (f c + ln (INR k))) = INR k) as Hone.
  { rewrite (rsum_ext _ _ (fun c => INR k * exp (f c))).
    - rewrite rsum_scal. subst f k. rewrite softmax_sums_to_one by exact Hk. lra.
    - intros c _. rewrite exp_plus, exp_ln by exact Hpos. lra. }
  rewrite Hone in Hle.
  rewrite (rsum_plus k (fun _ => 1) (fun c => f c + ln (INR k))) in Hle.
  rewrite (rsum_plus k f (fun _ => ln (INR k))) in Hle.
  rewrite !rsum_const in Hle. lra.
Qed.

Lemma example_loss_floor (cfg : CrossEntropyLoss) (x : tensor2 R)
      (b : nat) (t : Z) :
  0 <= label_smoothing cfg <= 1 ->
  t <> ignore_index cfg ->
  (0 <= t < Z.of_nat (cols x))%Z ->
  label_smoothing cfg * ln (INR (cols x)) <= example_loss cfg x b t.
Proof.
  intros Heps Hne Ht. unfold example_loss.
  destruct (Z.eqb_spec t (ignore_index cfg)) as [E|_]; [contradiction|].
  assert (0 < cols x)%nat as Hk by lia.
  assert (Z.to_nat t < cols x)%nat as Hc by lia.
  pose proof (log_softmax_nonpos x b _ Hc) as Hl.
  pose proof (sum_log_softmax_le x b Hk) as Hs.
  assert (0 < INR (cols x)) as Hn by (apply lt_0_INR; lia).
  set (eps := label_smoothing cfg) in *. set (k := INR (cols x)) in *.
  set (s := rsum (cols x) (fun c => log_softmax x b c)) in *.
  set (l := log_softmax x b (Z.to_nat t)) in *.
  assert (0 <= (1 - eps) * - l) by (apply Rmult_le_pos; lra).
  assert (eps / k * (k * ln k) <= eps / k * - s).
  { apply Rmult_le_compat_l; [|lra].
    apply Rmult_le_pos; [lra|]. left. apply Rinv_0_lt_compat, Hn. }
  replace (eps / k * (k * ln k)) with (eps * ln k) in * by (field; lra).
  lra.
Qed.

Lemma label_smoothed_cross_entropy_floor (eps : R) (x : tensor2 R)
      (labels : list Z) :
  0 <= eps <= 1 ->
  (0 < rows x)%nat ->
  length labels = rows x ->
  Forall (fun t => 0 <= t < Z.of_nat (cols x))%Z labels ->
  eps * ln (INR (cols x)) <= label_smoothed_cross_entropy eps x labels.
Proof.
  intros Heps Hrows Hlen Hlab. unfold label_smoothed_cross_entropy.
  set (cfg := {| ignore_index := -1; reduction := ReduceMean;
                 label_smoothing := eps |}).
  assert (0 < INR (rows x)) as Hn by (apply lt_0_INR; lia).
  set (c := eps * ln (INR (cols x))).
  assert (rsum (rows x) (fun _ => c)
          <= rsum (rows x)
               (fun b => cross_entropy_with
                           (smoothed_target eps (cols x) (nth b labels 0%Z)) x b))
    as Hle.
  { apply rsum_le. intros b Hb.
    assert (exists t, labels !! b = Some t) as [t Ht].
    { apply lookup_lt_is_Some. lia. }
    rewrite (nth_lookup_Some _ _ _ _ Ht).
    rewrite Forall_lookup in Hlab. specialize (Hlab _ _ Ht).
    rewrite <- (example_loss_smoothed cfg) by (simpl; lia).
    apply (example_loss_floor cfg); simpl; [exact Heps|lia|exact Hlab]. }
  rewrite rsum_const in Hle.
  apply (Rmult_le_reg_r (INR (rows x))); [exact Hn|].
  unfold Rdiv. rewrite Rmult_assoc, Rinv_l by lra. lra.
Qed.

Lemma kept_none (cfg : CrossEntropyLoss) (labels : list Z) :
  Forall (fun t => t = ignore_index cfg) labels -> kept cfg labels = 0%nat.
Proof.
  unfold kept. induction 1 as [|t l Ht _ IH]; [reflexivity|]. simpl.
  rewrite Ht, Z.eqb_refl. simpl. exact IH.
Qed.

End LossMore.

(** ** The classifier head, continued *)

Lemma init_cases (py_int : string -> result Z) (p : Head.init_params)
        (model : Head.Encoder) (n_labels : Z) (dropout_p : Q) (seed : Z)
        (cla_bias : bool) (shrink : string) :
  match Head.BertClassifier_init py_int p model n_labels dropout_p seed
                                 cla_bias shrink with
  | Ok self =>
      (0 <= dropout_p <= 1)%Q /\ 0 <= n_labels /\
      if Head.truthy shrink then
        exists k l, py_int shrink = Ok k /\ 0 <= k /\
                    Head.feat_shrink_layer self = Some l /\
                    Head.in_features l = Head.hidden_size model /\
                    Head.out_features l = Z.to_nat k /\
                    Head.in_features (Head.classifier self) = Z.to_nat k
      else
        Head.feat_shrink_layer self = None /\
        Head.in_features (Head.classifier self) = Head.hidden_size model
  | Raise e =>
      (~ (0 <= dropout_p <= 1)%Q /\ e = ValueError) \/
      ((0 <= dropout_p <= 1)%Q /\
       (Head.truthy shrink = true /\ py_int shrink = Raise e \/
        e = RuntimeError /\
        (Head.truthy shrink = true /\ (exists k, py_int shrink = Ok k /\ k < 0)
         \/ n_labels < 0)))
  end.
Proof.
  unfold Head.BertClassifier_init.
  destruct (Qle_bool 0 dropout_p && Qle_bool dropout_p 1) eqn:Hp; simpl.
  2:{ left. split; [|reflexivity]. intros [H0 H1].
      apply Qle_bool_iff in H0, H1. rewrite H0, H1 in Hp. discriminate. }
  apply andb_prop in Hp as [Hp0 Hp1].
  apply Qle_bool_iff in Hp0. apply Qle_bool_iff in Hp1.
  assert (forall n_in n_out w b e,
             Head.nn_Linear n_in n_out cla_bias w b = Raise e ->
             e = RuntimeError /\ n_out < 0) as Hfail.
  { intros n_in n_out w b e. unfold Head.nn_Linear.
    destruct (Z.ltb_spec n_out 0); [|discriminate]. intros [= <-]. auto. }
  destruct (Head.truthy shrink) eqn:Hs; simpl.
  - destruct (py_int shrink) as [k|e] eqn:Ek; simpl.
    2:{ right. split; [split; assumption|]. left. auto. }
    destruct (Head.nn_Linear (Head.hidden_size model) k cla_bias
                (Head.shrink_weight p) (Head.shrink_bias p)) as [l|e] eqn:El;
      simpl.
    2:{ apply Hfail in El as [-> Hk]. right. split; [split; assumption|].
        right. split; [reflexivity|]. left. split; [reflexivity|].
        exists k. auto. }
    destruct (Head.nn_Linear (Z.to_nat k) n_labels cla_bias
                (Head.classifier_weight p) (Head.classifier_bias p))
      as [cl|e] eqn:Ec; simpl.
    2:{ apply Hfail in Ec as [-> Hn]. right. split; [split; assumption|].
        right. split; [reflexivity|]. right. exact Hn. }
    apply nn_Linear_ok in El as (Li & Lo & Hk).
    apply nn_Linear_ok in Ec as (Ci & Co & Hn).
    split; [split; assumption|]. split; [exact Hn|].
    exists k, l. repeat split; assumption.
  - destruct (Head.nn_Linear (Head.hidden_size model) n_labels cla_bias
                (Head.classifier_weight p) (Head.classifier_bias p))
      as [cl|e] eqn:Ec; simpl.
    2:{ apply Hfail in Ec as [-> Hn]. right. split; [split; assumption|].
        right. split; [reflexivity|]. right. exact Hn. }
    apply nn_Linear_ok in Ec as (Ci & Co & Hn).
    split; [split; assumption|]. split; [exact Hn|]. split; [reflexivity|].
    exact Ci.
Qed.

(** The outcomes of [__init__], in the order the constructor decides
    them: a dropout probability outside [0, 1] is a ValueError before
    anything else; a non-empty [feat_shrink] that [int()] refuses raises
    what [int()] raises; a negative layer width is a RuntimeError; and
    otherwise the head is built, with a projection layer of width
    [int(feat_shrink)] feeding the classifier when [feat_shrink] is not
    empty, and no projection layer when it is. *)
Theorem init_outcomes (py_int : string -> result Z) (p : Head.init_params)
        (model : Head.Encoder) (n_labels : Z) (dropout_p : Q) (seed : Z)
        (cla_bias : bool) (shrink : string) :
  match Head.BertClassifier_init py_int p model n_labels dropout_p seed
                                 cla_bias shrink with
  | Ok self =>
      (0 <= dropout_p <= 1)%Q /\ 0 <= n_labels /\
      if Head.truthy shrink then
        exists k l, py_int shrink = Ok k /\ 0 <= k /\
                    Head.feat_shrink_layer self = Some l /\
                    Head.in_features l = Head.hidden_size model /\
                    Head.out_features l = Z.to_nat k /\
                    Head.in_features (Head.classifier self) = Z.to_nat k
      else
        Head.feat_shrink_layer self = None /\
        Head.in_features (Head.classifier self) = Head.hidden_size model
  | Raise e =>
      (~ (0 <= dropout_p <= 1)%Q /\ e = ValueError) \/
      ((0 <= dropout_p <= 1)%Q /\
       (Head.truthy shrink = true /\ py_int shrink = Raise e \/
        e = RuntimeError /\
        (Head.truthy shrink = true /\ (exists k, py_int shrink = Ok k /\ k < 0)
         \/ n_labels < 0)))
  end.
Proof.
  exact (init_cases py_int p model n_labels dropout_p seed cla_bias shrink).
Qed.

(** ** The constructor and [forward] together *)

(** The head the driver's call [BertClassifier(bert_model, n)] builds
    (dropout 0.0, no projection): on hidden states of at least one
    position and of the encoder's width, with a dropout draw that keeps
    every entry (probability 0 of dropping), the logit of example [b] and
    class [j] is the classifier's weight row [j] applied to the last
    layer's state at position 0, plus the bias. *)
Theorem default_head_logits (py_int : string -> result Z)
        (p : Head.init_params) (model : Head.Encoder) (n_labels seed : Z)
        (self : Head.BertClassifier)
        (input_ids attention_mask : tensor2 Z) (return_dict : option bool)
        (keep : nat -> nat -> nat -> bool)
        (hidden_states : list (tensor3 R)) (last : tensor3 R) :
  Head.BertClassifier_init py_int p model n_labels 0%Q seed true "" = Ok self ->
  Head.encode model input_ids attention_mask return_dict = Ok hidden_states ->
  py_getitem hidden_states (-1) = Ok last ->
  (0 < dim1 last)%nat ->
  dim2 last = Head.hidden_size model ->
  (forall b s h, keep b s h = true) ->
  exists lg,
    Head.forward_logits self input_ids attention_mask return_dict keep = Ok lg /\
    rows lg = dim0 last /\
    cols lg = Z.to_nat n_labels /\
    forall b j,
      at2 lg b j
      = (rsum (Head.hidden_size model)
              (fun i => at3 last b 0%nat i * Head.classifier_weight p j i)
         + Head.classifier_bias p j)%R.
Proof.
  intros Hinit Henc Hlast Hseq Hhid Hkeep.
  pose proof (BertClassifier_init_spec _ _ _ _ _ _ _ _ _ Hinit)
    as (Hm & _ & _ & _ & _ & _ & Hout & Hshape).
  assert (self = {| Head.bert_encoder := model; Head.dropout := 0%Q;
                    Head.training := true; Head.feat_shrink := "";
                    Head.feat_shrink_layer := None;
                    Head.classifier :=
                      {| Head.in_features := Head.hidden_size model;
                         Head.out_features := Z.to_nat n_labels;
                         Head.weight := Head.classifier_weight p;
                         Head.bias := Some (Head.classifier_bias p) |};
                    Head.loss_func :=
                      {| Loss.ignore_index := -100;
                         Loss.reduction := Loss.ReduceMean;
                         Loss.label_smoothing := 0.3%R |} |}) as Hself.
  { revert Hinit. unfold Head.BertClassifier_init, Head.nn_Linear. simpl.
    destruct (n_labels <? 0); simpl; [discriminate|]. intros [= <-].
    reflexivity. }
  rewrite <- Hm in Henc, Hhid.
  rewrite (forward_logits_value self input_ids attention_mask return_dict keep
             hidden_states last Hshape Henc Hlast) by (lia || assumption).
  eexists. split; [reflexivity|]. rewrite Hself. simpl.
  split; [reflexivity|]. split; [reflexivity|].
  intros b j. f_equal. apply rsum_ext. intros i _. rewrite Hkeep.
  replace (Q2R 0) with 0%R by (unfold Q2R; simpl; lra).
  f_equal. field.
Qed.

Lemma default_head_logits_witness :
  exists lg,
    Head.forward_logits Demo.classifier3 Demo.input_ids Demo.attention_mask
                        None Demo.keep_all = Ok lg /\
    rows lg = 2%nat /\
    cols lg = Z.to_nat 3 /\
    forall b j,
      at2 lg b j
      = (rsum 2 (fun i => IZR (at2 Demo.input_ids b 0%nat)
                          * Head.classifier_weight Demo.params j i)
         + Head.classifier_bias Demo.params j)%R.
Proof.
  apply (default_head_logits Demo.no_int Demo.params Demo.encoder 3 0
           Demo.classifier3 Demo.input_ids Demo.attention_mask None
           Demo.keep_all
           [Tensor3 2 3 2 (fun b s _ => IZR (at2 Demo.input_ids b s))]
           (Tensor3 2 3 2 (fun b s _ => IZR (at2 Demo.input_ids b s))));
    try reflexivity.
  simpl. lia.
Defined.

(** A head built with a non-empty [feat_shrink] runs [forward] without a
    shape error: the projection reads the encoder's width, the classifier
    reads the projection's, and the logits are batch x n_labels. *)
Theorem shrink_head_logits (py_int : string -> result Z)
        (p : Head.init_params) (model : Head.Encoder) (n_labels : Z)
        (dropout_p : Q) (seed : Z) (cla_bias : bool) (shrink : string)
        (self : Head.BertClassifier)
        (input_ids attention_mask : tensor2 Z) (return_dict : option bool)
        (keep : nat -> nat -> nat -> bool)
        (hidden_states : list (tensor3 R)) (last : tensor3 R) :
  Head.BertClassifier_init py_int p model n_labels dropout_p seed cla_bias shrink
  = Ok self ->
  shrink <> ""%string ->
  Head.encode model input_ids attention_mask return_dict = Ok hidden_states ->
  py_getitem hidden_states (-1) = Ok last ->
  (0 < dim1 last)%nat ->
  dim2 last = Head.hidden_size model ->
  exists k l lg,
    py_int shrink = Ok k /\
    Head.feat_shrink_layer self = Some l /\
    Head.forward_logits self input_ids attention_mask return_dict keep = Ok lg /\
    lg = Head.linear_map (Head.classifier self)
           (Head.linear_map l
              (Head.position0
                 (Head.dropout_apply dropout_p (Head.training self) keep last))) /\
    cols (Head.linear_map l
            (Head.position0
               (Head.dropout_apply dropout_p (Head.training self) keep last)))
    = Z.to_nat k /\
    rows lg = dim0 last /\
    cols lg = Z.to_nat n_labels.
Proof.
  intros Hinit Hne Henc Hlast Hseq Hhid.
  assert (Head.truthy shrink = true) as Ht.
  { destruct shrink; [contradiction|reflexivity]. }
  pose proof (init_cases py_int p model n_labels dropout_p seed cla_bias shrink)
    as Hcases.
  pose proof (BertClassifier_init_spec _ _ _ _ _ _ _ _ _ Hinit)
    as (Hm & Hd & _ & Hfs & _ & _ & Hout & Hshape).
  rewrite Hinit, Ht in Hcases.
  destruct Hcases as (_ & _ & k & l & Hk & _ & Hl & _ & Hlo & _).
  rewrite <- Hm in Henc, Hhid.
  exists k, l. eexists. split; [exact Hk|]. split; [exact Hl|].
  split.
  { apply (forward_logits_value self input_ids attention_mask return_dict keep
             hidden_states last Hshape Henc Hlast); [lia|exact Hhid]. }
  unfold Head.project. rewrite Hfs, Ht, Hl, Hd.
  split; [reflexivity|]. split; [exact Hlo|]. split; [|exact Hout].
  simpl. destruct (Head.training self); reflexivity.
Qed.

Lemma shrink_head_logits_witness :
  exists k l lg,
    Demo.int_4 "4" = Ok k /\
    Head.feat_shrink_layer Demo.classifier_shrunk = Some l /\
    Head.forward_logits Demo.classifier_shrunk Demo.input_ids Demo.attention_mask
                        None Demo.keep_all = Ok lg /\
    lg = Head.linear_map (Head.classifier Demo.classifier_shrunk)
           (Head.linear_map l
              (Head.position0
                 (Head.dropout_apply 0%Q (Head.training Demo.classifier_shrunk)
                    Demo.keep_all
                    (Tensor3 2 3 2
                       (fun b s _ => IZR (at2 Demo.input_ids b s)))))) /\
    cols (Head.linear_map l
            (Head.position0
               (Head.dropout_apply 0%Q (Head.training Demo.classifier_shrunk)
                  Demo.keep_all
                  (Tensor3 2 3 2
                     (fun b s _ => IZR (at2 Demo.input_ids b s))))))
    = Z.to_nat k /\
    rows lg = 2%nat /\
    cols lg = Z.to_nat 3.
Proof.
  apply (shrink_head_logits Demo.int_4 Demo.params Demo.encoder 3 0%Q 0 true "4"
           Demo.classifier_shrunk Demo.input_ids Demo.attention_mask None
           Demo.keep_all
           [Tensor3 2 3 2 (fun b s _ => IZR (at2 Demo.input_ids b s))]
           (Tensor3 2 3 2 (fun b s _ => IZR (at2 Demo.input_ids b s))));
    try reflexivity.
  - discriminate.
  - simpl. lia.
Defined.

(** ** [forward] *)

Section ForwardMore.
Import Head.

Lemma position0_dropout_agree (p : Q) (train : bool)
      (keep : nat -> nat -> nat -> bool) (last1 last2 : tensor3 R) (b h : nat) :
  at3 last1 b 0%nat h = at3 last2 b 0%nat h ->
  at2 (position0 (dropout_apply p train keep last1)) b h
  = at2 (position0 (dropout_apply p train keep last2)) b h.
Proof.
  intros H. unfold position0, dropout_apply. destruct train; simpl; rewrite H;
    reflexivity.
Qed.

Lemma linear_map_agree (l : Linear) (x y : tensor2 R) (b j : nat) :
  (forall i, (i < in_features l)%nat -> at2 x b i = at2 y b i) ->
  at2 (linear_map l x) b j = at2 (linear_map l y) b j.
Proof.
  intros H. simpl. f_equal. apply rsum_ext. intros i Hi. rewrite (H i Hi).
  reflexivity.
Qed.

End ForwardMore.

(** [forward] reads the encoder's output at position 0 of the last hidden
    layer and nowhere else: two inputs, of any two sequence lengths, whose
    last hidden layers agree at position 0 get the same logits (under the
    same dropout draw). *)
Theorem forward_reads_only_cls (self : Head.BertClassifier)
        (ids1 mask1 ids2 mask2 : tensor2 Z) (return_dict : option bool)
        (keep : nat -> nat -> nat -> bool)
        (hs1 hs2 : list (tensor3 R)) (last1 last2 : tensor3 R) :
  Head.shapes_agree self ->
  Head.encode (Head.bert_encoder self) ids1 mask1 return_dict = Ok hs1 ->
  py_getitem hs1 (-1) = Ok last1 ->
  Head.encode (Head.bert_encoder self) ids2 mask2 return_dict = Ok hs2 ->
  py_getitem hs2 (-1) = Ok last2 ->
  dim0 last1 = dim0 last2 ->
  (0 < dim1 last1)%nat -> (0 < dim1 last2)%nat ->
  dim2 last1 = Head.hidden_size (Head.bert_encoder self) ->
  dim2 last2 = Head.hidden_size (Head.bert_encoder self) ->
  (forall b h, (h < Head.hidden_size (Head.bert_encoder self))%nat ->
               at3 last1 b 0%nat h = at3 last2 b 0%nat h) ->
  exists lg1 lg2,
    Head.forward_logits self ids1 mask1 return_dict keep = Ok lg1 /\
    Head.forward_logits self ids2 mask2 return_dict keep = Ok lg2 /\
    rows lg1 = rows lg2 /\ cols lg1 = cols lg2 /\
    forall b j, at2 lg1 b j = at2 lg2 b j.
Proof.
  intros Hshape He1 Hl1 He2 Hl2 D0 S1 S2 W1 W2 Hagree.
  rewrite (forward_logits_value self ids1 mask1 return_dict keep hs1 last1
             Hshape He1 Hl1) by (lia || assumption).
  rewrite (forward_logits_value self ids2 mask2 return_dict keep hs2 last2
             Hshape He2 Hl2) by (lia || assumption).
  eexists. eexists. split; [reflexivity|]. split; [reflexivity|].
  destruct (dropout_apply_shape (Head.dropout self) (Head.training self) keep last1)
    as (A0 & _ & _).
  destruct (dropout_apply_shape (Head.dropout self) (Head.training self) keep last2)
    as (B0 & _ & _).
  split.
  { simpl. rewrite !project_rows. simpl. congruence. }
  split; [reflexivity|].
  intros b j. apply linear_map_agree. intros i Hi.
  unfold Head.shapes_agree in Hshape. unfold Head.project.
  destruct (Head.truthy (Head.feat_shrink self)).
  - destruct Hshape as (l & -> & Hin & _).
    apply linear_map_agree. intros h Hh.
    apply position0_dropout_agree, Hagree. lia.
  - apply position0_dropout_agree, Hagree. lia.
Qed.

Lemma forward_reads_only_cls_witness :
  exists lg1 lg2,
    Head.forward_logits Demo.classifier3 Demo.input_ids Demo.attention_mask
                        None Demo.keep_all = Ok lg1 /\
    Head.forward_logits Demo.classifier3 Demo.other_ids Demo.other_mask
                        None Demo.keep_all = Ok lg2 /\
    rows lg1 = rows lg2 /\ cols lg1 = cols lg2 /\
    forall b j, at2 lg1 b j = at2 lg2 b j.
Proof.
  apply (forward_reads_only_cls Demo.classifier3 Demo.input_ids
           Demo.attention_mask Demo.other_ids Demo.other_mask None Demo.keep_all
           [Tensor3 2 3 2 (fun b s _ => IZR (at2 Demo.input_ids b s))]
           [Tensor3 2 5 2 (fun b s _ => IZR (at2 Demo.other_ids b s))]
           (Tensor3 2 3 2 (fun b s _ => IZR (at2 Demo.input_ids b s)))
           (Tensor3 2 5 2 (fun b s _ => IZR (at2 Demo.other_ids b s))));
    try reflexivity; try (simpl; lia).
  intros b h _. simpl. f_equal. lia.
Defined.

(** ** The loss [forward] returns *)

(** Label smoothing puts a floor under the training loss: on any scores
    and class-id labels, the loss [forward] returns is at least
    0.3 * ln(number of classes), so with two classes or more it is never
    zero. *)
Theorem loss_floor (py_int : string -> result Z)
        (p : Head.init_params) (model : Head.Encoder) (n_labels : Z)
        (dropout_p : Q) (seed : Z) (cla_bias : bool) (shrink : string)
        (self : Head.BertClassifier) (scores : tensor2 R) (labels : list Z) :
  Head.BertClassifier_init py_int p model n_labels dropout_p seed cla_bias shrink
  = Ok self ->
  (0 < rows scores)%nat ->
  length labels = rows scores ->
  Forall (fun t => 0 <= t < Z.of_nat (cols scores)) labels ->
  exists r,
    Loss.call (Head.loss_func self) scores (Some labels)
    = Ok (Loss.LossScalar (Loss.Finite r)) /\
    (0.3 * ln (INR (cols scores)) <= r)%R /\
    ((2 <= cols scores)%nat -> (0 < r)%R).
Proof.
  intros Hinit Hrows Hlen Hlab.
  apply BertClassifier_init_spec in Hinit as (_ & _ & _ & _ & Hloss & _).
  exists (Loss.label_smoothed_cross_entropy 0.3 scores labels).
  assert (0.3 * ln (INR (cols scores))
          <= Loss.label_smoothed_cross_entropy 0.3 scores labels)%R as Hfloor.
  { apply label_smoothed_cross_entropy_floor; [lra|assumption..]. }
  split; [|split; [exact Hfloor|]].
  - rewrite Hloss.
    apply (call_mean_valid
             {| Loss.ignore_index := -100; Loss.reduction := Loss.ReduceMean;
                Loss.label_smoothing := 0.3%R |});
      simpl; auto; lia.
  - intros Hk.
    assert (0 < ln (INR (cols scores)))%R.
    { rewrite <- ln_1. apply ln_increasing; [lra|].
      change 1%R with (INR 1). apply lt_INR. lia. }
    lra.
Qed.

Lemma loss_floor_witness :
  exists r,
    Loss.call (Head.loss_func Demo.classifier3) Demo.scores (Some Demo.labels)
    = Ok (Loss.LossScalar (Loss.Finite r)) /\
    (0.3 * ln (INR (cols Demo.scores)) <= r)%R /\
    ((2 <= cols Demo.scores)%nat -> (0 < r)%R).
Proof.
  apply (loss_floor Demo.no_int Demo.params Demo.encoder 3
           0%Q 0 true "" Demo.classifier3 Demo.scores Demo.labels).
  - reflexivity.
  - simpl. lia.
  - reflexivity.
  - unfold Demo.labels. repeat (constructor; [simpl; lia|]). constructor.
Defined.

(** When every label of the batch is -100 (or the batch is empty), the
    loss call raises nothing and the loss is not-a-number: the mean is
    taken over the examples that are not ignored, and there is none. *)
Theorem loss_all_ignored_nan (py_int : string -> result Z)
        (p : Head.init_params) (model : Head.Encoder) (n_labels : Z)
        (dropout_p : Q) (seed : Z) (cla_bias : bool) (shrink : string)
        (self : Head.BertClassifier) (scores : tensor2 R) (labels : list Z) :
  Head.BertClassifier_init py_int p model n_labels dropout_p seed cla_bias shrink
  = Ok self ->
  length labels = rows scores ->
  Forall (fun t => t = -100) labels ->
  Loss.call (Head.loss_func self) scores (Some labels)
  = Ok (Loss.LossScalar Loss.NaN) /\
  forall input_ids attention_mask return_dict keep,
    Head.forward_logits self input_ids attention_mask return_dict keep = Ok scores ->
    Head.forward self input_ids attention_mask (Some labels) return_dict keep
    = Ok {| Head.loss := Some (Loss.LossScalar Loss.NaN);
            Head.logits := Some scores |}.
Proof.
  intros Hinit Hlen Hall.
  apply BertClassifier_init_spec in Hinit as (_ & _ & _ & _ & Hloss & _).
  assert (Loss.call (Head.loss_func self) scores (Some labels)
          = Ok (Loss.LossScalar Loss.NaN)) as Hcall.
  { rewrite Hloss. unfold Loss.call. rewrite Hlen, Nat.eqb_refl. simpl.
    assert (forallb (Loss.target_ok (-100) (cols scores)) labels = true) as ->.
    { apply forallb_forall. intros t Ht. rewrite Forall_forall in Hall.
      rewrite (Hall t) by (apply list_elem_of_In; exact Ht). reflexivity. }
    simpl.
    rewrite (kept_none {| Loss.ignore_index := -100;
                          Loss.reduction := Loss.ReduceMean;
                          Loss.label_smoothing := 0.3%R |} labels Hall).
    reflexivity. }
  split; [exact Hcall|].
  intros input_ids attention_mask return_dict keep Hlg. unfold Head.forward.
  rewrite Hlg. unfold mbind, result_bind. rewrite Hcall. reflexivity.
Qed.

Lemma loss_all_ignored_nan_witness :
  Loss.call (Head.loss_func Demo.classifier3) Demo.scores (Some [-100; -100])
  = Ok (Loss.LossScalar Loss.NaN) /\
  forall input_ids attention_mask return_dict keep,
    Head.forward_logits Demo.classifier3 input_ids attention_mask return_dict keep
    = Ok Demo.scores ->
    Head.forward Demo.classifier3 input_ids attention_mask (Some [-100; -100])
                 return_dict keep
    = Ok {| Head.loss := Some (Loss.LossScalar Loss.NaN);
            Head.logits := Some Demo.scores |}.
Proof.
  apply (loss_all_ignored_nan Demo.no_int Demo.params Demo.encoder 3
           0%Q 0 true "" Demo.classifier3 Demo.scores [-100; -100]).
  - reflexivity.
  - reflexivity.
  - repeat constructor.
Defined.

(** The checks the loss call makes on the labels before it computes
    anything, once the logits are there: missing labels raise TypeError; a
    number of labels other than the batch size raises ValueError, whatever
    the labels are; labels of the batch's size that are each a class id
    or -100 give an output carrying a loss and the logits; and every
    output [forward] returns was given labels of the batch's size. *)
Theorem forward_label_checks (py_int : string -> result Z)
        (p : Head.init_params) (model : Head.Encoder) (n_labels : Z)
        (dropout_p : Q) (seed : Z) (cla_bias : bool) (shrink : string)
        (self : Head.BertClassifier)
        (input_ids attention_mask : tensor2 Z)
        (return_dict : option bool) (keep : nat -> nat -> nat -> bool)
        (lg : tensor2 R) :
  Head.BertClassifier_init py_int p model n_labels dropout_p seed cla_bias shrink
  = Ok self ->
  Head.forward_logits self input_ids attention_mask return_dict keep = Ok lg ->
  Head.forward self input_ids attention_mask None return_dict keep
  = Raise TypeError /\
  (forall t,
      length t <> rows lg ->
      Head.forward self input_ids attention_mask (Some t) return_dict keep
      = Raise ValueError) /\
  (forall t,
      length t = rows lg ->
      Forall (fun x => x = -100 \/ 0 <= x < n_labels) t ->
      exists l,
        Head.forward self input_ids attention_mask (Some t) return_dict keep
        = Ok {| Head.loss := Some l; Head.logits := Some lg |}) /\
  (forall labels out,
      Head.forward self input_ids attention_mask labels return_dict keep = Ok out ->
      exists t, labels = Some t /\ length t = rows lg /\
                Head.logits out = Some lg).
Proof.
  intros Hinit Hlg.
  pose proof (forward_logits_cols _ _ _ _ _ _ Hlg) as Hcols.
  apply BertClassifier_init_spec in Hinit
    as (_ & _ & _ & _ & Hloss & Hn & Hout & _).
  rewrite Hout in Hcols.
  unfold Head.forward. rewrite Hlg. unfold mbind, result_bind.
  rewrite Hloss. unfold Loss.call.
  split; [reflexivity|]. split; [|split].
  - intros t Hlen.
    destruct (Nat.eqb_spec (length t) (rows lg)) as [E|_]; [contradiction|].
    reflexivity.
  - intros t Hlen Hall. rewrite Hlen, Nat.eqb_refl. simpl. rewrite Hcols.
    assert (forallb (Loss.target_ok (-100) (Z.to_nat n_labels)) t = true) as ->.
    { apply forallb_forall. intros x Hx. rewrite Forall_forall in Hall.
      unfold Loss.target_ok.
      destruct (Hall x) as [->|[H0 H1]];
        [apply list_elem_of_In; exact Hx|reflexivity|].
      apply orb_true_iff. right. apply andb_true_intro.
      split; [apply Z.leb_le|apply Z.ltb_lt]; lia. }
    simpl. eexists. reflexivity.
  - intros labels out. destruct labels as [t|]; [|discriminate].
    destruct (Nat.eqb_spec (length t) (rows lg)) as [E|_]; simpl;
      [|discriminate].
    destruct (negb _); [discriminate|]. intros [= <-]. exists t. auto.
Qed.

Lemma forward_label_checks_witness :
  Head.forward Demo.classifier3 Demo.input_ids Demo.attention_mask None None
               Demo.keep_all
  = Raise TypeError /\
  (forall t,
      length t <> rows Demo.logits3 ->
      Head.forward Demo.classifier3 Demo.input_ids Demo.attention_mask (Some t)
                   None Demo.keep_all
      = Raise ValueError) /\
  (forall t,
      length t = rows Demo.logits3 ->
      Forall (fun x => x = -100 \/ 0 <= x < 3) t ->
      exists l,
        Head.forward Demo.classifier3 Demo.input_ids Demo.attention_mask (Some t)
                     None Demo.keep_all
        = Ok {| Head.loss := Some l; Head.logits := Some Demo.logits3 |}) /\
  (forall labels out,
      Head.forward Demo.classifier3 Demo.input_ids Demo.attention_mask labels
                   None Demo.keep_all = Ok out ->
      exists t, labels = Some t /\ length t = rows Demo.logits3 /\
                Head.logits out = Some Demo.logits3).
Proof.
  apply (forward_label_checks Demo.no_int Demo.params Demo.encoder 3 0%Q 0 true ""
           Demo.classifier3 Demo.input_ids Demo.attention_mask
           None Demo.keep_all Demo.logits3); reflexivity.
Defined.

(** ** Accuracy (lines 180-181) *)

Section AccuracyFacts.
Import Driver.

Lemma argmax_from_spec (rest : list Q) :
  forall (bi : nat) (best : Q) (i : nat),
    (argmax_from bi best i rest = bi /\ Forall (fun y => y <= best)%Q rest) \/
    (exists k x,
        argmax_from bi best i rest = (i + k)%nat /\
        rest !! k = Some x /\ (best < x)%Q /\
        (forall j y, rest !! j = Some y -> (y <= x)%Q) /\
        (forall j y, (j < k)%nat -> rest !! j = Some y -> (y < x)%Q)).
Proof.
  induction rest as [|x rest IH]; intros bi best i; simpl.
  - left. split; [reflexivity|constructor].
  - destruct (Qle_bool x best) eqn:E.
    + apply Qle_bool_iff in E.
      destruct (IH bi best (S i)) as [[Hr Hall]|(k & x' & Hr & Hk & Hlt & Hle & Hbefore)].
      * left. split; [exact Hr|]. constructor; assumption.
      * right. exists (S k), x'. split; [rewrite Hr; lia|].
        split; [exact Hk|]. split; [exact Hlt|]. split.
        -- intros [|j] y; simpl; [intros [= <-]; lra|apply Hle].
        -- intros [|j] y Hj; simpl; [intros [= <-]; lra|apply Hbefore; lia].
    + assert (best < x)%Q as Hlt.
      { apply Qnot_le_lt. intros Hle. apply Qle_bool_iff in Hle. congruence. }
      right.
      destruct (IH i x (S i)) as [[Hr Hall]|(k & x' & Hr & Hk & Hlt' & Hle & Hbefore)].
      * exists 0%nat, x. split; [rewrite Hr; lia|]. split; [reflexivity|].
        split; [exact Hlt|]. split.
        -- intros [|j] y; simpl; [intros [= <-]; lra|].
           intros Hy. rewrite Forall_lookup in Hall. exact (Hall _ _ Hy).
        -- intros j y Hj. lia.
      * exists (S k), x'. split; [rewrite Hr; lia|]. split; [exact Hk|].
        split; [lra|]. split.
        -- intros [|j] y; simpl; [intros [= <-]; lra|apply Hle].
        -- intros [|j] y Hj; simpl; [intros [= <-]; lra|apply Hbefore; lia].
Qed.

Lemma mapM_argmax (rows : list (list Q)) :
  Forall (fun row => row <> []) rows ->
  exists preds, mapM argmax rows = Ok preds /\ length preds = length rows.
Proof.
  induction 1 as [|row rows Hrow _ (preds & Hp & Hl)]; simpl.
  - exists []. split; reflexivity.
  - destruct row as [|x rest]; [contradiction|]. simpl. rewrite Hp. simpl.
    eexists. split; [reflexivity|]. simpl. rewrite Hl. reflexivity.
Qed.

Lemma matches_same_length (preds labels : list Z) :
  length preds = length labels ->
  matches preds labels = Ok (count_equal preds labels).
Proof.
  intros Hlen. unfold matches.
  destruct preds as [|p [|p' preds]]; destruct labels as [|l [|l' labels]];
    try discriminate; try reflexivity.
  simpl in Hlen. injection Hlen as Hlen. simpl length.
  rewrite Hlen, Nat.eqb_refl. reflexivity.
Qed.

Lemma count_equal_bounds (a b : list Z) :
  0 <= count_equal a b <= Z.of_nat (length b).
Proof.
  revert b. induction a as [|x a IH]; intros [|z b]; simpl; try lia.
  specialize (IH b). destruct (x =? z); lia.
Qed.

Lemma count_equal_all (a b : list Z) :
  length a = length b ->
  (count_equal a b = Z.of_nat (length b) <-> a = b).
Proof.
  revert b. induction a as [|x a IH]; intros [|z b] Hlen; try discriminate.
  - simpl. tauto.
  - simpl in Hlen. injection Hlen as Hlen. simpl count_equal. simpl length.
    pose proof (count_equal_bounds a b) as Hb. specialize (IH b Hlen).
    destruct (Z.eqb_spec x z) as [->|Hne]; split.
    + intros H. f_equal. apply IH. lia.
    + intros [= ->]. assert (count_equal b b = Z.of_nat (length b)) by (apply IH; reflexivity). lia.
    + intros H. lia.
    + intros [= -> ->]. contradiction.
Qed.

End AccuracyFacts.

(** [np.argmax] on a row of scores: the class predicted is one with the
    highest score, and among equal highest scores the one with the lowest
    class id; an empty row is a ValueError. *)
Theorem argmax_first_max (row : list Q) :
  match Driver.argmax row with
  | Ok i =>
      0 <= i < Z.of_nat (length row) /\
      exists x, row !! Z.to_nat i = Some x /\
                (forall j y, row !! j = Some y -> (y <= x)%Q) /\
                (forall j y, (j < Z.to_nat i)%nat -> row !! j = Some y -> (y < x)%Q)
  | Raise e => e = ValueError /\ row = []
  end.
Proof.
  destruct row as [|x rest]; simpl; [auto|].
  destruct (argmax_from_spec rest 0 x 1)
    as [[Hr Hall]|(k & x' & Hr & Hk & Hlt & Hle & Hbefore)]; rewrite Hr.
  - split; [simpl; lia|]. exists x. split; [reflexivity|]. split.
    + intros [|j] y; simpl; [intros [= <-]; lra|].
      intros Hy. rewrite Forall_lookup in Hall. exact (Hall _ _ Hy).
    + intros j y Hj. simpl in Hj. lia.
  - pose proof (lookup_lt_Some _ _ _ Hk) as Hlen.
    split; [simpl length; lia|]. exists x'. rewrite Nat2Z.id. split; [exact Hk|].
    split.
    + intros [|j] y; simpl; [intros [= <-]; lra|apply Hle].
    + intros [|j] y Hj; simpl; [intros [= <-]; lra|apply Hbefore; lia].
Qed.

(** The accuracy of lines 180-181 on predictions and labels of the same
    non-zero length: the number of examples whose highest-scoring class is
    their label, over the number of examples; it lies between 0 and 1 and
    is 1 exactly when every prediction is right. *)
Theorem accuracy_in_unit_interval (p : Driver.PredictionOutput) :
  length (Driver.predictions p) = length (Driver.label_ids p) ->
  Driver.label_ids p <> [] ->
  Forall (fun row => row <> []) (Driver.predictions p) ->
  exists preds a,
    mapM Driver.argmax (Driver.predictions p) = Ok preds /\
    Driver.accuracy_of p = Ok (Some a) /\
    (a == inject_Z (Driver.count_equal preds (Driver.label_ids p))
          / inject_Z (Z.of_nat (length (Driver.label_ids p))))%Q /\
    (0 <= a /\ a <= 1)%Q /\
    ((a == 1)%Q <-> preds = Driver.label_ids p).
Proof.
  intros Hlen Hne Hrows.
  destruct (mapM_argmax _ Hrows) as (preds & Hp & Hl).
  assert (length preds = length (Driver.label_ids p)) as Hpl by congruence.
  pose proof (count_equal_bounds preds (Driver.label_ids p)) as Hb.
  pose proof (count_equal_all preds (Driver.label_ids p) Hpl) as Hall.
  set (hits := Driver.count_equal preds (Driver.label_ids p)) in *.
  set (n := Z.of_nat (length (Driver.label_ids p))) in *.
  assert (0 < n) as Hn.
  { subst n. destruct (Driver.label_ids p); [contradiction|]. simpl. lia. }
  assert (0 < inject_Z n)%Q as HnQ.
  { change 0%Q with (inject_Z 0). rewrite <- Zlt_Qlt. exact Hn. }
  exists preds, (inject_Z hits / inject_Z n)%Q.
  split; [exact Hp|]. split.
  { unfold Driver.accuracy_of. rewrite Hp. simpl.
    rewrite (matches_same_length _ _ Hpl). simpl. fold hits.
    destruct (Driver.label_ids p); [contradiction|]. reflexivity. }
  split; [reflexivity|]. split.
  { split.
    - apply Qle_shift_div_l; [exact HnQ|]. rewrite Qmult_0_l.
      change 0%Q with (inject_Z 0). rewrite <- Zle_Qle. lia.
    - apply Qle_shift_div_r; [exact HnQ|]. rewrite Qmult_1_l.
      rewrite <- Zle_Qle. lia. }
  rewrite <- Hall. split.
  - intros H1. apply inject_Z_injective.
    rewrite <- (Qmult_1_l (inject_Z n)), <- H1. field. lra.
  - intros ->. field. lra.
Qed.

Lemma accuracy_in_unit_interval_witness :
  exists preds a,
    mapM Driver.argmax (Driver.predictions Demo.test_output) = Ok preds /\
    Driver.accuracy_of Demo.test_output = Ok (Some a) /\
    (a == inject_Z (Driver.count_equal preds (Driver.label_ids Demo.test_output))
          / inject_Z (Z.of_nat (length (Driver.label_ids Demo.test_output))))%Q /\
    (0 <= a /\ a <= 1)%Q /\
    ((a == 1)%Q <-> preds = Driver.label_ids Demo.test_output).
Proof.
  apply (accuracy_in_unit_interval Demo.test_output).
  - reflexivity.
  - discriminate.
  - repeat (constructor; [discriminate|]). constructor.
Defined.

(** ** Final statistics, continued *)

(** A prediction over no example has accuracy 0/0, not-a-number, and one
    such accuracy among those accumulated turns the whole report into
    "nan±nan". *)
Theorem empty_test_set_reports_nan (p : Driver.PredictionOutput)
        (before after : list Driver.accuracy) :
  Driver.predictions p = [] ->
  Driver.label_ids p = [] ->
  Driver.accuracy_of p = Ok None /\
  Driver.aggregate (before ++ None :: after) = "# final_acc: nan±nan"%string.
Proof.
  intros Hp Hl. split.
  - unfold Driver.accuracy_of. rewrite Hp, Hl. reflexivity.
  - unfold Driver.aggregate.
    assert (mapM (fun a : Driver.accuracy => a) (before ++ None :: after) = None)
      as ->; [|reflexivity].
    induction before as [|b before IH]; simpl; [reflexivity|].
    rewrite IH. destruct b; reflexivity.
Qed.

Lemma empty_test_set_reports_nan_witness :
  Driver.accuracy_of Demo.empty_output = Ok None /\
  Driver.aggregate ([Some (1 # 2)] ++ None :: [Some (3 # 4)])%Q
  = "# final_acc: nan±nan"%string.
Proof.
  apply (empty_test_set_reports_nan Demo.empty_output [Some (1 # 2)] [Some (3 # 4)])%Q;
    reflexivity.
Defined.

(** ** The driver, continued *)

Section SplitMore.
Import Split.

Lemma select_by_mask_nil {A : Type} (mask : list bool) :
  select_by_mask mask (@nil A) = [].
Proof. destruct mask; reflexivity. Qed.

(** Whenever gathering by the true positions of a mask succeeds, it has
    gathered the entries at the true positions. *)
Lemma collect_loop_nonzero_ok {A : Type} (mask : list bool) (i : nat)
      (txt tmp out : list A) :
  collect_loop (concat (nonzero_from (Z.of_nat i) mask)) txt tmp = Ok out ->
  out = tmp ++ select_by_mask mask (drop i txt).
Proof.
  revert i tmp. induction mask as [|b m IH]; intros i tmp.
  - simpl. intros [= <-]. rewrite app_nil_r. reflexivity.
  - replace (nonzero_from (Z.of_nat i) (b :: m))
      with (if b then [Z.of_nat i] :: nonzero_from (Z.of_nat (S i)) m
            else nonzero_from (Z.of_nat (S i)) m)
      by (simpl; replace (Z.of_nat i + 1) with (Z.of_nat (S i)) by lia;
          reflexivity).
    destruct b.
    + simpl concat. simpl collect_loop.
      destruct (py_getitem txt (Z.of_nat i)) as [x|e] eqn:Ex; simpl;
        [|discriminate].
      intros H. apply IH in H. subst out.
      assert (txt !! i = Some x) as Hx.
      { revert Ex. unfold py_getitem.
        destruct (Z.ltb_spec (Z.of_nat i) 0); [lia|].
        destruct (_ && _); [|discriminate]. rewrite Nat2Z.id.
        destruct (txt !! i); [intros [= ->]; reflexivity|discriminate]. }
      rewrite (drop_S _ _ _ Hx). simpl. rewrite <- app_assoc. reflexivity.
    + intros H. apply IH in H. subst out. f_equal.
      destruct (drop i txt) as [|x r] eqn:Hd.
      * assert (drop (S i) txt = []) as ->; [|apply select_by_mask_nil].
        apply drop_ge. apply (f_equal length) in Hd.
        rewrite length_drop in Hd. simpl in Hd. lia.
      * simpl. f_equal. change (S i) with (1 + i)%nat.
        rewrite Nat.add_comm, <- drop_drop, Hd. reflexivity.
Qed.

Lemma split_ok {A : Type} (mask : list bool) (txt out : list A) :
  collect_txt (mask_to_idx mask) txt = Ok out ->
  count_true mask <> 1%nat /\
  out = select_by_mask mask txt /\
  forall (y : list Z) (t : itensor),
    index_labels y (mask_to_idx mask) = Ok t ->
    t = Rank1 (select_by_mask mask y).
Proof.
  intros H.
  assert (count_true mask <> 1%nat) as Hc.
  { intros E. destruct (mask_to_idx_single mask txt E) as (? & _ & _ & Hr).
    congruence. }
  split; [exact Hc|]. rewrite (mask_to_idx_list mask Hc) in *. split.
  - simpl in H. apply (collect_loop_nonzero_ok mask 0) in H. exact H.
  - intros y t. unfold index_labels.
    destruct (collect_loop (concat (nonzero_from 0 mask)) y []) as [ys|e] eqn:E;
      simpl; [|discriminate].
    intros [= <-]. apply (collect_loop_nonzero_ok mask 0) in E. subst ys.
    reflexivity.
Qed.

End SplitMore.

Section DriverMore.
Import Driver.
Context (W : Type) (E : Externals W).

(** A pass that raises has announced its start and has neither printed
    nor appended an accuracy. *)
Lemma trial_raise_events (i : nat) (st : state W) :
  match trial W E i st with
  | (Ok a, st') => True
  | (Raise e, st') =>
      exists evs, trace st' = trace st ++ EvLoad i :: evs /\ Forall Driver.mid_pass evs
  end.
Proof.
  unfold trial, mbind, M_bind, mret, M_ret, lift, call, emit. simpl.
  repeat driver_step; try exact I;
    (eexists; split;
     [rewrite <- ?app_assoc; simpl; reflexivity
     |repeat (constructor; simpl; auto)]).
Qed.

Lemma run_trials_raise (seeds : list nat) (acc_list : list accuracy)
      (st : state W) :
  match run_trials W E seeds acc_list st with
  | (Ok accs, st') => True
  | (Raise e, st') =>
      exists rs i rest evs,
        seeds = map seed_of rs ++ i :: rest /\
        trace st' = trace st ++ concat (map events_of rs) ++ EvLoad i :: evs /\
        Forall Driver.mid_pass evs
  end.
Proof.
  revert acc_list st. induction seeds as [|i seeds IH]; intros acc_list st.
  - exact I.
  - simpl. unfold mbind at 1. unfold M_bind at 1.
    pose proof (trial_spec W E i st) as Ht.
    pose proof (trial_raise_events i st) as Hr.
    destruct (trial W E i st) as [[a|e] st1].
    + destruct Ht as (r & Hseed & <- & Htr & _).
      unfold mbind at 1. unfold M_bind at 1. unfold emit at 1.
      set (st2 := {| world := world st1;
                     trace := trace st1 ++ [EvAppend (acc_of r)] |}).
      specialize (IH (acc_list ++ [acc_of r]) st2).
      destruct (run_trials W E seeds (acc_list ++ [acc_of r]) st2)
        as [[accs|e] st3]; [exact I|].
      destruct IH as (rs & j & rest & evs & Hs & Ht' & Hev).
      exists (r :: rs), j, rest, evs.
      split; [simpl; congruence|]. split; [|exact Hev].
      rewrite Ht'. subst st2. simpl. rewrite Htr. unfold events_of.
      rewrite <- !app_assoc. reflexivity.
    + destruct Hr as (evs & Htr & Hev). exists [], i, seeds, evs.
      simpl. auto.
Qed.

End DriverMore.

(** A language-model name that is none of the three the script knows
    stops the run in the first pass: the data of seed 0 is loaded, the
    lookup raises KeyError, and no tokenizer or model is loaded. *)
Theorem unknown_lm_type_aborts (W : Type) (E : Driver.Externals W)
        (st : Driver.state W) (data : Driver.Data) (text : list string) (w : W) :
  Driver.lm_type (Driver.config W E) <> "sentencebert"%string ->
  Driver.lm_type (Driver.config W E) <> "deberta"%string ->
  Driver.lm_type (Driver.config W E) <> "bert"%string ->
  Driver.get_raw_text_cora W E true 0 (Driver.world st) = (Ok (data, text), w) ->
  Driver.main W E st
  = (Raise KeyError,
     {| Driver.world := w;
        Driver.trace := Driver.trace st ++ [Driver.EvLoad 0] |}).
Proof.
  intros H1 H2 H3 Hload.
  assert (Driver.dict_getitem Driver.mode_id (Driver.lm_type (Driver.config W E))
          = Raise KeyError) as Hkey.
  { unfold Driver.dict_getitem, Driver.mode_id.
    rewrite !lookup_insert_ne by congruence. rewrite lookup_empty. reflexivity. }
  unfold Driver.main. simpl.
  unfold mbind, Driver.M_bind, Driver.trial, mbind, Driver.M_bind,
    Driver.emit, Driver.call, Driver.lift. simpl.
  rewrite Hload. simpl. rewrite Hkey. reflexivity.
Qed.

Lemma unknown_lm_type_aborts_witness :
  Driver.main unit Demo.externals_roberta Demo.start
  = (Raise KeyError,
     {| Driver.world := tt;
        Driver.trace := Driver.trace Demo.start ++ [Driver.EvLoad 0] |}).
Proof.
  apply (unknown_lm_type_aborts unit Demo.externals_roberta Demo.start
           Demo.data Demo.text tt); try discriminate.
  reflexivity.
Defined.

(** What a pass that completes has done, call by call, each call
    starting from the state of the world the previous one left: the data
    was loaded with [use_text=True] and the pass's seed; the tokenizer and
    the encoder were loaded under the one hub name [mode_id[lm_type]];
    the head is [BertClassifier(bert_model, 7)]; none of the three masks
    has exactly one true entry; the tokenizer was given the texts at the
    true positions of the train, the validation and the test mask, in
    this order, each with length limit 256; the trainer was given the
    train encodings with the labels at the train mask's true positions
    and, for evaluation, the validation encodings with the validation
    labels; the prediction was made on the test encodings with the test
    labels; and the accuracy is that of this prediction. *)
Theorem trial_wiring (W : Type) (E : Driver.Externals W) (i : nat)
        (st st' : Driver.state W) (acc : Driver.accuracy) :
  Driver.trial W E i st = (Ok acc, st') ->
  exists data text name tok enc ps model trained enc_tr enc_va enc_te p
         (w0 wa wb w1 w2 w3 w4 w5 : W),
    Driver.get_raw_text_cora W E true i (Driver.world st) = (Ok (data, text), w0) /\
    Driver.dict_getitem Driver.mode_id (Driver.lm_type (Driver.config W E))
    = Ok name /\
    Driver.AutoTokenizer_from_pretrained W E name w0 = (Ok tok, wa) /\
    Driver.AutoModel_from_pretrained W E name wa = (Ok enc, wb) /\
    Driver.draw_params W E wb = (Ok ps, w1) /\
    Head.BertClassifier_init (Driver.py_int W E) ps enc 7 0%Q 0 true ""
    = Ok model /\
    Split.count_true (Driver.train_mask data) <> 1%nat /\
    Split.count_true (Driver.val_mask data) <> 1%nat /\
    Split.count_true (Driver.test_mask data) <> 1%nat /\
    Driver.tokenizer_call W E tok
      (Split.select_by_mask (Driver.train_mask data) text) 256 w1
    = (Ok enc_tr, w2) /\
    Driver.tokenizer_call W E tok
      (Split.select_by_mask (Driver.val_mask data) text) 256 w2
    = (Ok enc_va, w3) /\
    Driver.tokenizer_call W E tok
      (Split.select_by_mask (Driver.test_mask data) text) 256 w3
    = (Ok enc_te, w4) /\
    Driver.Trainer_train W E model (Driver.training_args W E)
      (NCDataset.init enc_tr
         (map Driver.TLabel
              (Split.select_by_mask (Driver.train_mask data) (Driver.y data))))
      (NCDataset.init enc_va
         (map Driver.TLabel
              (Split.select_by_mask (Driver.val_mask data) (Driver.y data))))
      w4
    = (Ok trained, w5) /\
    Driver.Trainer_predict W E trained
      (NCDataset.init enc_te
         (map Driver.TLabel
              (Split.select_by_mask (Driver.test_mask data) (Driver.y data))))
      w5
    = (Ok p, Driver.world st') /\
    Driver.accuracy_of p = Ok acc.
Proof.
  unfold Driver.trial, mbind, Driver.M_bind, mret, Driver.M_ret, Driver.lift,
    Driver.call, Driver.emit. simpl.
  repeat (driver_step; try solve [intros [=]]).
  intros [= <- <-]. simpl.
  repeat match goal with
         | H : Split.collect_txt (Split.mask_to_idx _) _ = Ok _ |- _ =>
             apply split_ok in H as (? & -> & ?)
         end.
  repeat match goal with
         | H : forall y t, Split.index_labels y (Split.mask_to_idx ?m) = Ok t -> _,
           H' : Split.index_labels _ (Split.mask_to_idx ?m) = Ok _ |- _ =>
             apply H in H'; subst; clear H
         end.
  simpl in *.
  repeat match goal with
         | H : Ok _ = Ok _ |- _ => injection H as <-
         end.
  do 20 eexists.
  repeat (split; [first [eassumption|reflexivity]|]). eassumption.
Qed.

Lemma trial_wiring_witness :
  exists data text name tok enc ps model trained enc_tr enc_va enc_te p
         (w0 wa wb w1 w2 w3 w4 w5 : unit),
    Driver.get_raw_text_cora unit Demo.externals true 3 (Driver.world Demo.start)
    = (Ok (data, text), w0) /\
    Driver.dict_getitem Driver.mode_id
      (Driver.lm_type (Driver.config unit Demo.externals))
    = Ok name /\
    Driver.AutoTokenizer_from_pretrained unit Demo.externals name w0
    = (Ok tok, wa) /\
    Driver.AutoModel_from_pretrained unit Demo.externals name wa = (Ok enc, wb) /\
    Driver.draw_params unit Demo.externals wb = (Ok ps, w1) /\
    Head.BertClassifier_init (Driver.py_int unit Demo.externals) ps enc 7 0%Q 0
                             true ""
    = Ok model /\
    Split.count_true (Driver.train_mask data) <> 1%nat /\
    Split.count_true (Driver.val_mask data) <> 1%nat /\
    Split.count_true (Driver.test_mask data) <> 1%nat /\
    Driver.tokenizer_call unit Demo.externals tok
      (Split.select_by_mask (Driver.train_mask data) text) 256 w1
    = (Ok enc_tr, w2) /\
    Driver.tokenizer_call unit Demo.externals tok
      (Split.select_by_mask (Driver.val_mask data) text) 256 w2
    = (Ok enc_va, w3) /\
    Driver.tokenizer_call unit Demo.externals tok
      (Split.select_by_mask (Driver.test_mask data) text) 256 w3
    = (Ok enc_te, w4) /\
    Driver.Trainer_train unit Demo.externals model
      (Driver.training_args unit Demo.externals)
      (NCDataset.init enc_tr
         (map Driver.TLabel
              (Split.select_by_mask (Driver.train_mask data) (Driver.y data))))
      (NCDataset.init enc_va
         (map Driver.TLabel
              (Split.select_by_mask (Driver.val_mask data) (Driver.y data))))
      w4
    = (Ok trained, w5) /\
    Driver.Trainer_predict unit Demo.externals trained
      (NCDataset.init enc_te
         (map Driver.TLabel
              (Split.select_by_mask (Driver.test_mask data) (Driver.y data))))
      w5
    = (Ok p, Driver.world (snd (Driver.trial unit Demo.externals 3 Demo.start))) /\
    Driver.accuracy_of p = Ok (Some (1 # 2)%Q).
Proof.
  apply (trial_wiring unit Demo.externals 3 Demo.start
           (snd (Driver.trial unit Demo.externals 3 Demo.start))
           (Some (1 # 2)%Q)).
  vm_compute. reflexivity.
Defined.

(** The script has no handler: when the run raises, it stopped inside
    one pass.  The passes before it are complete and in seed order, there
    are fewer than five of them; the failing pass was entered (the event
    [EvLoad] marks that the pass is about to call the loader, which may
    itself be what raised) and has neither printed nor appended an
    accuracy; and no later pass was entered. *)
Theorem failed_run_stops_in_pass (W : Type) (E : Driver.Externals W)
        (st st' : Driver.state W) (e : exn) :
  Driver.main W E st = (Raise e, st') ->
  exists rs evs,
    (length rs < 5)%nat /\
    map Driver.seed_of rs = seq 0 (length rs) /\
    Driver.trace st'
    = Driver.trace st ++ concat (map Driver.events_of rs)
      ++ Driver.EvLoad (length rs) :: evs /\
    Forall Driver.mid_pass evs.
Proof.
  unfold Driver.main. unfold mbind at 1. unfold Driver.M_bind at 1.
  pose proof (run_trials_raise W E (seq 0 5) [] st) as Hrun.
  destruct (Driver.run_trials W E (seq 0 5) [] st) as [[a|e'] st1];
    [discriminate|].
  intros [= <- <-].
  destruct Hrun as (rs & i & rest & evs & Hseeds & Htrace & Hev).
  assert (length rs < 5 /\ map Driver.seed_of rs = seq 0 (length rs)
          /\ i = length rs)%nat as (Hlen & Hmap & ->).
  { assert (length (map Driver.seed_of rs ++ i :: rest) = 5%nat) as Hl
        by (rewrite <- Hseeds; reflexivity).
    rewrite length_app, length_map in Hl. simpl in Hl.
    split; [lia|].
    assert (seq 0 5 = seq 0 (length rs) ++ seq (length rs) (5 - length rs)) as Hsplit.
    { rewrite <- seq_app. f_equal. lia. }
    rewrite Hsplit in Hseeds.
    apply app_inj_1 in Hseeds as [H1 H2];
      [|rewrite length_seq, length_map; reflexivity].
    split; [symmetry; exact H1|].
    destruct (5 - length rs)%nat eqn:E5; [lia|]. simpl in H2. congruence. }
  exists rs, evs. auto.
Qed.

Lemma failed_run_stops_in_pass_witness :
  exists rs evs,
    (length rs < 5)%nat /\
    map Driver.seed_of rs = seq 0 (length rs) /\
    Driver.trace (snd (Driver.main nat Demo.externals_failing Demo.start_failing))
    = Driver.trace Demo.start_failing ++ concat (map Driver.events_of rs)
      ++ Driver.EvLoad (length rs) :: evs /\
    Forall Driver.mid_pass evs.
Proof.
  apply (failed_run_stops_in_pass nat Demo.externals_failing Demo.start_failing
           (snd (Driver.main nat Demo.externals_failing Demo.start_failing))
           RuntimeError).
  vm_compute. reflexivity.
Defined.
